(** * MIGManager: a shallow embedding of the concurrent partition manager

    The development embeds [nvml_mig::MIGManager] (nvml_mig_optimal.h and
    its implementation file) and settles the properties of its partition
    registry, command worker, metrics cache and monitoring loop.  The
    class [NVMLAccounting] of the same sources is embedded in the module
    [Accounting].

    Conventions of the embedding.
    - Every C++ unsigned value is a [Z]; conversions to [unsigned int]
      are written out with [u32].
    - [std::map<std::string, V>] is a list of bindings kept in ascending
      key order, which is the order C++ iterates it in.
    - Member functions run in the monad [M]: they thread the manager
      object, the state of the NVML driver and an event trace, and they
      may throw an [NVMLException].
    - The NVML library is external: it is the type class
      [DriverInterface]; every call may change the driver state and is
      recorded in the trace together with the code it returned. *)

From Stdlib Require Import ZArith List String Ascii Bool Lia DecimalString Sorted.
Import ListNotations.

Open Scope string_scope.
Open Scope list_scope.
Open Scope Z_scope.

(* ================================================================== *)
(** ** std::map<std::string, V> *)
(* ================================================================== *)

Module StdMap.

Section Map.
Context {V : Type}.

Definition t : Type := list (string * V).

Definition empty : t := [].

(** [m.find(k)]: [None] stands for [m.end()]. *)
Fixpoint find (k : string) (m : t) : option V :=
  match m with
  | [] => None
  | (k', v) :: m' => if String.eqb k k' then Some v else find k m'
  end.

(** [m[k] = v]: overwrite the binding of [k] or add it in key order. *)
Fixpoint insert (k : string) (v : V) (m : t) : t :=
  match m with
  | [] => [(k, v)]
  | (k', v') :: m' =>
      match String.compare k k' with
      | Lt => (k, v) :: (k', v') :: m'
      | Eq => (k, v) :: m'
      | Gt => (k', v') :: insert k v m'
      end
  end.

Definition is_empty (m : t) : bool :=
  match m with [] => true | _ :: _ => false end.

Definition size (m : t) : nat := List.length m.

Definition keys (m : t) : list string := List.map fst m.

Definition values (m : t) : list V := List.map snd m.

End Map.

Arguments t : clear implicits.

End StdMap.

(* ================================================================== *)
(** ** NVML types and constants *)
(* ================================================================== *)

Definition nvmlReturn_t := Z.
Definition nvmlDevice_t := Z.
Definition nvmlGpuInstance_t := Z.
Definition nvmlComputeInstance_t := Z.

Definition NVML_SUCCESS : nvmlReturn_t := 0.
Definition NVML_TEMPERATURE_GPU : Z := 0.

(** Conversion to [unsigned int]. *)
Definition u32 (x : Z) : Z := x mod 2 ^ 32.

(** [std::to_string] of an unsigned value. *)
Definition to_string (x : Z) : string :=
  NilZero.string_of_uint (N.to_uint (Z.to_N x)).

Record nvmlMemory_t := {
  mem_total : Z;
  mem_free : Z;
  mem_used : Z
}.

Record nvmlUtilization_t := {
  util_gpu : Z;
  util_memory : Z
}.

Record nvmlGpuInstanceProfileInfo_t := {
  gip_memorySizeMB : Z;
  gip_multiprocessorCount : Z;
  gip_maxComputeInstances : Z
}.

Record nvmlGpuInstanceInfo_t := {
  gi_id : Z;
  gi_profileId : Z
}.

Record nvmlComputeInstanceInfo_t := {
  ci_id : Z
}.

Record nvmlProcessInfo_t := {
  pid : Z;
  usedGpuMemory : Z
}.

(* ================================================================== *)
(** ** The data model of nvml_mig_optimal.h *)
(* ================================================================== *)

(** [class NVMLException]: [what()] is
    [context + ": " + nvmlErrorString(err)]. *)
Record NVMLException := {
  exc_error : nvmlReturn_t;
  exc_message : string
}.

Definition what (e : NVMLException) : string := exc_message e.

Record MIGMetrics := {
  timestamp : Z;
  gpuUtilization : Z;
  memoryUtilization : Z;
  memoryUsed : Z;
  memoryFree : Z;
  memoryTotal : Z;
  powerUsage : Z;
  temperature : Z;
  processUtilization : StdMap.t Z
}.

Record MIGDeviceInfo := {
  deviceHandle : nvmlDevice_t;
  parentDeviceIndex : Z;
  instanceId : Z;
  profileId : Z;
  uuid : string;
  memorySize : Z;
  multiprocessorCount : Z;
  maxComputeInstances : Z;
  currentComputeInstances : Z;
  computeInstanceIds : list Z
}.

Record MIGProfile := {
  prof_profileId : Z;
  prof_memorySizeMB : Z;
  prof_multiprocessorCount : Z;
  prof_maxComputeInstances : Z;
  prof_name : string
}.

(** A completion handler [std::function<void(bool, const std::string&)>]
    is known by its identity and by how a call of it ends: it returns,
    or it throws an exception derived from [std::exception], given here
    with its [what()] text, depending on the arguments of the call.
    Invoking it is an event of the trace. An empty [std::function] is
    [None]. *)
Record Callback := {
  handler : nat;
  throws : bool -> string -> option NVMLException
}.

(** A handler that returns from every call. *)
Definition returning (n : nat) : Callback :=
  {| handler := n; throws := fun _ _ => None |}.

(** The closures that the facade puts on the task queue. Each captures
    the device index it was created with. *)
Inductive TaskBody :=
| TaskEnableMIG (deviceIndex : Z)
| TaskDisableMIG (deviceIndex : Z).

Record AsyncTask := {
  task : option TaskBody;
  callback : option Callback
}.

Record MIGManager := {
  devices : list nvmlDevice_t;
  migDevices : StdMap.t MIGDeviceInfo;
  monitoringActive : bool;
  latestMetrics : StdMap.t MIGMetrics;
  taskQueue : list AsyncTask;
  workerActive : bool
}.

(* ================================================================== *)
(** ** Events *)
(* ================================================================== *)

Inductive DriverCall :=
| CallInit
| CallShutdown
| CallDeviceGetCount
| CallDeviceGetHandleByIndex (index : Z)
| CallDeviceGetMigMode (device : nvmlDevice_t)
| CallDeviceSetMigMode (device : nvmlDevice_t) (mode : Z)
| CallDeviceGetGpuInstances (device : nvmlDevice_t)
| CallGpuInstanceGetInfo (gpuInstance : nvmlGpuInstance_t)
| CallGpuInstanceGetComputeInstances (gpuInstance : nvmlGpuInstance_t)
| CallComputeInstanceGetInfo (computeInstance : nvmlComputeInstance_t)
| CallComputeInstanceGetDeviceHandle
    (device : nvmlDevice_t) (gpuInstanceId : Z)
    (computeInstance : nvmlComputeInstance_t) (computeInstanceId : Z)
| CallDeviceGetUUID (device : nvmlDevice_t)
| CallDeviceGetMemoryInfo (device : nvmlDevice_t)
| CallDeviceGetGpuInstanceProfileInfo (device : nvmlDevice_t) (profile : Z)
| CallDeviceGetName (device : nvmlDevice_t)
| CallDeviceGetUtilizationRates (device : nvmlDevice_t)
| CallDeviceGetPowerUsage (device : nvmlDevice_t)
| CallDeviceGetTemperature (device : nvmlDevice_t) (sensor : Z)
| CallDeviceGetComputeRunningProcesses (device : nvmlDevice_t)
| CallSystemGetProcessName (process : Z).

Inductive Mutex := MetricsMutex | TaskMutex.
Inductive CondVar := MonitoringCV | TaskCV.
Inductive Thread := MonitoringThread | WorkerThread.

Inductive Event :=
| EDriver (c : DriverCall) (r : nvmlReturn_t)
| ECallback (cb : Callback) (success : bool) (message : string)
| ECerr (message : string)
| ELock (m : Mutex)
| EUnlock (m : Mutex)
| ENotify (cv : CondVar)
| EWaitFor (cv : CondVar) (timeout_ms : Z)
| ESpawn (th : Thread)
| EJoin (th : Thread).

Definition is_driver_call (e : Event) : bool :=
  match e with EDriver _ _ => true | _ => false end.

Definition driver_calls_of (tr : list Event) : list Event :=
  filter is_driver_call tr.

Definition callbacks_of (tr : list Event) : list (Callback * bool * string) :=
  flat_map (fun e => match e with
                     | ECallback cb ok msg => [(cb, ok, msg)]
                     | _ => []
                     end) tr.

Definition waits_of (tr : list Event) : list Z :=
  flat_map (fun e => match e with
                     | EWaitFor _ ms => [ms]
                     | _ => []
                     end) tr.

(* ================================================================== *)
(** ** The driver interface *)
(* ================================================================== *)

(** The NVML entry points the manager calls. [D] is the state of the
    driver and of the hardware behind it; a call returns its status
    code, the contents of its out-parameters after the call, and the
    next state. An array out-parameter with its count is a list.
    [NVML_ENABLE_MIG] and [NVML_DISABLE_MIG] are macros of a header that
    is not part of the repository, so they are members of the
    interface. [nvmlComputeInstanceDeviceHandle] stands for whichever of
    the two handle getters the NVML_API_VERSION switch selects. *)
Class DriverInterface (D : Type) := {
  NVML_ENABLE_MIG : Z;
  NVML_DISABLE_MIG : Z;
  nvmlErrorString : nvmlReturn_t -> string;
  system_clock_now : D -> Z;
  nvmlInit : D -> nvmlReturn_t * unit * D;
  nvmlShutdown : D -> nvmlReturn_t * unit * D;
  nvmlDeviceGetCount : D -> nvmlReturn_t * Z * D;
  nvmlDeviceGetHandleByIndex : Z -> D -> nvmlReturn_t * nvmlDevice_t * D;
  nvmlDeviceGetMigMode : nvmlDevice_t -> D -> nvmlReturn_t * (Z * Z) * D;
  nvmlDeviceSetMigMode : nvmlDevice_t -> Z -> D -> nvmlReturn_t * unit * D;
  nvmlDeviceGetGpuInstances :
    nvmlDevice_t -> D -> nvmlReturn_t * list nvmlGpuInstance_t * D;
  nvmlGpuInstanceGetInfo :
    nvmlGpuInstance_t -> D -> nvmlReturn_t * nvmlGpuInstanceInfo_t * D;
  nvmlGpuInstanceGetComputeInstances :
    nvmlGpuInstance_t -> D -> nvmlReturn_t * list nvmlComputeInstance_t * D;
  nvmlComputeInstanceGetInfo :
    nvmlComputeInstance_t -> D -> nvmlReturn_t * nvmlComputeInstanceInfo_t * D;
  nvmlComputeInstanceDeviceHandle :
    nvmlDevice_t -> Z -> nvmlComputeInstance_t -> Z -> D ->
    nvmlReturn_t * nvmlDevice_t * D;
  nvmlDeviceGetUUID : nvmlDevice_t -> D -> nvmlReturn_t * string * D;
  nvmlDeviceGetMemoryInfo : nvmlDevice_t -> D -> nvmlReturn_t * nvmlMemory_t * D;
  nvmlDeviceGetGpuInstanceProfileInfo :
    nvmlDevice_t -> Z -> D -> nvmlReturn_t * nvmlGpuInstanceProfileInfo_t * D;
  nvmlDeviceGetName : nvmlDevice_t -> D -> nvmlReturn_t * string * D;
  nvmlDeviceGetUtilizationRates :
    nvmlDevice_t -> D -> nvmlReturn_t * nvmlUtilization_t * D;
  nvmlDeviceGetPowerUsage : nvmlDevice_t -> D -> nvmlReturn_t * Z * D;
  nvmlDeviceGetTemperature : nvmlDevice_t -> Z -> D -> nvmlReturn_t * Z * D;
  nvmlDeviceGetComputeRunningProcesses :
    nvmlDevice_t -> D -> nvmlReturn_t * list nvmlProcessInfo_t * D;
  nvmlSystemGetProcessName : Z -> D -> nvmlReturn_t * string * D
}.

(* ================================================================== *)
(** ** The monad of member functions *)
(* ================================================================== *)

Inductive Result (A : Type) :=
| Ok (a : A)
| Throw (e : NVMLException).

Arguments Ok {A} a.
Arguments Throw {A} e.

(** The world a member function runs in. [indet_metrics] and
    [indet_info] give the contents that a default-initialised
    [MIGMetrics] or [MIGDeviceInfo] object finds in its scalar members:
    neither struct has member initialisers, so a declaration such as
    [MIGMetrics metrics;] leaves them indeterminate. *)
Record World (D : Type) := {
  mgr : MIGManager;
  drv : D;
  trace : list Event;
  indet_metrics : MIGMetrics;
  indet_info : MIGDeviceInfo
}.

Arguments mgr {D} w.
Arguments drv {D} w.
Arguments trace {D} w.
Arguments indet_metrics {D} w.
Arguments indet_info {D} w.

Definition M (D A : Type) : Type := World D -> Result A * World D.

Definition ret {D A} (a : A) : M D A := fun w => (Ok a, w).

Definition bind {D A B} (c : M D A) (k : A -> M D B) : M D B :=
  fun w =>
    match c w with
    | (Ok a, w') => k a w'
    | (Throw e, w') => (Throw e, w')
    end.

Definition throw {D A} (e : NVMLException) : M D A := fun w => (Throw e, w).

(** [try { c } catch (const std::exception& e) { h e }] *)
Definition try_catch {D A} (c : M D A) (h : NVMLException -> M D A) : M D A :=
  fun w =>
    match c w with
    | (Ok a, w') => (Ok a, w')
    | (Throw e, w') => h e w'
    end.

Declare Scope monad_scope.
Delimit Scope monad_scope with monad.
Notation "x <- c ;; k" := (bind c (fun x => k))
  (at level 61, c at next level, right associativity) : monad_scope.
Notation "' pat <- c ;; k" := (bind c (fun x => match x with pat => k end))
  (at level 61, pat pattern, c at next level, right associativity) : monad_scope.
Notation "c ;; k" := (bind c (fun _ => k))
  (at level 61, right associativity) : monad_scope.
Open Scope monad_scope.

Definition this {D} : M D MIGManager := fun w => (Ok (mgr w), w).

Definition set_mgr {D} (m : MIGManager) : M D unit :=
  fun w => (Ok tt, {| mgr := m; drv := drv w; trace := trace w;
                      indet_metrics := indet_metrics w;
                      indet_info := indet_info w |}).

Definition emit {D} (e : Event) : M D unit :=
  fun w => (Ok tt, {| mgr := mgr w; drv := drv w; trace := trace w ++ [e];
                      indet_metrics := indet_metrics w;
                      indet_info := indet_info w |}).

(** One call into the driver: the driver state advances and the call is
    logged with its status code. *)
Definition driver_call {D R} (c : DriverCall) (f : D -> nvmlReturn_t * R * D)
  : M D (nvmlReturn_t * R) :=
  fun w =>
    let '(r, v, d') := f (drv w) in
    (Ok (r, v), {| mgr := mgr w; drv := d'; trace := trace w ++ [EDriver c r];
                   indet_metrics := indet_metrics w;
                   indet_info := indet_info w |}).

(** [std::lock_guard<std::mutex> lock(m);] around [body]; the guard
    releases the mutex when an exception unwinds the scope. *)
Definition lock_guard {D A} (m : Mutex) (body : M D A) : M D A :=
  emit (ELock m) ;;
  try_catch (a <- body ;; emit (EUnlock m) ;; ret a)
            (fun e => emit (EUnlock m) ;; throw e).

(** [for (x : l) body(x)] with the loop-carried locals in [acc]. *)
Fixpoint for_each {D A S} (l : list A) (body : A -> S -> M D S) (acc : S)
  : M D S :=
  match l with
  | [] => ret acc
  | x :: l' => acc' <- body x acc ;; for_each l' body acc'
  end.

(** The indices [0 .. n-1] of a [for (i = 0; i < n; i++)] loop. *)
Definition range (n : nat) : list Z := List.map Z.of_nat (seq 0 n).

(** [v[i]] on a [std::vector]. *)
Definition at_index (v : list nvmlDevice_t) (i : Z) : nvmlDevice_t :=
  nth (Z.to_nat i) v 0.

(** [i >= v.size()] *)
Definition out_of_range (v : list nvmlDevice_t) (i : Z) : bool :=
  Z.of_nat (List.length v) <=? i.

(* ================================================================== *)
(** ** Assignments to struct members *)
(* ================================================================== *)

Definition set_deviceHandle (x : nvmlDevice_t) (i : MIGDeviceInfo) : MIGDeviceInfo :=
  {| deviceHandle := x; parentDeviceIndex := parentDeviceIndex i;
     instanceId := instanceId i; profileId := profileId i; uuid := uuid i;
     memorySize := memorySize i; multiprocessorCount := multiprocessorCount i;
     maxComputeInstances := maxComputeInstances i;
     currentComputeInstances := currentComputeInstances i;
     computeInstanceIds := computeInstanceIds i |}.

Definition set_parentDeviceIndex (x : Z) (i : MIGDeviceInfo) : MIGDeviceInfo :=
  {| deviceHandle := deviceHandle i; parentDeviceIndex := x;
     instanceId := instanceId i; profileId := profileId i; uuid := uuid i;
     memorySize := memorySize i; multiprocessorCount := multiprocessorCount i;
     maxComputeInstances := maxComputeInstances i;
     currentComputeInstances := currentComputeInstances i;
     computeInstanceIds := computeInstanceIds i |}.

Definition set_instance_and_profile (id prof : Z) (i : MIGDeviceInfo) : MIGDeviceInfo :=
  {| deviceHandle := deviceHandle i; parentDeviceIndex := parentDeviceIndex i;
     instanceId := id; profileId := prof; uuid := uuid i;
     memorySize := memorySize i; multiprocessorCount := multiprocessorCount i;
     maxComputeInstances := maxComputeInstances i;
     currentComputeInstances := currentComputeInstances i;
     computeInstanceIds := computeInstanceIds i |}.

Definition set_uuid (x : string) (i : MIGDeviceInfo) : MIGDeviceInfo :=
  {| deviceHandle := deviceHandle i; parentDeviceIndex := parentDeviceIndex i;
     instanceId := instanceId i; profileId := profileId i; uuid := x;
     memorySize := memorySize i; multiprocessorCount := multiprocessorCount i;
     maxComputeInstances := maxComputeInstances i;
     currentComputeInstances := currentComputeInstances i;
     computeInstanceIds := computeInstanceIds i |}.

Definition set_memorySize (x : Z) (i : MIGDeviceInfo) : MIGDeviceInfo :=
  {| deviceHandle := deviceHandle i; parentDeviceIndex := parentDeviceIndex i;
     instanceId := instanceId i; profileId := profileId i; uuid := uuid i;
     memorySize := x; multiprocessorCount := multiprocessorCount i;
     maxComputeInstances := maxComputeInstances i;
     currentComputeInstances := currentComputeInstances i;
     computeInstanceIds := computeInstanceIds i |}.

Definition set_profile_limits (maxCI mp : Z) (i : MIGDeviceInfo) : MIGDeviceInfo :=
  {| deviceHandle := deviceHandle i; parentDeviceIndex := parentDeviceIndex i;
     instanceId := instanceId i; profileId := profileId i; uuid := uuid i;
     memorySize := memorySize i; multiprocessorCount := mp;
     maxComputeInstances := maxCI;
     currentComputeInstances := currentComputeInstances i;
     computeInstanceIds := computeInstanceIds i |}.

Definition set_currentComputeInstances (x : Z) (i : MIGDeviceInfo) : MIGDeviceInfo :=
  {| deviceHandle := deviceHandle i; parentDeviceIndex := parentDeviceIndex i;
     instanceId := instanceId i; profileId := profileId i; uuid := uuid i;
     memorySize := memorySize i; multiprocessorCount := multiprocessorCount i;
     maxComputeInstances := maxComputeInstances i;
     currentComputeInstances := x;
     computeInstanceIds := computeInstanceIds i |}.

Definition set_computeInstanceIds (x : list Z) (i : MIGDeviceInfo) : MIGDeviceInfo :=
  {| deviceHandle := deviceHandle i; parentDeviceIndex := parentDeviceIndex i;
     instanceId := instanceId i; profileId := profileId i; uuid := uuid i;
     memorySize := memorySize i; multiprocessorCount := multiprocessorCount i;
     maxComputeInstances := maxComputeInstances i;
     currentComputeInstances := currentComputeInstances i;
     computeInstanceIds := x |}.

Definition set_timestamp (x : Z) (m : MIGMetrics) : MIGMetrics :=
  {| timestamp := x; gpuUtilization := gpuUtilization m;
     memoryUtilization := memoryUtilization m; memoryUsed := memoryUsed m;
     memoryFree := memoryFree m; memoryTotal := memoryTotal m;
     powerUsage := powerUsage m; temperature := temperature m;
     processUtilization := processUtilization m |}.

Definition set_utilization (g mu : Z) (m : MIGMetrics) : MIGMetrics :=
  {| timestamp := timestamp m; gpuUtilization := g;
     memoryUtilization := mu; memoryUsed := memoryUsed m;
     memoryFree := memoryFree m; memoryTotal := memoryTotal m;
     powerUsage := powerUsage m; temperature := temperature m;
     processUtilization := processUtilization m |}.

Definition set_memory (used free total : Z) (m : MIGMetrics) : MIGMetrics :=
  {| timestamp := timestamp m; gpuUtilization := gpuUtilization m;
     memoryUtilization := memoryUtilization m; memoryUsed := used;
     memoryFree := free; memoryTotal := total;
     powerUsage := powerUsage m; temperature := temperature m;
     processUtilization := processUtilization m |}.

Definition set_powerUsage (x : Z) (m : MIGMetrics) : MIGMetrics :=
  {| timestamp := timestamp m; gpuUtilization := gpuUtilization m;
     memoryUtilization := memoryUtilization m; memoryUsed := memoryUsed m;
     memoryFree := memoryFree m; memoryTotal := memoryTotal m;
     powerUsage := x; temperature := temperature m;
     processUtilization := processUtilization m |}.

Definition set_temperature (x : Z) (m : MIGMetrics) : MIGMetrics :=
  {| timestamp := timestamp m; gpuUtilization := gpuUtilization m;
     memoryUtilization := memoryUtilization m; memoryUsed := memoryUsed m;
     memoryFree := memoryFree m; memoryTotal := memoryTotal m;
     powerUsage := powerUsage m; temperature := x;
     processUtilization := processUtilization m |}.

Definition set_processUtilization (x : StdMap.t Z) (m : MIGMetrics) : MIGMetrics :=
  {| timestamp := timestamp m; gpuUtilization := gpuUtilization m;
     memoryUtilization := memoryUtilization m; memoryUsed := memoryUsed m;
     memoryFree := memoryFree m; memoryTotal := memoryTotal m;
     powerUsage := powerUsage m; temperature := temperature m;
     processUtilization := x |}.

Definition set_devices (x : list nvmlDevice_t) (m : MIGManager) : MIGManager :=
  {| devices := x; migDevices := migDevices m;
     monitoringActive := monitoringActive m; latestMetrics := latestMetrics m;
     taskQueue := taskQueue m; workerActive := workerActive m |}.

Definition set_migDevices (x : StdMap.t MIGDeviceInfo) (m : MIGManager) : MIGManager :=
  {| devices := devices m; migDevices := x;
     monitoringActive := monitoringActive m; latestMetrics := latestMetrics m;
     taskQueue := taskQueue m; workerActive := workerActive m |}.

Definition set_monitoringActive (x : bool) (m : MIGManager) : MIGManager :=
  {| devices := devices m; migDevices := migDevices m;
     monitoringActive := x; latestMetrics := latestMetrics m;
     taskQueue := taskQueue m; workerActive := workerActive m |}.

Definition set_latestMetrics (x : StdMap.t MIGMetrics) (m : MIGManager) : MIGManager :=
  {| devices := devices m; migDevices := migDevices m;
     monitoringActive := monitoringActive m; latestMetrics := x;
     taskQueue := taskQueue m; workerActive := workerActive m |}.

Definition set_taskQueue (x : list AsyncTask) (m : MIGManager) : MIGManager :=
  {| devices := devices m; migDevices := migDevices m;
     monitoringActive := monitoringActive m; latestMetrics := latestMetrics m;
     taskQueue := x; workerActive := workerActive m |}.

Definition set_workerActive (x : bool) (m : MIGManager) : MIGManager :=
  {| devices := devices m; migDevices := migDevices m;
     monitoringActive := monitoringActive m; latestMetrics := latestMetrics m;
     taskQueue := taskQueue m; workerActive := x |}.


(** [this->member = ...] *)
Definition assign {D} (f : MIGManager -> MIGManager) : M D unit :=
  m <- this ;; set_mgr (f m).

(** A default-initialised [MIGDeviceInfo]: the string and the vector are
    empty, the scalar members hold whatever the storage held. *)
Definition declare_MIGDeviceInfo {D} : M D MIGDeviceInfo :=
  fun w => (Ok (set_computeInstanceIds [] (set_uuid "" (indet_info w))), w).

(** A default-initialised [MIGMetrics]: the time point is the epoch and
    the map is empty, the scalar members hold whatever the storage held. *)
Definition declare_MIGMetrics {D} : M D MIGMetrics :=
  fun w => (Ok (set_processUtilization StdMap.empty
                  (set_timestamp 0 (indet_metrics w))), w).

(** [if (callback) callback(success, message);] *)
Definition invoke {D} (cb : option Callback) (success : bool) (message : string)
  : M D unit :=
  match cb with
  | Some c =>
      emit (ECallback c success message) ;;
      match throws c success message with
      | Some e => throw e
      | None => ret tt
      end
  | None => ret tt
  end.

(** The invocation of an optional handler, as events. *)
Definition handler_events (cb : option Callback) (ok : bool) (msg : string)
  : list Event :=
  match cb with
  | Some c => [ECallback c ok msg]
  | None => []
  end.

(** The exception, if any, that leaves the invocation of an optional
    handler. *)
Definition thrown_by (cb : option Callback) (ok : bool) (msg : string)
  : option NVMLException :=
  match cb with
  | Some c => throws c ok msg
  | None => None
  end.

(** The elements of a C array or vector with their positions. *)
Definition indexed {A} (l : list A) : list (Z * A) :=
  combine (range (List.length l)) l.

(* ================================================================== *)
(** ** The member functions of MIGManager *)
(* ================================================================== *)

Section Manager.

Context {D : Type} `{DriverInterface D}.

Definition mkNVMLException (err : nvmlReturn_t) (context : string)
  : NVMLException :=
  {| exc_error := err;
     exc_message := (context ++ ": " ++ nvmlErrorString err)%string |}.

Definition now : M D Z := fun w => (Ok (system_clock_now (drv w)), w).

(** [bool MIGManager::isMIGModeEnabled(unsigned int deviceIndex)] *)
Definition isMIGModeEnabled (deviceIndex : Z) : M D bool :=
  m <- this ;;
  if out_of_range (devices m) deviceIndex then ret false
  else
    let dev := at_index (devices m) deviceIndex in
    ' (result, (currentMode, pendingMode)) <-
        driver_call (CallDeviceGetMigMode dev) (nvmlDeviceGetMigMode dev) ;;
    ret ((result =? NVML_SUCCESS) && (currentMode =? NVML_ENABLE_MIG)).

(** The [if (j == 0)] block of [refreshMIGDevices]: the first compute
    instance yields the MIG device handle, and through it the UUID, the
    memory size and the limits of the profile. *)
Definition refresh_first_compute_instance
    (dev : nvmlDevice_t) (instanceInfo : nvmlGpuInstanceInfo_t)
    (computeInstance : nvmlComputeInstance_t)
    (ciInfo : nvmlComputeInstanceInfo_t) (migInfo : MIGDeviceInfo)
  : M D MIGDeviceInfo :=
  ' (_, handle) <-
      driver_call
        (CallComputeInstanceGetDeviceHandle dev (gi_id instanceInfo)
           computeInstance (ci_id ciInfo))
        (nvmlComputeInstanceDeviceHandle dev (gi_id instanceInfo)
           computeInstance (ci_id ciInfo)) ;;
  let migInfo := set_deviceHandle handle migInfo in
  ' (r_uuid, uuid_buf) <-
      driver_call (CallDeviceGetUUID handle) (nvmlDeviceGetUUID handle) ;;
  let migInfo :=
    if r_uuid =? NVML_SUCCESS then set_uuid uuid_buf migInfo else migInfo in
  ' (r_mem, memInfo) <-
      driver_call (CallDeviceGetMemoryInfo handle)
                  (nvmlDeviceGetMemoryInfo handle) ;;
  let migInfo :=
    if r_mem =? NVML_SUCCESS
    then set_memorySize (mem_total memInfo) migInfo else migInfo in
  ' (r_prof, profileInfo) <-
      driver_call
        (CallDeviceGetGpuInstanceProfileInfo dev (gi_profileId instanceInfo))
        (nvmlDeviceGetGpuInstanceProfileInfo dev (gi_profileId instanceInfo)) ;;
  let migInfo :=
    if r_prof =? NVML_SUCCESS
    then set_profile_limits (gip_maxComputeInstances profileInfo)
                            (gip_multiprocessorCount profileInfo) migInfo
    else migInfo in
  ret migInfo.

(** The body of the loop over [computeInstances[j]]. *)
Definition refresh_compute_instance
    (dev : nvmlDevice_t) (instanceInfo : nvmlGpuInstanceInfo_t)
    (jc : Z * nvmlComputeInstance_t) (migInfo : MIGDeviceInfo)
  : M D MIGDeviceInfo :=
  let '(j, computeInstance) := jc in
  ' (r, ciInfo) <-
      driver_call (CallComputeInstanceGetInfo computeInstance)
                  (nvmlComputeInstanceGetInfo computeInstance) ;;
  if r =? NVML_SUCCESS then
    let migInfo :=
      set_computeInstanceIds (computeInstanceIds migInfo ++ [ci_id ciInfo])
                             migInfo in
    if j =? 0
    then refresh_first_compute_instance dev instanceInfo computeInstance
                                        ciInfo migInfo
    else ret migInfo
  else ret migInfo.

(** The body of the loop over [gpuInstances[i]]: at most one binding
    is added to [newDevices]. *)
Definition refresh_gpu_instance
    (deviceIndex : Z) (dev : nvmlDevice_t) (gpuInstance : nvmlGpuInstance_t)
    (newDevices : StdMap.t MIGDeviceInfo)
  : M D (StdMap.t MIGDeviceInfo) :=
  migInfo <- declare_MIGDeviceInfo ;;
  let migInfo := set_parentDeviceIndex (u32 deviceIndex) migInfo in
  ' (r_info, instanceInfo) <-
      driver_call (CallGpuInstanceGetInfo gpuInstance)
                  (nvmlGpuInstanceGetInfo gpuInstance) ;;
  if r_info =? NVML_SUCCESS then
    let migInfo :=
      set_instance_and_profile (gi_id instanceInfo) (gi_profileId instanceInfo)
                               migInfo in
    ' (r_ci, computeInstances) <-
        driver_call (CallGpuInstanceGetComputeInstances gpuInstance)
                    (nvmlGpuInstanceGetComputeInstances gpuInstance) ;;
    if r_ci =? NVML_SUCCESS then
      let migInfo := set_computeInstanceIds [] migInfo in
      let migInfo :=
        set_currentComputeInstances
          (u32 (Z.of_nat (List.length computeInstances))) migInfo in
      migInfo <- for_each (indexed computeInstances)
                          (refresh_compute_instance dev instanceInfo) migInfo ;;
      if negb (String.eqb (uuid migInfo) "")
      then ret (StdMap.insert (uuid migInfo) migInfo newDevices)
      else ret newDevices
    else ret newDevices
  else ret newDevices.

(** The body of the loop over [deviceIndex] in [refreshMIGDevices]. *)
Definition refresh_device
    (deviceIndex : Z) (newDevices : StdMap.t MIGDeviceInfo)
  : M D (StdMap.t MIGDeviceInfo) :=
  enabled <- isMIGModeEnabled (u32 deviceIndex) ;;
  if negb enabled then ret newDevices
  else
    m <- this ;;
    let dev := at_index (devices m) deviceIndex in
    ' (result, gpuInstances) <-
        driver_call (CallDeviceGetGpuInstances dev)
                    (nvmlDeviceGetGpuInstances dev) ;;
    if result =? NVML_SUCCESS
    then for_each gpuInstances (refresh_gpu_instance deviceIndex dev) newDevices
    else ret newDevices.

(** The closing block of [refreshMIGDevices]:
    [{ lock_guard lock(metricsMutex); migDevices = std::move(newDevices); }] *)
Definition publish (newDevices : StdMap.t MIGDeviceInfo) : M D unit :=
  lock_guard MetricsMutex (assign (set_migDevices newDevices)).

(** [void MIGManager::refreshMIGDevices()] *)
Definition refreshMIGDevices : M D unit :=
  m <- this ;;
  newDevices <- for_each (range (List.length (devices m))) refresh_device
                         StdMap.empty ;;
  publish newDevices.

(** The body of the loop over [i] in [initializeDevices]. *)
Definition acquire_handle (i : Z) (_ : unit) : M D unit :=
  ' (result, device) <-
      driver_call (CallDeviceGetHandleByIndex i)
                  (nvmlDeviceGetHandleByIndex i) ;;
  if result =? NVML_SUCCESS
  then assign (fun m => set_devices (devices m ++ [device]) m)
  else emit (ECerr ("경고: 디바이스 " ++ to_string i
                    ++ " 핸들 획득 실패")%string).

(** [void MIGManager::initializeDevices()] *)
Definition initializeDevices : M D unit :=
  ' (result, deviceCount) <-
      driver_call CallDeviceGetCount nvmlDeviceGetCount ;;
  if negb (result =? NVML_SUCCESS)
  then throw (mkNVMLException result "디바이스 개수 조회 실패")
  else
    assign (set_devices []) ;;
    for_each (range (Z.to_nat deviceCount)) acquire_handle tt ;;
    refreshMIGDevices.

(** The closure queued by the asynchronous [enableMIGMode]. *)
Definition task_enableMIGMode (deviceIndex : Z) : M D unit :=
  m <- this ;;
  let dev := at_index (devices m) deviceIndex in
  ' (result, _) <-
      driver_call (CallDeviceSetMigMode dev NVML_ENABLE_MIG)
                  (nvmlDeviceSetMigMode dev NVML_ENABLE_MIG) ;;
  if negb (result =? NVML_SUCCESS)
  then throw (mkNVMLException result "MIG 모드 활성화 실패")
  else refreshMIGDevices.

(** The closure queued by the asynchronous [disableMIGMode]. *)
Definition task_disableMIGMode (deviceIndex : Z) : M D unit :=
  m <- this ;;
  let dev := at_index (devices m) deviceIndex in
  ' (result, _) <-
      driver_call (CallDeviceSetMigMode dev NVML_DISABLE_MIG)
                  (nvmlDeviceSetMigMode dev NVML_DISABLE_MIG) ;;
  if negb (result =? NVML_SUCCESS)
  then throw (mkNVMLException result "MIG 모드 비활성화 실패")
  else refreshMIGDevices.

(** [task.task()] *)
Definition run_task (t : TaskBody) : M D unit :=
  match t with
  | TaskEnableMIG deviceIndex => task_enableMIGMode deviceIndex
  | TaskDisableMIG deviceIndex => task_disableMIGMode deviceIndex
  end.

(** [taskQueue.push({task, callback})] under [taskMutex], then
    [taskCV.notify_one()]. *)
Definition enqueue (t : TaskBody) (cb : option Callback) : M D unit :=
  lock_guard TaskMutex
    (assign (fun m =>
       set_taskQueue (taskQueue m ++ [{| task := Some t; callback := cb |}]) m)) ;;
  emit (ENotify TaskCV).

(** [bool MIGManager::enableMIGMode(deviceIndex, async, callback)] *)
Definition enableMIGMode (deviceIndex : Z) (async : bool)
    (cb : option Callback) : M D bool :=
  m <- this ;;
  if out_of_range (devices m) deviceIndex then
    invoke cb false "유효하지 않은 디바이스 인덱스" ;;
    ret false
  else if async then
    enqueue (TaskEnableMIG deviceIndex) cb ;;
    ret true
  else
    try_catch
      (let dev := at_index (devices m) deviceIndex in
       ' (result, _) <-
           driver_call (CallDeviceSetMigMode dev NVML_ENABLE_MIG)
                       (nvmlDeviceSetMigMode dev NVML_ENABLE_MIG) ;;
       if negb (result =? NVML_SUCCESS) then
         invoke cb false (nvmlErrorString result) ;;
         ret false
       else
         refreshMIGDevices ;;
         invoke cb true "MIG 모드 활성화 성공" ;;
         ret true)
      (fun e => invoke cb false (what e) ;; ret false).

(** [bool MIGManager::disableMIGMode(deviceIndex, async, callback)] *)
Definition disableMIGMode (deviceIndex : Z) (async : bool)
    (cb : option Callback) : M D bool :=
  m <- this ;;
  if out_of_range (devices m) deviceIndex then
    invoke cb false "유효하지 않은 디바이스 인덱스" ;;
    ret false
  else if async then
    enqueue (TaskDisableMIG deviceIndex) cb ;;
    ret true
  else
    try_catch
      (let dev := at_index (devices m) deviceIndex in
       ' (result, _) <-
           driver_call (CallDeviceSetMigMode dev NVML_DISABLE_MIG)
                       (nvmlDeviceSetMigMode dev NVML_DISABLE_MIG) ;;
       if negb (result =? NVML_SUCCESS) then
         invoke cb false (nvmlErrorString result) ;;
         ret false
       else
         refreshMIGDevices ;;
         invoke cb true "MIG 모드 비활성화 성공" ;;
         ret true)
      (fun e => invoke cb false (what e) ;; ret false).

(** [std::vector<MIGProfile> MIGManager::getAvailableProfiles(deviceIndex)] *)
Definition getAvailableProfiles (deviceIndex : Z) : M D (list MIGProfile) :=
  m <- this ;;
  if out_of_range (devices m) deviceIndex then ret []
  else
    let dev := at_index (devices m) deviceIndex in
    for_each (range 8)
      (fun profileId profiles =>
         ' (result, profileInfo) <-
             driver_call (CallDeviceGetGpuInstanceProfileInfo dev profileId)
                         (nvmlDeviceGetGpuInstanceProfileInfo dev profileId) ;;
         if result =? NVML_SUCCESS then
           ' (r_name, name) <-
               driver_call (CallDeviceGetName dev) (nvmlDeviceGetName dev) ;;
           let profile_name :=
             if r_name =? NVML_SUCCESS
             then (name ++ "_Profile_" ++ to_string profileId)%string
             else ("GPU" ++ to_string deviceIndex ++ "_Profile_"
                   ++ to_string profileId)%string in
           ret (profiles ++
                [{| prof_profileId := profileId;
                    prof_memorySizeMB := gip_memorySizeMB profileInfo;
                    prof_multiprocessorCount :=
                      gip_multiprocessorCount profileInfo;
                    prof_maxComputeInstances :=
                      gip_maxComputeInstances profileInfo;
                    prof_name := profile_name |}])
         else ret profiles)
      [].

(** The body of the loop over [processes[i]] in [collectDeviceMetrics]. *)
Definition collect_process (p : nvmlProcessInfo_t) (metrics : MIGMetrics)
  : M D MIGMetrics :=
  ' (_, name) <-
      driver_call (CallSystemGetProcessName (pid p))
                  (nvmlSystemGetProcessName (pid p)) ;;
  let processName :=
    if String.eqb name "" then ("pid_" ++ to_string (pid p))%string
    else name in
  ret (set_processUtilization
         (StdMap.insert processName (u32 (usedGpuMemory p / (1024 * 1024)))
                        (processUtilization metrics))
         metrics).

(** [MIGMetrics MIGManager::collectDeviceMetrics(const MIGDeviceInfo&)] *)
Definition collectDeviceMetrics (device : MIGDeviceInfo) : M D MIGMetrics :=
  metrics <- declare_MIGMetrics ;;
  t <- now ;;
  let metrics := set_timestamp t metrics in
  ' (r_util, utilization) <-
      driver_call (CallDeviceGetUtilizationRates (deviceHandle device))
                  (nvmlDeviceGetUtilizationRates (deviceHandle device)) ;;
  let metrics :=
    if r_util =? NVML_SUCCESS
    then set_utilization (util_gpu utilization) (util_memory utilization)
                         metrics
    else metrics in
  ' (r_mem, memInfo) <-
      driver_call (CallDeviceGetMemoryInfo (deviceHandle device))
                  (nvmlDeviceGetMemoryInfo (deviceHandle device)) ;;
  let metrics :=
    if r_mem =? NVML_SUCCESS
    then set_memory (mem_used memInfo) (mem_free memInfo) (mem_total memInfo)
                    metrics
    else metrics in
  m <- this ;;
  let parent := at_index (devices m) (parentDeviceIndex device) in
  ' (r_power, power) <-
      driver_call (CallDeviceGetPowerUsage parent)
                  (nvmlDeviceGetPowerUsage parent) ;;
  let metrics :=
    if r_power =? NVML_SUCCESS then set_powerUsage power metrics
    else metrics in
  ' (r_temp, temp) <-
      driver_call (CallDeviceGetTemperature parent NVML_TEMPERATURE_GPU)
                  (nvmlDeviceGetTemperature parent NVML_TEMPERATURE_GPU) ;;
  let metrics :=
    if r_temp =? NVML_SUCCESS then set_temperature temp metrics
    else metrics in
  ' (result, processes) <-
      driver_call
        (CallDeviceGetComputeRunningProcesses (deviceHandle device))
        (nvmlDeviceGetComputeRunningProcesses (deviceHandle device)) ;;
  if (result =? NVML_SUCCESS) && (0 <? Z.of_nat (List.length processes))
  then for_each processes collect_process metrics
  else ret metrics.

(** [metrics[uuid] = collectDeviceMetrics(device)] for every binding
    of the registry, as in [monitoringLoop] and [getAllMIGMetrics]. *)
Definition collect_all (registry : StdMap.t MIGDeviceInfo)
  : M D (StdMap.t MIGMetrics) :=
  for_each registry
    (fun '(uuid, device) metrics =>
       x <- collectDeviceMetrics device ;;
       ret (StdMap.insert uuid x metrics))
    StdMap.empty.

(** One turn of the [while (monitoringActive)] loop of
    [monitoringLoop]; the timed wait on the condition variable is the
    event [EWaitFor] with its timeout in milliseconds. *)
Definition monitoringLoop_iteration : M D unit :=
  refreshMIGDevices ;;
  metrics <- lock_guard MetricsMutex
               (m <- this ;; collect_all (migDevices m)) ;;
  lock_guard MetricsMutex (assign (set_latestMetrics metrics)) ;;
  lock_guard MetricsMutex (emit (EWaitFor MonitoringCV 1000)).

(** [void MIGManager::monitoringLoop()], unrolled [passes] times: the
    flag is cleared by another thread, so a sequential run only ends
    by running out of passes. *)
Fixpoint monitoringLoop (passes : nat) : M D unit :=
  match passes with
  | O => ret tt
  | S n =>
      m <- this ;;
      if monitoringActive m
      then monitoringLoop_iteration ;; monitoringLoop n
      else ret tt
  end.

(** [void MIGManager::stopMonitoring()]; the thread is joinable exactly
    when a monitoring thread was started and not yet joined, which is
    when [monitoringActive] is set. *)
Definition stopMonitoring : M D unit :=
  m <- this ;;
  if monitoringActive m then
    assign (set_monitoringActive false) ;;
    emit (ENotify MonitoringCV) ;;
    emit (EJoin MonitoringThread)
  else ret tt.

(** [void MIGManager::startMonitoring(unsigned int intervalMs)] *)
Definition startMonitoring (intervalMs : Z) : M D unit :=
  stopMonitoring ;;
  assign (set_monitoringActive true) ;;
  emit (ESpawn MonitoringThread).

(** [std::vector<MIGDeviceInfo> MIGManager::getAllMIGDevices()] *)
Definition getAllMIGDevices : M D (list MIGDeviceInfo) :=
  refreshMIGDevices ;;
  lock_guard MetricsMutex (m <- this ;; ret (StdMap.values (migDevices m))).

(** [std::vector<MIGDeviceInfo> MIGManager::getMIGDevices(deviceIndex)] *)
Definition getMIGDevices (deviceIndex : Z) : M D (list MIGDeviceInfo) :=
  m <- this ;;
  if out_of_range (devices m) deviceIndex then ret []
  else
    refreshMIGDevices ;;
    lock_guard MetricsMutex
      (m <- this ;;
       ret (filter (fun device => parentDeviceIndex device =? deviceIndex)
                   (StdMap.values (migDevices m)))).

(** [std::optional<MIGDeviceInfo> MIGManager::findMIGDeviceByUUID(uuid)] *)
Definition findMIGDeviceByUUID (uuid : string) : M D (option MIGDeviceInfo) :=
  lock_guard MetricsMutex (m <- this ;; ret (StdMap.find uuid (migDevices m))).

(** [std::optional<MIGMetrics> MIGManager::getMIGDeviceMetrics(uuid)] *)
Definition getMIGDeviceMetrics (uuid : string) : M D (option MIGMetrics) :=
  lock_guard MetricsMutex
    (m <- this ;;
     match StdMap.find uuid (latestMetrics m) with
     | Some cached => ret (Some cached)
     | None =>
         match StdMap.find uuid (migDevices m) with
         | Some device =>
             x <- collectDeviceMetrics device ;; ret (Some x)
         | None => ret None
         end
     end).

(** [std::map<std::string, MIGMetrics> MIGManager::getAllMIGMetrics()] *)
Definition getAllMIGMetrics : M D (StdMap.t MIGMetrics) :=
  lock_guard MetricsMutex
    (m <- this ;;
     if StdMap.is_empty (latestMetrics m)
     then collect_all (migDevices m)
     else ret (latestMetrics m)).

(** [size_t MIGManager::getDeviceCount() const] *)
Definition getDeviceCount : M D Z :=
  m <- this ;; ret (Z.of_nat (List.length (devices m))).

(** [nvmlDevice_t MIGManager::getDeviceHandle(index) const]; [None] is
    [nullptr]. *)
Definition getDeviceHandle (index : Z) : M D (option nvmlDevice_t) :=
  m <- this ;;
  if index <? Z.of_nat (List.length (devices m))
  then ret (Some (at_index (devices m) index))
  else ret None.

(** [std::string MIGManager::getDeviceName(index) const] *)
Definition getDeviceName (index : Z) : M D string :=
  m <- this ;;
  if out_of_range (devices m) index then ret ""
  else
    let dev := at_index (devices m) index in
    ' (result, name) <-
        driver_call (CallDeviceGetName dev) (nvmlDeviceGetName dev) ;;
    if result =? NVML_SUCCESS then ret name else ret "Unknown".

(** What one turn of the worker's loop did. *)
Inductive WorkerStatus :=
| WorkerExited
| WorkerWaiting
| WorkerRan (t : AsyncTask).

(** One turn of the [while (workerActive)] loop of [workerLoop]. The
    wait on [taskCV] returns when the manager stops or a task is
    queued: with the flag set and the queue empty the worker stays
    blocked; with the flag cleared the loop is left before anything is
    taken from the queue. The handler is called inside the [try], so
    an exception it throws is caught like one of the task; an
    exception thrown in the [catch] block leaves the loop. *)
Definition workerLoop_iteration : M D WorkerStatus :=
  m <- this ;;
  if negb (workerActive m) then ret WorkerExited
  else
    match taskQueue m with
    | [] => ret WorkerWaiting
    | _ :: _ =>
        t <- lock_guard TaskMutex
               (m <- this ;;
                match taskQueue m with
                | front :: rest =>
                    assign (set_taskQueue rest) ;; ret front
                | [] => ret {| task := None; callback := None |}
                end) ;;
        match task t with
        | Some body =>
            try_catch
              (run_task body ;; invoke (callback t) true "작업 성공")
              (fun e => invoke (callback t) false (what e))
        | None => ret tt
        end ;;
        ret (WorkerRan t)
    end.

(** [MIGManager::~MIGManager()]; the worker thread was started by the
    constructor, so it is joinable. After the body the members are
    destroyed, and with [nvmlGuard] the driver is shut down
    ([~NVMLGuard]). *)
Definition destructor : M D unit :=
  stopMonitoring ;;
  lock_guard TaskMutex (assign (set_workerActive false)) ;;
  emit (ENotify TaskCV) ;;
  emit (EJoin WorkerThread) ;;
  driver_call CallShutdown nvmlShutdown ;;
  ret tt.

(** [MIGManager::MIGManager()], from the member initialisers on. The
    handler logs and rethrows; when the guard had been built, unwinding
    destroys it and [nvmlShutdown] runs. *)
Definition constructor : M D unit :=
  assign (fun _ => {| devices := []; migDevices := StdMap.empty;
                      monitoringActive := false;
                      latestMetrics := StdMap.empty;
                      taskQueue := []; workerActive := false |}) ;;
  ' (result, _) <- driver_call CallInit nvmlInit ;;
  if negb (result =? NVML_SUCCESS) then
    let e := mkNVMLException result "Failed to initialize NVML" in
    emit (ECerr ("MIGManager 초기화 실패: " ++ what e)%string) ;;
    throw e
  else
    try_catch
      (initializeDevices ;;
       assign (set_workerActive true) ;;
       emit (ESpawn WorkerThread))
      (fun e =>
         emit (ECerr ("MIGManager 초기화 실패: " ++ what e)%string) ;;
         driver_call CallShutdown nvmlShutdown ;;
         throw e).

End Manager.

(* ================================================================== *)
(** ** Threads *)
(* ================================================================== *)

Section Threads.

Context {D : Type} `{DriverInterface D}.

(** *** Refresh passes running against readers

    A pass of [refreshMIGDevices] works on its local [newDevices] and
    touches the member [migDevices] only in its closing block, under
    [metricsMutex]. Readers ([findMIGDeviceByUUID], the second half of
    [getAllMIGDevices] and [getMIGDevices], [monitoringLoop]) read
    [migDevices] under the same mutex. The steps below are therefore
    the atomic steps of the threads: one turn of the device loop of
    some pass, the closing block of some pass, one read, or a step of
    any other code, none of which assigns [migDevices]. *)

Inductive RefreshPass :=
| Building (todo : list Z) (newDevices : StdMap.t MIGDeviceInfo)
| Published (built : StdMap.t MIGDeviceInfo).

Record RegistrySystem := {
  rs_world : World D;
  rs_passes : list RefreshPass;
  rs_reads : list (StdMap.t MIGDeviceInfo)
}.

Inductive registry_step : RegistrySystem -> RegistrySystem -> Prop :=
| step_begin s :
    registry_step s
      {| rs_world := rs_world s;
         rs_passes :=
           rs_passes s ++
             [Building (range (List.length (devices (mgr (rs_world s)))))
                       StdMap.empty];
         rs_reads := rs_reads s |}
| step_device s before after d todo newDevices newDevices' w' :
    rs_passes s = before ++ Building (d :: todo) newDevices :: after ->
    refresh_device d newDevices (rs_world s) = (Ok newDevices', w') ->
    registry_step s
      {| rs_world := w';
         rs_passes := before ++ Building todo newDevices' :: after;
         rs_reads := rs_reads s |}
| step_publish s before after newDevices w' :
    rs_passes s = before ++ Building [] newDevices :: after ->
    publish newDevices (rs_world s) = (Ok tt, w') ->
    registry_step s
      {| rs_world := w';
         rs_passes := before ++ Published newDevices :: after;
         rs_reads := rs_reads s |}
| step_read s :
    registry_step s
      {| rs_world := rs_world s;
         rs_passes := rs_passes s;
         rs_reads := rs_reads s ++ [migDevices (mgr (rs_world s))] |}
| step_other s w' :
    migDevices (mgr w') = migDevices (mgr (rs_world s)) ->
    registry_step s
      {| rs_world := w'; rs_passes := rs_passes s; rs_reads := rs_reads s |}.

Inductive registry_run (s0 : RegistrySystem) : RegistrySystem -> Prop :=
| run_done : registry_run s0 s0
| run_step s s' :
    registry_run s0 s -> registry_step s s' -> registry_run s0 s'.

(** A mapping is whole when it is the one published before the run or
    the complete [newDevices] of one pass that reached its closing
    block. *)
Definition whole_mapping (s0 s : RegistrySystem)
    (m : StdMap.t MIGDeviceInfo) : Prop :=
  m = migDevices (mgr (rs_world s0)) \/ In (Published m) (rs_passes s).

(** *** Running an interleaving

    A schedule of the registry system as a list of moves: begin a new
    pass, let pass [k] take its next turn (a device turn or its
    closing block), or read. *)

Inductive RegistryMove :=
| MoveBegin
| MoveTurn (k : nat)
| MoveRead.

Definition replace_pass (k : nat) (p : RefreshPass) (l : list RefreshPass)
  : list RefreshPass :=
  firstn k l ++ p :: skipn (S k) l.

Definition pass_turn (k : nat) (s : RegistrySystem) : RegistrySystem :=
  match nth_error (rs_passes s) k with
  | Some (Building (d :: todo) newDevices) =>
      match refresh_device d newDevices (rs_world s) with
      | (Ok newDevices', w') =>
          {| rs_world := w';
             rs_passes := replace_pass k (Building todo newDevices')
                                       (rs_passes s);
             rs_reads := rs_reads s |}
      | (Throw _, _) => s
      end
  | Some (Building [] newDevices) =>
      match publish newDevices (rs_world s) with
      | (Ok _, w') =>
          {| rs_world := w';
             rs_passes := replace_pass k (Published newDevices) (rs_passes s);
             rs_reads := rs_reads s |}
      | (Throw _, _) => s
      end
  | _ => s
  end.

Definition registry_move (mv : RegistryMove) (s : RegistrySystem)
  : RegistrySystem :=
  match mv with
  | MoveBegin =>
      {| rs_world := rs_world s;
         rs_passes :=
           rs_passes s ++
             [Building (range (List.length (devices (mgr (rs_world s)))))
                       StdMap.empty];
         rs_reads := rs_reads s |}
  | MoveTurn k => pass_turn k s
  | MoveRead =>
      {| rs_world := rs_world s;
         rs_passes := rs_passes s;
         rs_reads := rs_reads s ++ [migDevices (mgr (rs_world s))] |}
  end.

Definition registry_play (mvs : list RegistryMove) (s : RegistrySystem)
  : RegistrySystem :=
  fold_left (fun s mv => registry_move mv s) mvs s.

(** *** Callers, the command worker and shutdown

    Caller threads submit asynchronous commands, the worker thread
    takes turns of its loop, and the owner destroys the manager. The
    queue is only touched under [taskMutex], so a schedule is a
    sequence of these actions. *)

Inductive Action :=
| SubmitEnable (deviceIndex : Z) (cb : option Callback)
| SubmitDisable (deviceIndex : Z) (cb : option Callback)
| WorkerTurn
| Destroy.

Definition perform (a : Action) : M D unit :=
  match a with
  | SubmitEnable deviceIndex cb => enableMIGMode deviceIndex true cb ;; ret tt
  | SubmitDisable deviceIndex cb => disableMIGMode deviceIndex true cb ;; ret tt
  | WorkerTurn => workerLoop_iteration ;; ret tt
  | Destroy => destructor
  end.

Fixpoint run_schedule (acts : list Action) : M D unit :=
  match acts with
  | [] => ret tt
  | a :: rest => perform a ;; run_schedule rest
  end.








Definition mode_calls_of (tr : list Event) : list Event :=
  filter (fun e => match e with
                   | EDriver (CallDeviceSetMigMode _ _) _ => true
                   | _ => false
                   end) tr.




End Threads.

Arguments RegistrySystem D : clear implicits.

(* ================================================================== *)
(** ** An in-memory driver *)
(* ================================================================== *)

(** A small implementation of the driver interface over a table of
    accelerators and their partitions, used to run the manager on
    concrete fleets. *)
Module Fake.

Record Partition := {
  p_gpuInstance : nvmlGpuInstance_t;
  p_instanceId : Z;
  p_profileId : Z;
  p_computeInstance : nvmlComputeInstance_t;
  p_computeInstanceId : Z;
  p_handle : nvmlDevice_t;
  p_uuid : string;
  p_memory : nvmlMemory_t;
  p_utilization : option nvmlUtilization_t;
  p_processes : option (list nvmlProcessInfo_t)
}.

Record Gpu := {
  g_handle : nvmlDevice_t;
  g_reachable : bool;
  g_name : string;
  g_migMode : Z;
  g_enumerable : bool;
  g_partitions : list Partition;
  g_power : option Z;
  g_temperature : option Z
}.

Record Driver := {
  count_status : nvmlReturn_t;
  gpus : list Gpu;
  set_mode_status : nvmlReturn_t;
  clock : Z
}.

Definition NOT_SUPPORTED : nvmlReturn_t := 3.
Definition NOT_FOUND : nvmlReturn_t := 6.

Definition errorString (r : nvmlReturn_t) : string :=
  if r =? 0 then "Success"
  else if r =? 3 then "Not Supported"
  else if r =? 6 then "Not Found"
  else "Unknown Error".

Definition gpu_of (d : Driver) (h : nvmlDevice_t) : option Gpu :=
  List.find (fun g => g_handle g =? h) (gpus d).

Definition partitions (d : Driver) : list Partition :=
  flat_map g_partitions (gpus d).

Definition by_gpuInstance (d : Driver) (gi : Z) : option Partition :=
  List.find (fun p => p_gpuInstance p =? gi) (partitions d).

Definition by_computeInstance (d : Driver) (ci : Z) : option Partition :=
  List.find (fun p => p_computeInstance p =? ci) (partitions d).

Definition by_handle (d : Driver) (h : Z) : option Partition :=
  List.find (fun p => p_handle p =? h) (partitions d).

Definition no_memory : nvmlMemory_t :=
  {| mem_total := 0; mem_free := 0; mem_used := 0 |}.

Definition answer {R} (d : Driver) (o : option R) (dflt : R)
  : nvmlReturn_t * R * Driver :=
  match o with
  | Some v => (NVML_SUCCESS, v, d)
  | None => (NOT_FOUND, dflt, d)
  end.

Definition set_mode (h : nvmlDevice_t) (mode : Z) (d : Driver)
  : nvmlReturn_t * unit * Driver :=
  if set_mode_status d =? NVML_SUCCESS then
    (NVML_SUCCESS, tt,
     {| count_status := count_status d;
        gpus := List.map (fun g =>
                  if g_handle g =? h then
                    {| g_handle := g_handle g; g_reachable := g_reachable g;
                       g_name := g_name g; g_migMode := mode;
                       g_enumerable := g_enumerable g;
                       g_partitions := g_partitions g;
                       g_power := g_power g;
                       g_temperature := g_temperature g |}
                  else g) (gpus d);
        set_mode_status := set_mode_status d;
        clock := clock d |})
  else (set_mode_status d, tt, d).

#[global] Instance driver : DriverInterface Driver := {|
  NVML_ENABLE_MIG := 1;
  NVML_DISABLE_MIG := 0;
  nvmlErrorString := errorString;
  system_clock_now := clock;
  nvmlInit := fun d => (NVML_SUCCESS, tt, d);
  nvmlShutdown := fun d => (NVML_SUCCESS, tt, d);
  nvmlDeviceGetCount := fun d =>
    (count_status d, Z.of_nat (List.length (gpus d)), d);
  nvmlDeviceGetHandleByIndex := fun i d =>
    match nth_error (gpus d) (Z.to_nat i) with
    | Some g => if g_reachable g then (NVML_SUCCESS, g_handle g, d)
                else (NOT_FOUND, 0, d)
    | None => (NOT_FOUND, 0, d)
    end;
  nvmlDeviceGetMigMode := fun h d =>
    answer d (option_map (fun g => (g_migMode g, g_migMode g)) (gpu_of d h))
           (0, 0);
  nvmlDeviceSetMigMode := set_mode;
  nvmlDeviceGetGpuInstances := fun h d =>
    match gpu_of d h with
    | Some g =>
        if g_enumerable g
        then (NVML_SUCCESS, List.map p_gpuInstance (g_partitions g), d)
        else (NOT_SUPPORTED, [], d)
    | None => (NOT_FOUND, [], d)
    end;
  nvmlGpuInstanceGetInfo := fun gi d =>
    answer d (option_map (fun p => {| gi_id := p_instanceId p;
                                      gi_profileId := p_profileId p |})
                         (by_gpuInstance d gi))
           {| gi_id := 0; gi_profileId := 0 |};
  nvmlGpuInstanceGetComputeInstances := fun gi d =>
    answer d (option_map (fun p => [p_computeInstance p])
                         (by_gpuInstance d gi)) [];
  nvmlComputeInstanceGetInfo := fun ci d =>
    answer d (option_map (fun p => {| ci_id := p_computeInstanceId p |})
                         (by_computeInstance d ci))
           {| ci_id := 0 |};
  nvmlComputeInstanceDeviceHandle := fun _ _ ci _ d =>
    answer d (option_map p_handle (by_computeInstance d ci)) 0;
  nvmlDeviceGetUUID := fun h d =>
    answer d (option_map p_uuid (by_handle d h)) "";
  nvmlDeviceGetMemoryInfo := fun h d =>
    answer d (option_map p_memory (by_handle d h)) no_memory;
  nvmlDeviceGetGpuInstanceProfileInfo := fun h prof d =>
    match gpu_of d h with
    | Some _ =>
        if prof <? 2
        then (NVML_SUCCESS,
              {| gip_memorySizeMB := 5120 * (prof + 1);
                 gip_multiprocessorCount := 14 * (prof + 1);
                 gip_maxComputeInstances := prof + 1 |}, d)
        else (NOT_SUPPORTED,
              {| gip_memorySizeMB := 0; gip_multiprocessorCount := 0;
                 gip_maxComputeInstances := 0 |}, d)
    | None => (NOT_FOUND,
               {| gip_memorySizeMB := 0; gip_multiprocessorCount := 0;
                  gip_maxComputeInstances := 0 |}, d)
    end;
  nvmlDeviceGetName := fun h d =>
    answer d (option_map g_name (gpu_of d h)) "";
  nvmlDeviceGetUtilizationRates := fun h d =>
    answer d (match by_handle d h with
              | Some p => p_utilization p
              | None => None
              end)
           {| util_gpu := 0; util_memory := 0 |};
  nvmlDeviceGetPowerUsage := fun h d =>
    answer d (match gpu_of d h with Some g => g_power g | None => None end) 0;
  nvmlDeviceGetTemperature := fun h _ d =>
    answer d (match gpu_of d h with
              | Some g => g_temperature g
              | None => None
              end) 0;
  nvmlDeviceGetComputeRunningProcesses := fun h d =>
    answer d (match by_handle d h with
              | Some p => p_processes p
              | None => None
              end) [];
  nvmlSystemGetProcessName := fun p d =>
    if p =? 4242 then (NVML_SUCCESS, "trainer", d) else (NOT_FOUND, "", d)
|}.

(** The partition of the reference fleet: uuid P1, 5120 MB. *)
Definition P1 : Partition :=
  {| p_gpuInstance := 1100; p_instanceId := 7; p_profileId := 0;
     p_computeInstance := 1110; p_computeInstanceId := 0;
     p_handle := 1111; p_uuid := "P1";
     p_memory := {| mem_total := 5120 * 1024 * 1024;
                    mem_free := 4096 * 1024 * 1024;
                    mem_used := 1024 * 1024 * 1024 |};
     p_utilization := Some {| util_gpu := 35; util_memory := 20 |};
     p_processes := Some [ {| pid := 4242;
                              usedGpuMemory := 512 * 1024 * 1024 |};
                           {| pid := 77;
                              usedGpuMemory := 3 * 1024 * 1024 |} ] |}.

Definition gpu0 : Gpu :=
  {| g_handle := 100; g_reachable := true; g_name := "GPU-A";
     g_migMode := 0; g_enumerable := true; g_partitions := [];
     g_power := Some 250000; g_temperature := Some 61 |}.

Definition gpu1 : Gpu :=
  {| g_handle := 101; g_reachable := true; g_name := "GPU-B";
     g_migMode := 1; g_enumerable := true; g_partitions := [P1];
     g_power := None; g_temperature := Some 58 |}.

(** Two accelerators: partitioning is disabled on the first; the
    second is partitioned into P1 and does not report its power. *)
Definition fleet : Driver :=
  {| count_status := NVML_SUCCESS; gpus := [gpu0; gpu1];
     set_mode_status := NVML_SUCCESS; clock := 1700000000 |}.

Definition garbage_metrics : MIGMetrics :=
  {| timestamp := 11; gpuUtilization := 12; memoryUtilization := 13;
     memoryUsed := 14; memoryFree := 15; memoryTotal := 16;
     powerUsage := 17; temperature := 18;
     processUtilization := StdMap.empty |}.

Definition garbage_info : MIGDeviceInfo :=
  {| deviceHandle := 21; parentDeviceIndex := 22; instanceId := 23;
     profileId := 24; uuid := ""; memorySize := 26;
     multiprocessorCount := 27; maxComputeInstances := 28;
     currentComputeInstances := 29; computeInstanceIds := [] |}.

Definition blank : MIGManager :=
  {| devices := []; migDevices := StdMap.empty; monitoringActive := false;
     latestMetrics := StdMap.empty; taskQueue := []; workerActive := false |}.

Definition boot (d : Driver) : World Driver :=
  {| mgr := blank; drv := d; trace := [];
     indet_metrics := garbage_metrics; indet_info := garbage_info |}.

(** The world right after the constructor ran on [d]. *)
Definition started (d : Driver) : World Driver := snd (constructor (boot d)).

End Fake.

(** The in-memory driver with GPU instances whose information cannot
    be read: [nvmlGpuInstanceGetInfo] fails for the instances of
    [lost], every other call is answered by the driver of [base]. *)
Module Flaky.

Record Driver := {
  base : Fake.Driver;
  lost : list nvmlGpuInstance_t
}.

Definition lift {R} (f : Fake.Driver -> nvmlReturn_t * R * Fake.Driver)
    (d : Driver) : nvmlReturn_t * R * Driver :=
  let '(r, v, b) := f (base d) in (r, v, {| base := b; lost := lost d |}).

#[global] Instance driver : DriverInterface Driver := {|
  NVML_ENABLE_MIG := 1;
  NVML_DISABLE_MIG := 0;
  nvmlErrorString := Fake.errorString;
  system_clock_now := fun d => Fake.clock (base d);
  nvmlInit := lift nvmlInit;
  nvmlShutdown := lift nvmlShutdown;
  nvmlDeviceGetCount := lift nvmlDeviceGetCount;
  nvmlDeviceGetHandleByIndex := fun i => lift (nvmlDeviceGetHandleByIndex i);
  nvmlDeviceGetMigMode := fun h => lift (nvmlDeviceGetMigMode h);
  nvmlDeviceSetMigMode := fun h mode => lift (nvmlDeviceSetMigMode h mode);
  nvmlDeviceGetGpuInstances := fun h => lift (nvmlDeviceGetGpuInstances h);
  nvmlGpuInstanceGetInfo := fun gi d =>
    if existsb (Z.eqb gi) (lost d)
    then (Fake.NOT_FOUND, {| gi_id := 0; gi_profileId := 0 |}, d)
    else lift (nvmlGpuInstanceGetInfo gi) d;
  nvmlGpuInstanceGetComputeInstances := fun gi =>
    lift (nvmlGpuInstanceGetComputeInstances gi);
  nvmlComputeInstanceGetInfo := fun ci => lift (nvmlComputeInstanceGetInfo ci);
  nvmlComputeInstanceDeviceHandle := fun h gi ci cii =>
    lift (nvmlComputeInstanceDeviceHandle h gi ci cii);
  nvmlDeviceGetUUID := fun h => lift (nvmlDeviceGetUUID h);
  nvmlDeviceGetMemoryInfo := fun h => lift (nvmlDeviceGetMemoryInfo h);
  nvmlDeviceGetGpuInstanceProfileInfo := fun h prof =>
    lift (nvmlDeviceGetGpuInstanceProfileInfo h prof);
  nvmlDeviceGetName := fun h => lift (nvmlDeviceGetName h);
  nvmlDeviceGetUtilizationRates := fun h =>
    lift (nvmlDeviceGetUtilizationRates h);
  nvmlDeviceGetPowerUsage := fun h => lift (nvmlDeviceGetPowerUsage h);
  nvmlDeviceGetTemperature := fun h sensor =>
    lift (nvmlDeviceGetTemperature h sensor);
  nvmlDeviceGetComputeRunningProcesses := fun h =>
    lift (nvmlDeviceGetComputeRunningProcesses h);
  nvmlSystemGetProcessName := fun p => lift (nvmlSystemGetProcessName p)
|}.

(** The world right after the constructor ran on [d]. *)
Definition started (d : Driver) : World Driver :=
  snd (constructor {| mgr := Fake.blank; drv := d; trace := [];
                      indet_metrics := Fake.garbage_metrics;
                      indet_info := Fake.garbage_info |}).

End Flaky.

(* ================================================================== *)
(** ** Reasoning about member functions: definitions *)
(* ================================================================== *)

(** [wp c w Q]: running [c] in [w] ends in a result and a world that
    satisfy [Q]. *)
Definition wp {D A} (c : M D A) (w : World D)
    (Q : Result A -> World D -> Prop) : Prop :=
  Q (fst (c w)) (snd (c w)).

(** The events a piece of code added to the trace. *)
Definition added {D} (w w' : World D) (evs : list Event) : Prop :=
  trace w' = trace w ++ evs.

(** [w'] comes after [w] by local work: the manager object is as it
    was, only the driver moved on, and the trace grew by events in [P]. *)
Definition advances {D} (P : Event -> Prop) (w w' : World D) : Prop :=
  mgr w' = mgr w /\
  indet_metrics w' = indet_metrics w /\
  indet_info w' = indet_info w /\
  exists evs, added w w' evs /\ Forall P evs.

(** [c] always returns, and does so by local work. *)
Definition local {D A} (P : Event -> Prop) (c : M D A) : Prop :=
  forall w, exists a w', c w = (Ok a, w') /\ advances P w w'.

(** Queries of the driver and lock traffic: what a refresh pass or a
    telemetry collection may add to the trace. *)
Definition is_query (e : Event) : Prop :=
  match e with
  | EDriver (CallDeviceSetMigMode _ _) _ => False
  | EDriver _ _ => True
  | ELock _ | EUnlock _ => True
  | _ => False
  end.

(** Lock traffic only. *)
Definition is_lock_event (e : Event) : Prop :=
  match e with
  | ELock _ | EUnlock _ => True
  | _ => False
  end.

(** No driver call was made between [w] and [w']: the driver is in the
    same state and every added event is something else. *)
Definition no_driver_call {D} (w w' : World D) : Prop :=
  drv w' = drv w /\
  exists evs, added w w' evs /\ driver_calls_of evs = [].

(** The world with [evs] appended to its trace. *)
Definition logged {D} (evs : list Event) (w : World D) : World D :=
  {| mgr := mgr w; drv := drv w; trace := trace w ++ evs;
     indet_metrics := indet_metrics w; indet_info := indet_info w |}.

(** The world whose manager object is [m]. *)
Definition with_mgr {D} (m : MIGManager) (w : World D) : World D :=
  {| mgr := m; drv := drv w; trace := trace w;
     indet_metrics := indet_metrics w; indet_info := indet_info w |}.

(** The events logged between [w] and a later world [w']. *)
Definition events_since {D} (w w' : World D) : list Event :=
  skipn (List.length (trace w)) (trace w').

(* ================================================================== *)
(** ** Statements under test *)
(* ================================================================== *)

Section Statements.

Context {D : Type} `{DriverInterface D}.

(** Shutdown with cancellation: after the destructor and [turns]
    further turns of the worker, every command that was still queued
    has had its handler invoked with the cancellation message. *)
Definition cancelled_on_shutdown (w : World D) (turns : nat) : Prop :=
  let w' := snd (run_schedule (Destroy :: repeat WorkerTurn turns) w) in
  forall t cb,
    In t (taskQueue (mgr w)) -> callback t = Some cb ->
    In (cb, false, "cancelled: shutting down")
       (callbacks_of (events_since w w')).


(** The events that the turn of device [d] logs in a refresh pass
    started in [w]. *)
Definition turn_events (d : nat) (w : World D) : list Event :=
  let before := for_each (range d) refresh_device StdMap.empty w in
  match fst before with
  | Ok newDevices =>
      events_since (snd before)
        (snd (refresh_device (Z.of_nat d) newDevices (snd before)))
  | Throw _ => []
  end.

(** The calls that enumerate the partitions of a device. *)
Definition is_enumeration_call (c : DriverCall) : Prop :=
  match c with
  | CallDeviceGetGpuInstances _
  | CallGpuInstanceGetInfo _
  | CallGpuInstanceGetComputeInstances _
  | CallComputeInstanceGetInfo _ => True
  | _ => False
  end.

(** Failure isolation as the specification has it: a device in whose
    turn a call of the enumeration failed has no partition in the
    mapping that the pass publishes. *)
Definition failed_device_contributes_nothing (w : World D) : Prop :=
  forall d : nat,
    (exists c r,
        In (EDriver c r) (turn_events d w) /\
        is_enumeration_call c /\ r <> NVML_SUCCESS) ->
    forall k v,
      StdMap.find k (migDevices (mgr (snd (refreshMIGDevices w)))) = Some v ->
      parentDeviceIndex v <> Z.of_nat d.

(** The driver states of [I] are left only for states of [I] by the
    queries that a refresh pass makes. *)
Definition kept_by_queries (I : D -> Prop) : Prop :=
  (forall h d, I d -> I (snd (nvmlDeviceGetMigMode h d))) /\
  (forall h d, I d -> I (snd (nvmlDeviceGetGpuInstances h d))) /\
  (forall gi d, I d -> I (snd (nvmlGpuInstanceGetInfo gi d))) /\
  (forall gi d, I d -> I (snd (nvmlGpuInstanceGetComputeInstances gi d))) /\
  (forall ci d, I d -> I (snd (nvmlComputeInstanceGetInfo ci d))) /\
  (forall h gi ci cii d,
      I d -> I (snd (nvmlComputeInstanceDeviceHandle h gi ci cii d))) /\
  (forall h d, I d -> I (snd (nvmlDeviceGetUUID h d))) /\
  (forall h d, I d -> I (snd (nvmlDeviceGetMemoryInfo h d))) /\
  (forall h prof d,
      I d -> I (snd (nvmlDeviceGetGpuInstanceProfileInfo h prof d))).

(** A partition that the driver enumerates without failure in every
    state of [I]: the device [dev] reports partitioning as enabled and
    lists the GPU instance [gi]; the information of [gi] and its
    compute instances can be read; and the first compute instance
    yields a handle whose uuid is [u]. *)
Definition healthy (I : D -> Prop) (dev : nvmlDevice_t)
    (gi : nvmlGpuInstance_t) (u : string) : Prop :=
  u <> "" /\
  exists info ci cis ciInfo handle,
    forall d, I d ->
      (exists pending,
          fst (nvmlDeviceGetMigMode dev d)
          = (NVML_SUCCESS, (NVML_ENABLE_MIG, pending))) /\
      (exists gis,
          fst (nvmlDeviceGetGpuInstances dev d) = (NVML_SUCCESS, gis) /\
          In gi gis) /\
      fst (nvmlGpuInstanceGetInfo gi d) = (NVML_SUCCESS, info) /\
      fst (nvmlGpuInstanceGetComputeInstances gi d)
      = (NVML_SUCCESS, ci :: cis) /\
      fst (nvmlComputeInstanceGetInfo ci d) = (NVML_SUCCESS, ciInfo) /\
      snd (fst (nvmlComputeInstanceDeviceHandle
                  dev (gi_id info) ci (ci_id ciInfo) d)) = handle /\
      fst (nvmlDeviceGetUUID handle d) = (NVML_SUCCESS, u).

(** What every step of a refresh pass keeps: it returns, the driver
    stays in [I], the manager is as before, and the result has [P]. *)
Definition steady {A} (I : D -> Prop) (w : World D) (P : A -> Prop)
    (r : Result A) (w' : World D) : Prop :=
  exists a, r = Ok a /\ I (drv w') /\ mgr w' = mgr w /\ P a.

(** Reads that never reach the driver. *)
Definition reads_never_call_driver (w : World D) : Prop :=
  no_driver_call w (snd (getAllMIGDevices w)) /\
  (forall i, no_driver_call w (snd (getMIGDevices i w))) /\
  (forall u, no_driver_call w (snd (findMIGDeviceByUUID u w))) /\
  (forall u, no_driver_call w (snd (getMIGDeviceMetrics u w))) /\
  no_driver_call w (snd (getAllMIGMetrics w)) /\
  no_driver_call w (snd (getDeviceCount w)) /\
  (forall i, no_driver_call w (snd (getDeviceName i w))).

(** Initialisation that refuses an empty inventory. *)
Definition zero_handles_is_fatal (w : World D) : Prop :=
  devices (mgr (snd (initializeDevices w))) = [] ->
  exists e, fst (initializeDevices w) = Throw e.

(** What the handle loop of [initializeDevices] logs for index [i]
    when the driver answered with status [r]. *)
Definition handle_events (i : Z) (r : nvmlReturn_t) : list Event :=
  EDriver (CallDeviceGetHandleByIndex i) r ::
  (if r =? NVML_SUCCESS then []
   else [ECerr ("경고: 디바이스 " ++ to_string i ++ " 핸들 획득 실패")%string]).

(** What the whole handle loop logs, given the answers of the driver
    in index order. *)
Definition answers_events (l : list Z)
    (answers : list (nvmlReturn_t * nvmlDevice_t)) : list Event :=
  flat_map (fun ia => handle_events (fst ia) (fst (snd ia)))
           (combine l answers).

(** The handles kept by the loop of [initializeDevices], given the
    answers of the driver in index order. *)
Definition kept_handles (answers : list (nvmlReturn_t * nvmlDevice_t))
  : list nvmlDevice_t :=
  List.map snd (filter (fun a => fst a =? NVML_SUCCESS) answers).

End Statements.

(** Fleets for the scenarios. *)
Module Scenario.

Import Fake.

(** Two accelerators, neither of which yields a handle. *)
Definition unreachable : Driver :=
  {| count_status := NVML_SUCCESS;
     gpus := [ {| g_handle := 100; g_reachable := false; g_name := "GPU-A";
                  g_migMode := 0; g_enumerable := true; g_partitions := [];
                  g_power := None; g_temperature := None |};
               {| g_handle := 101; g_reachable := false; g_name := "GPU-B";
                  g_migMode := 0; g_enumerable := true; g_partitions := [];
                  g_power := None; g_temperature := None |} ];
     set_mode_status := NVML_SUCCESS; clock := 0 |}.

(** Three accelerators; the middle one yields no handle. *)
Definition partly_reachable : Driver :=
  {| count_status := NVML_SUCCESS;
     gpus := [ gpu0;
               {| g_handle := 555; g_reachable := false; g_name := "GPU-X";
                  g_migMode := 0; g_enumerable := true; g_partitions := [];
                  g_power := None; g_temperature := None |};
               gpu1 ];
     set_mode_status := NVML_SUCCESS; clock := 0 |}.

(** The device-count query itself fails. *)
Definition uncountable : Driver :=
  {| count_status := NOT_SUPPORTED; gpus := [gpu0; gpu1];
     set_mode_status := NVML_SUCCESS; clock := 0 |}.

(** The partition of the first accelerator of [broken]. *)
Definition P0 : Partition :=
  {| p_gpuInstance := 1000; p_instanceId := 3; p_profileId := 1;
     p_computeInstance := 1010; p_computeInstanceId := 0;
     p_handle := 1011; p_uuid := "P0";
     p_memory := {| mem_total := 10240 * 1024 * 1024;
                    mem_free := 10240 * 1024 * 1024; mem_used := 0 |};
     p_utilization := None; p_processes := None |}.


(** A second partition of the first accelerator of [half_enumerated],
    whose GPU instance cannot be read. *)
Definition P2 : Partition :=
  {| p_gpuInstance := 1001; p_instanceId := 4; p_profileId := 1;
     p_computeInstance := 1020; p_computeInstanceId := 0;
     p_handle := 1021; p_uuid := "P2";
     p_memory := {| mem_total := 10240 * 1024 * 1024;
                    mem_free := 10240 * 1024 * 1024; mem_used := 0 |};
     p_utilization := None; p_processes := None |}.

(** Both accelerators are partitioned; the first lists P0 and P2, and
    the driver fails to read the GPU instance of P2. *)
Definition half_enumerated : Flaky.Driver :=
  {| Flaky.base :=
       {| count_status := NVML_SUCCESS;
          gpus := [ {| g_handle := 100; g_reachable := true;
                       g_name := "GPU-A"; g_migMode := 1;
                       g_enumerable := true; g_partitions := [P0; P2];
                       g_power := Some 250000; g_temperature := Some 61 |};
                    gpu1 ];
          set_mode_status := NVML_SUCCESS; clock := 0 |};
     Flaky.lost := [1001] |}.


(** Three commands are queued and the worker has not run yet. *)
Definition three_queued : World Driver :=
  snd (run_schedule [SubmitEnable 0 (Some (returning 1));
                     SubmitDisable 1 (Some (returning 2));
                     SubmitEnable 1 (Some (returning 3))]
                    (started fleet)).




(** The registered partition P1 of the reference fleet. *)
Definition P1_info : MIGDeviceInfo :=
  {| deviceHandle := 1111; parentDeviceIndex := 1; instanceId := 7;
     profileId := 0; uuid := "P1"; memorySize := 5368709120;
     multiprocessorCount := 14; maxComputeInstances := 1;
     currentComputeInstances := 1; computeInstanceIds := [0] |}.

(** The reference fleet with a stale, empty registry, and an
    interleaving of two refresh passes with three reads. *)
Definition before_refresh : World Driver :=
  with_mgr (set_migDevices StdMap.empty (mgr (started fleet)))
           (started fleet).

Definition idle : RegistrySystem Driver :=
  {| rs_world := before_refresh; rs_passes := []; rs_reads := [] |}.

Definition interleaved : RegistrySystem Driver :=
  registry_play [MoveBegin; MoveRead; MoveTurn 0; MoveBegin; MoveTurn 0;
                 MoveRead; MoveTurn 0; MoveRead; MoveTurn 1] idle.


End Scenario.

(* ================================================================== *)
(** ** Further statements about the manager *)
(* ================================================================== *)

(** Keys in the order of [std::less<std::string>]. *)
Definition key_lt (a b : string) : Prop := String.compare a b = Lt.

(** The representation invariant of [std::map]: strictly ascending keys. *)
Definition ascending {V} (m : StdMap.t V) : Prop :=
  StronglySorted key_lt (StdMap.keys m).

(** The driver queries a refresh pass is made of, and its lock traffic. *)
Definition is_registry_query (e : Event) : Prop :=
  match e with
  | EDriver (CallDeviceGetMigMode _) _
  | EDriver (CallDeviceGetGpuInstances _) _
  | EDriver (CallGpuInstanceGetInfo _) _
  | EDriver (CallGpuInstanceGetComputeInstances _) _
  | EDriver (CallComputeInstanceGetInfo _) _
  | EDriver (CallComputeInstanceGetDeviceHandle _ _ _ _) _
  | EDriver (CallDeviceGetUUID _) _
  | EDriver (CallDeviceGetMemoryInfo _) _
  | EDriver (CallDeviceGetGpuInstanceProfileInfo _ _) _ => True
  | ELock MetricsMutex | EUnlock MetricsMutex => True
  | _ => False
  end.

(** The calls of the monitoring life cycle. *)
Inductive Lifecycle :=
| Start (intervalMs : Z)
| Stop
| Passes (n : nat)
| Shutdown.

(** Replaying the spawns and joins of the monitoring thread: [Some b]
    when no thread was spawned over a live one and none joined that was
    not live, [b] telling whether one is live at the end. *)
Fixpoint monitor_alive (alive : bool) (tr : list Event) : option bool :=
  match tr with
  | [] => Some alive
  | ESpawn MonitoringThread :: tr' =>
      if alive then None else monitor_alive true tr'
  | EJoin MonitoringThread :: tr' =>
      if alive then monitor_alive false tr' else None
  | _ :: tr' => monitor_alive alive tr'
  end.

(** What [getAvailableProfiles] logs for profile [id] when the profile
    query returned [r] and the name query, if made, [rn]. *)
Definition profile_events (dev : nvmlDevice_t)
    (q : Z * (nvmlReturn_t * nvmlReturn_t)) : list Event :=
  EDriver (CallDeviceGetGpuInstanceProfileInfo dev (fst q)) (fst (snd q)) ::
  (if fst (snd q) =? NVML_SUCCESS
   then [EDriver (CallDeviceGetName dev) (snd (snd q))]
   else []).

(** The profile ids whose query succeeded. *)
Definition supported_ids (qs : list (Z * (nvmlReturn_t * nvmlReturn_t)))
  : list Z :=
  List.map fst (filter (fun q => fst (snd q) =? NVML_SUCCESS) qs).

(** The five queries every telemetry collection starts with, given
    their statuses. *)
Definition telemetry_queries (handle parent : nvmlDevice_t)
    (r1 r2 r3 r4 r5 : nvmlReturn_t) : list Event :=
  [EDriver (CallDeviceGetUtilizationRates handle) r1;
   EDriver (CallDeviceGetMemoryInfo handle) r2;
   EDriver (CallDeviceGetPowerUsage parent) r3;
   EDriver (CallDeviceGetTemperature parent NVML_TEMPERATURE_GPU) r4;
   EDriver (CallDeviceGetComputeRunningProcesses handle) r5].

(** The process-name queries, one per listed process. *)
Definition name_queries (asked : list (nvmlProcessInfo_t * nvmlReturn_t))
  : list Event :=
  List.map (fun a => EDriver (CallSystemGetProcessName (pid (fst a))) (snd a))
           asked.

(** An entry of [processUtilization]: a non-empty name and a value that
    fits an [unsigned int]. *)
Definition process_entry_ok (kv : string * Z) : Prop :=
  fst kv <> "" /\ 0 <= snd kv < 2 ^ 32.

Section FurtherStatements.

Context {D : Type} `{DriverInterface D}.

(** A number of compute instances that the driver lists for some GPU
    instance in some state. *)
Definition listed (n : nat) : Prop :=
  exists gi d,
    n = List.length (snd (fst (nvmlGpuInstanceGetComputeInstances gi d))).

(** What [refreshMIGDevices] guarantees of a descriptor it built in the
    turn of device [d]: a non-empty uuid, the parent index, and a list
    of compute-instance ids no longer than the list of compute
    instances that the driver gave and that
    [currentComputeInstances] counts. *)
Definition built_for (d : Z) (v : MIGDeviceInfo) : Prop :=
  uuid v <> "" /\
  parentDeviceIndex v = u32 d /\
  exists n : nat,
    listed n /\
    currentComputeInstances v = u32 (Z.of_nat n) /\
    (List.length (computeInstanceIds v) <= n)%nat.

(** The calls an optional handler receives when [ok] is reported to
    it inside a [try] whose [catch] block reports the exception caught:
    the report and, when the handler throws on it, a second call with
    success = false and the text of that exception. *)
Definition report_events (cb : option Callback) (ok : bool) (msg : string)
  : list Event :=
  handler_events cb ok msg ++
  match thrown_by cb ok msg with
  | Some e => handler_events cb false (what e)
  | None => []
  end.

(** What the caller then gets: [ok], or false when the report threw,
    or the exception that the second call threw. *)
Definition report_result (cb : option Callback) (ok : bool) (msg : string)
  : Result bool :=
  match thrown_by cb ok msg with
  | None => Ok ok
  | Some e =>
      match thrown_by cb false (what e) with
      | None => Ok false
      | Some e' => Throw e'
      end
  end.

(** What a synchronous mode change that sets [mode] and reports [done]
    leaves behind, started in [w]: the result and the world [w'], by
    the status [r] of the mode change and the world [w1] after it. *)
Definition sync_post (mode : Z) (done : string) (i : Z) (cb : option Callback)
    (w : World D) (res : Result bool) (w' : World D) : Prop :=
  let dev := at_index (devices (mgr w)) i in
  let r := fst (fst (nvmlDeviceSetMigMode dev mode (drv w))) in
  let w1 := snd (driver_call (CallDeviceSetMigMode dev mode)
                             (nvmlDeviceSetMigMode dev mode) w) in
  if r =? NVML_SUCCESS then
    fst (refreshMIGDevices w1) = Ok tt /\
    res = report_result cb true done /\
    w' = logged (report_events cb true done) (snd (refreshMIGDevices w1)) /\
    exists newDevices, mgr w' = set_migDevices newDevices (mgr w)
  else
    res = report_result cb false (nvmlErrorString r) /\
    w' = logged (report_events cb false (nvmlErrorString r)) w1 /\
    mgr w' = mgr w.

Definition sync_outcome (f : Z -> bool -> option Callback -> M D bool)
    (mode : Z) (done : string) (i : Z) (cb : option Callback) (w : World D)
  : Prop :=
  sync_post mode done i cb w (fst (f i false cb w)) (snd (f i false cb w)).

(** What an asynchronous mode change that queues the closure [body]
    leaves behind. *)
Definition async_post (body : TaskBody) (cb : option Callback)
    (w : World D) (res : Result bool) (w' : World D) : Prop :=
  res = Ok true /\
  mgr w' = set_taskQueue
             (taskQueue (mgr w) ++ [{| task := Some body; callback := cb |}])
             (mgr w) /\
  drv w' = drv w /\
  events_since w w' = [ELock TaskMutex; EUnlock TaskMutex; ENotify TaskCV].

Definition async_outcome (f : Z -> bool -> option Callback -> M D bool)
    (body : TaskBody) (i : Z) (cb : option Callback) (w : World D) : Prop :=
  async_post body cb w (fst (f i true cb w)) (snd (f i true cb w)).

Definition lifecycle_call (c : Lifecycle) : M D unit :=
  match c with
  | Start intervalMs => startMonitoring intervalMs
  | Stop => stopMonitoring
  | Passes n => monitoringLoop n
  | Shutdown => destructor
  end.

Fixpoint lifecycle (cs : list Lifecycle) : M D unit :=
  match cs with
  | [] => ret tt
  | c :: rest => lifecycle_call c ;; lifecycle rest
  end.

(** What holds after the loop over [profileId] in
    [getAvailableProfiles] has gone through the identifiers [pre]. *)
Definition profiles_inv (dev : nvmlDevice_t) (w0 : World D)
    (pre : list Z) (acc : list MIGProfile) (w : World D) : Prop :=
  mgr w = mgr w0 /\
  exists answers : list (nvmlReturn_t * nvmlReturn_t),
    List.length answers = List.length pre /\
    added w0 w (flat_map (profile_events dev) (combine pre answers)) /\
    List.map prof_profileId acc = supported_ids (combine pre answers).

(** The answers of the driver to the handle queries for the indices
    [l], asked in this order from the driver state [d]: status and
    handle. *)
Fixpoint handle_answers (l : list Z) (d : D)
  : list (nvmlReturn_t * nvmlDevice_t) :=
  match l with
  | [] => []
  | i :: l' =>
      let '(r, h, d') := nvmlDeviceGetHandleByIndex i d in
      (r, h) :: handle_answers l' d'
  end.

(** What the constructor leaves behind, by the answers of the driver. *)
Definition constructor_post (w : World D) (res : Result unit) (w' : World D)
  : Prop :=
  exists r0 d0,
    nvmlInit (drv w) = (r0, tt, d0) /\
    if r0 =? NVML_SUCCESS then
      exists r n d1,
        nvmlDeviceGetCount d0 = (r, n, d1) /\
        if r =? NVML_SUCCESS then
          let answers := handle_answers (range (Z.to_nat n)) d1 in
          exists refresh_events,
            List.length answers = Z.to_nat n /\
            res = Ok tt /\
            devices (mgr w') = kept_handles answers /\
            workerActive (mgr w') = true /\
            monitoringActive (mgr w') = false /\
            taskQueue (mgr w') = [] /\
            latestMetrics (mgr w') = StdMap.empty /\
            Forall is_registry_query refresh_events /\
            events_since w w'
            = EDriver CallInit r0 :: EDriver CallDeviceGetCount r
              :: answers_events (range (Z.to_nat n)) answers
              ++ refresh_events ++ [ESpawn WorkerThread]
        else
          exists rs,
            res = Throw (mkNVMLException r "디바이스 개수 조회 실패") /\
            workerActive (mgr w') = false /\
            events_since w w'
            = [EDriver CallInit r0; EDriver CallDeviceGetCount r;
               ECerr ("MIGManager 초기화 실패: "
                      ++ what (mkNVMLException r "디바이스 개수 조회 실패"));
               EDriver CallShutdown rs]
    else
      res = Throw (mkNVMLException r0 "Failed to initialize NVML") /\
      workerActive (mgr w') = false /\
      events_since w w'
      = [EDriver CallInit r0;
         ECerr ("MIGManager 초기화 실패: "
                ++ what (mkNVMLException r0 "Failed to initialize NVML"))].

Definition process_loop_inv (m0 : MIGMetrics) (w0 : World D)
    (pre : list nvmlProcessInfo_t) (acc : MIGMetrics) (w : World D) : Prop :=
  mgr w = mgr w0 /\
  timestamp acc = timestamp m0 /\
  (Forall process_entry_ok (processUtilization m0) ->
   Forall process_entry_ok (processUtilization acc)) /\
  (List.length (processUtilization acc)
   <= List.length (processUtilization m0) + List.length pre)%nat /\
  exists statuses : list nvmlReturn_t,
    List.length statuses = List.length pre /\
    added w0 w (name_queries (combine pre statuses)).

(** What a collection leaves behind. *)
Definition collect_post (device : MIGDeviceInfo) (w : World D)
    (res : Result MIGMetrics) (w' : World D) : Prop :=
  let handle := deviceHandle device in
  let parent := at_index (devices (mgr w)) (parentDeviceIndex device) in
  exists x r1 r2 r3 r4 r5 asked,
    res = Ok x /\
    mgr w' = mgr w /\
    timestamp x = system_clock_now (drv w) /\
    events_since w w'
    = telemetry_queries handle parent r1 r2 r3 r4 r5 ++ name_queries asked /\
    (if r5 =? NVML_SUCCESS then True else asked = []) /\
    (List.length (processUtilization x) <= List.length asked)%nat /\
    Forall process_entry_ok (processUtilization x).

End FurtherStatements.

(* ================================================================== *)
(** ** The accounting class *)
(* ================================================================== *)

(** [class NVMLAccounting] of the same translation unit.  It throws
    nothing and takes no lock, so its member functions are plain state
    passing over the object, the driver and the log of driver calls. *)
Module Accounting.

(** The members of [nvmlAccountingStats_t] that the class reads. *)
Record nvmlAccountingStats_t := {
  stats_maxMemoryUsage : Z;
  stats_time : Z;
  stats_startTime : Z;
  stats_isRunning : Z
}.

Record AccountingStats := {
  gpuUtilization : Z;
  memoryUtilization : Z;
  sample_maxMemoryUsage : Z;
  sample_time : Z;
  sample_startTime : Z;
  sample_isRunning : bool;
  reserved : list Z
}.

Record ProcessAccountingStats := {
  pid : Z;
  maxMemoryUsage : Z;
  time : Z;
  startTime : Z;
  isRunning : bool;
  processName : string;
  samples : list AccountingStats
}.

Record NVMLAccounting := {
  devices : list nvmlDevice_t;
  accountingEnabled : bool
}.

(** [std::map<unsigned int, std::vector<ProcessAccountingStats>>], in
    ascending order of its keys. *)
Definition AllStats := list (Z * list ProcessAccountingStats).

(** [allStats[k] = v] *)
Fixpoint assign_at (k : Z) (v : list ProcessAccountingStats) (m : AllStats)
  : AllStats :=
  match m with
  | [] => [(k, v)]
  | (k0, v0) :: m' =>
      match k ?= k0 with
      | Eq => (k, v) :: m'
      | Lt => (k, v) :: m
      | Gt => (k0, v0) :: assign_at k v m'
      end
  end.

Inductive Call :=
| CallDeviceSetAccountingMode (device : nvmlDevice_t) (mode : Z)
| CallDeviceGetAccountingMode (device : nvmlDevice_t)
| CallDeviceGetAccountingPids (device : nvmlDevice_t) (count : Z) (buffer : bool)
| CallDeviceGetAccountingStats (device : nvmlDevice_t) (pid : Z)
| CallSystemGetProcessName (pid : Z)
| CallDeviceGetAccountingBufferSize (device : nvmlDevice_t)
| CallDeviceClearAccountingPids (device : nvmlDevice_t).

Definition Callback := nat.

Inductive Event :=
| EDriver (c : Call) (r : nvmlReturn_t)
| ECallback (cb : Callback) (stats : AllStats)
| ESleep (seconds : Z).

(** The driver as the class calls it.  [nvmlDeviceGetAccountingPids]
    takes the value of [infoCount] and whether a buffer is passed, and
    answers with the new value of [infoCount] and the pids it wrote. *)
Class Driver (D : Type) := {
  NVML_FEATURE_DISABLED : Z;
  NVML_FEATURE_ENABLED : Z;
  nvmlDeviceSetAccountingMode : nvmlDevice_t -> Z -> D -> nvmlReturn_t * unit * D;
  nvmlDeviceGetAccountingMode : nvmlDevice_t -> D -> nvmlReturn_t * Z * D;
  nvmlDeviceGetAccountingPids :
    nvmlDevice_t -> Z -> bool -> D -> nvmlReturn_t * (Z * list Z) * D;
  nvmlDeviceGetAccountingStats :
    nvmlDevice_t -> Z -> D -> nvmlReturn_t * nvmlAccountingStats_t * D;
  nvmlSystemGetProcessName : Z -> D -> nvmlReturn_t * string * D;
  nvmlDeviceGetAccountingBufferSize : nvmlDevice_t -> D -> nvmlReturn_t * Z * D;
  nvmlDeviceClearAccountingPids : nvmlDevice_t -> D -> nvmlReturn_t * unit * D
}.

(** The world a member function runs in.  [indet] gives what a
    default-initialised [ProcessAccountingStats] finds in its scalar
    members, which have no initialisers. *)
Record World (D : Type) := {
  self : NVMLAccounting;
  drv : D;
  trace : list Event;
  indet : ProcessAccountingStats
}.

Arguments self {D} w.
Arguments drv {D} w.
Arguments trace {D} w.
Arguments indet {D} w.

Definition emit {D} (e : Event) (w : World D) : World D :=
  {| self := self w; drv := drv w; trace := trace w ++ [e]; indet := indet w |}.

Definition driver_call {D R} (c : Call) (f : D -> nvmlReturn_t * R * D)
    (w : World D) : nvmlReturn_t * R * World D :=
  let '(r, v, d') := f (drv w) in
  (r, v, {| self := self w; drv := d'; trace := trace w ++ [EDriver c r];
            indet := indet w |}).

Definition set_accountingEnabled {D} (b : bool) (w : World D) : World D :=
  {| self := {| devices := devices (self w); accountingEnabled := b |};
     drv := drv w; trace := trace w; indet := indet w |}.

(** [ProcessAccountingStats procStats;] *)
Definition declare_ProcessAccountingStats {D} (w : World D)
  : ProcessAccountingStats :=
  {| pid := pid (indet w); maxMemoryUsage := maxMemoryUsage (indet w);
     time := time (indet w); startTime := startTime (indet w);
     isRunning := isRunning (indet w); processName := ""; samples := [] |}.

Definition set_pid (x : Z) (p : ProcessAccountingStats) : ProcessAccountingStats :=
  {| pid := x; maxMemoryUsage := maxMemoryUsage p; time := time p;
     startTime := startTime p; isRunning := isRunning p;
     processName := processName p; samples := samples p |}.

(** The four assignments from [stats]. *)
Definition set_stats (s : nvmlAccountingStats_t) (p : ProcessAccountingStats)
  : ProcessAccountingStats :=
  {| pid := pid p; maxMemoryUsage := stats_maxMemoryUsage s;
     time := stats_time s; startTime := stats_startTime s;
     isRunning := negb (stats_isRunning s =? 0);
     processName := processName p; samples := samples p |}.

Definition set_processName (x : string) (p : ProcessAccountingStats)
  : ProcessAccountingStats :=
  {| pid := pid p; maxMemoryUsage := maxMemoryUsage p; time := time p;
     startTime := startTime p; isRunning := isRunning p;
     processName := x; samples := samples p |}.

(** [std::vector<unsigned int> pids(infoCount)] after the driver wrote
    [written] to [pids.data()]: a prefix of the vector is overwritten,
    its size stays. *)
Definition write_buffer (written : list Z) (buffer : list Z) : list Z :=
  firstn (List.length buffer)
         (List.map u32 written ++ skipn (List.length written) buffer).

Fixpoint for_each {D A S} (l : list A) (body : A -> S -> World D -> S * World D)
    (acc : S) (w : World D) : S * World D :=
  match l with
  | [] => (acc, w)
  | x :: l' => let '(acc', w') := body x acc w in for_each l' body acc' w'
  end.

Section Members.

Context {D : Type} `{Driver D}.

(** [NVMLAccounting(const std::vector<nvmlDevice_t>& deviceList)] *)
Definition constructor (deviceList : list nvmlDevice_t) : NVMLAccounting :=
  {| devices := deviceList; accountingEnabled := false |}.

(** [bool enableAccounting(unsigned int deviceIndex)] *)
Definition enableAccounting (deviceIndex : Z) (w : World D) : bool * World D :=
  if out_of_range (devices (self w)) deviceIndex then (false, w) else
  let device := at_index (devices (self w)) deviceIndex in
  let '(result, _, w1) :=
    driver_call (CallDeviceSetAccountingMode device NVML_FEATURE_ENABLED)
                (nvmlDeviceSetAccountingMode device NVML_FEATURE_ENABLED) w in
  if result =? NVML_SUCCESS
  then (true, set_accountingEnabled true w1)
  else (false, w1).

(** [bool disableAccounting(unsigned int deviceIndex)] *)
Definition disableAccounting (deviceIndex : Z) (w : World D) : bool * World D :=
  if out_of_range (devices (self w)) deviceIndex then (false, w) else
  let device := at_index (devices (self w)) deviceIndex in
  let '(result, _, w1) :=
    driver_call (CallDeviceSetAccountingMode device NVML_FEATURE_DISABLED)
                (nvmlDeviceSetAccountingMode device NVML_FEATURE_DISABLED) w in
  (result =? NVML_SUCCESS, w1).

(** [bool isAccountingEnabled(unsigned int deviceIndex)] *)
Definition isAccountingEnabled (deviceIndex : Z) (w : World D) : bool * World D :=
  if out_of_range (devices (self w)) deviceIndex then (false, w) else
  let device := at_index (devices (self w)) deviceIndex in
  let '(result, mode, w1) :=
    driver_call (CallDeviceGetAccountingMode device)
                (nvmlDeviceGetAccountingMode device) w in
  ((result =? NVML_SUCCESS) && (mode =? NVML_FEATURE_ENABLED), w1).

(** The body of [for (unsigned int pid : pids)] in
    [getRunningProcessStats]. *)
Definition running_process (device : nvmlDevice_t) (p : Z)
    (processStats : list ProcessAccountingStats) (w : World D)
  : list ProcessAccountingStats * World D :=
  let '(result, stats, w1) :=
    driver_call (CallDeviceGetAccountingStats device p)
                (nvmlDeviceGetAccountingStats device p) w in
  if result =? NVML_SUCCESS then
    let procStats := declare_ProcessAccountingStats w1 in
    let procStats := set_stats stats (set_pid p procStats) in
    let '(r, name, w2) :=
      driver_call (CallSystemGetProcessName p) (nvmlSystemGetProcessName p) w1 in
    let procStats :=
      if r =? NVML_SUCCESS then set_processName name procStats else procStats in
    (processStats ++ [procStats], w2)
  else (processStats, w1).

(** [std::vector<ProcessAccountingStats>
     getRunningProcessStats(unsigned int deviceIndex)] *)
Definition getRunningProcessStats (deviceIndex : Z) (w : World D)
  : list ProcessAccountingStats * World D :=
  let processStats : list ProcessAccountingStats := [] in
  if out_of_range (devices (self w)) deviceIndex then (processStats, w) else
  let '(enabled, w1) := isAccountingEnabled deviceIndex w in
  if negb enabled then (processStats, w1) else
  let device := at_index (devices (self w1)) deviceIndex in
  let '(_, (count, _), w2) :=
    driver_call (CallDeviceGetAccountingPids device 0 false)
                (nvmlDeviceGetAccountingPids device 0 false) w1 in
  let infoCount := u32 count in
  if infoCount =? 0 then (processStats, w2) else
  let pids := repeat 0 (Z.to_nat infoCount) in
  let '(result, (_, written), w3) :=
    driver_call (CallDeviceGetAccountingPids device infoCount true)
                (nvmlDeviceGetAccountingPids device infoCount true) w2 in
  let pids := write_buffer written pids in
  if negb (result =? NVML_SUCCESS) then (processStats, w3) else
  for_each pids (running_process device) processStats w3.

(** [ProcessAccountingStats
     getProcessAccountingStats(unsigned int deviceIndex, unsigned int pid)] *)
Definition getProcessAccountingStats (deviceIndex : Z) (p : Z) (w : World D)
  : ProcessAccountingStats * World D :=
  let procStats := set_pid p (declare_ProcessAccountingStats w) in
  if out_of_range (devices (self w)) deviceIndex then (procStats, w) else
  let '(enabled, w1) := isAccountingEnabled deviceIndex w in
  if negb enabled then (procStats, w1) else
  let device := at_index (devices (self w1)) deviceIndex in
  let '(result, stats, w2) :=
    driver_call (CallDeviceGetAccountingStats device p)
                (nvmlDeviceGetAccountingStats device p) w1 in
  if result =? NVML_SUCCESS then
    let procStats := set_stats stats procStats in
    let '(r, name, w3) :=
      driver_call (CallSystemGetProcessName p) (nvmlSystemGetProcessName p) w2 in
    if r =? NVML_SUCCESS
    then (set_processName name procStats, w3)
    else (procStats, w3)
  else (procStats, w2).

(** [unsigned int getAccountingBufferSize(unsigned int deviceIndex)] *)
Definition getAccountingBufferSize (deviceIndex : Z) (w : World D) : Z * World D :=
  if out_of_range (devices (self w)) deviceIndex then (0, w) else
  let device := at_index (devices (self w)) deviceIndex in
  let '(result, bufferSize, w1) :=
    driver_call (CallDeviceGetAccountingBufferSize device)
                (nvmlDeviceGetAccountingBufferSize device) w in
  (if result =? NVML_SUCCESS then u32 bufferSize else 0, w1).

(** [bool clearAccountingPids(unsigned int deviceIndex)] *)
Definition clearAccountingPids (deviceIndex : Z) (w : World D) : bool * World D :=
  if out_of_range (devices (self w)) deviceIndex then (false, w) else
  let device := at_index (devices (self w)) deviceIndex in
  let '(result, _, w1) :=
    driver_call (CallDeviceClearAccountingPids device)
                (nvmlDeviceClearAccountingPids device) w in
  (result =? NVML_SUCCESS, w1).

(** The body of the loop of [getAllDeviceAccountingStats]; the index
    of type [size_t] is converted to [unsigned int] at both uses. *)
Definition device_stats (i : Z) (allStats : AllStats) (w : World D)
  : AllStats * World D :=
  let '(enabled, w1) := isAccountingEnabled (u32 i) w in
  if enabled then
    let '(stats, w2) := getRunningProcessStats (u32 i) w1 in
    (assign_at (u32 i) stats allStats, w2)
  else (allStats, w1).

(** [std::map<unsigned int, std::vector<ProcessAccountingStats>>
     getAllDeviceAccountingStats()] *)
Definition getAllDeviceAccountingStats (w : World D) : AllStats * World D :=
  for_each (range (List.length (devices (self w)))) device_stats [] w.

(** One turn of the [while (accountingEnabled)] loop of the thread that
    [startPeriodicCollection] detaches. *)
Definition collection_pass (intervalSeconds : Z) (callback : option Callback)
    (w : World D) : World D :=
  let '(stats, w1) := getAllDeviceAccountingStats w in
  let w2 := match callback, stats with
            | Some cb, _ :: _ => emit (ECallback cb stats) w1
            | _, _ => w1
            end in
  emit (ESleep intervalSeconds) w2.

(** The thread of [startPeriodicCollection], run for at most [passes]
    turns; the answer tells whether the loop was left. *)
Fixpoint startPeriodicCollection (passes : nat) (intervalSeconds : Z)
    (callback : option Callback) (w : World D) : bool * World D :=
  match passes with
  | O => (false, w)
  | S n =>
      if accountingEnabled (self w)
      then startPeriodicCollection n intervalSeconds callback
             (collection_pass intervalSeconds callback w)
      else (true, w)
  end.

(** The calls a client can make on the object. *)
Inductive Request :=
| Enable (deviceIndex : Z)
| Disable (deviceIndex : Z)
| IsEnabled (deviceIndex : Z)
| RunningStats (deviceIndex : Z)
| ProcessStats (deviceIndex : Z) (p : Z)
| BufferSize (deviceIndex : Z)
| Clear (deviceIndex : Z)
| AllDeviceStats
| Collect (passes : nat) (intervalSeconds : Z) (callback : option Callback).

(** A request served; the answer tells whether it was an
    [enableAccounting] that returned [true]. *)
Definition serve (q : Request) (w : World D) : bool * World D :=
  match q with
  | Enable i => enableAccounting i w
  | Disable i => (false, snd (disableAccounting i w))
  | IsEnabled i => (false, snd (isAccountingEnabled i w))
  | RunningStats i => (false, snd (getRunningProcessStats i w))
  | ProcessStats i p => (false, snd (getProcessAccountingStats i p w))
  | BufferSize i => (false, snd (getAccountingBufferSize i w))
  | Clear i => (false, snd (clearAccountingPids i w))
  | AllDeviceStats => (false, snd (getAllDeviceAccountingStats w))
  | Collect n s cb => (false, snd (startPeriodicCollection n s cb w))
  end.

(** A sequence of requests; the answer tells whether some
    [enableAccounting] returned [true]. *)
Fixpoint serve_all (qs : list Request) (w : World D) : bool * World D :=
  match qs with
  | [] => (false, w)
  | q :: qs' =>
      let '(b, w1) := serve q w in
      let '(b', w2) := serve_all qs' w1 in
      (b || b', w2)
  end.

End Members.

(** The events logged between two worlds. *)
Definition events_since {D} (w w' : World D) : list Event :=
  skipn (List.length (trace w)) (trace w').

(** The statistics queries among events: process and status. *)
Definition stats_queries_of (evs : list Event) : list (Z * nvmlReturn_t) :=
  flat_map (fun e => match e with
                     | EDriver (CallDeviceGetAccountingStats _ p) r => [(p, r)]
                     | _ => []
                     end) evs.

Definition sleeps_of (evs : list Event) : list Z :=
  flat_map (fun e => match e with ESleep s => [s] | _ => [] end) evs.

Definition is_driver_event (e : Event) : Prop :=
  match e with EDriver _ _ => True | _ => False end.

(** A step that leaves the object alone and logs [evs]. *)
Definition extends {D} (w w' : World D) (evs : list Event) : Prop :=
  self w' = self w /\ indet w' = indet w /\ trace w' = trace w ++ evs.

(** A step that leaves the object alone and only talks to the driver. *)
Definition quiet {D} (w w' : World D) : Prop :=
  exists evs, extends w w' evs /\ Forall is_driver_event evs.

(** The size that the sizing call of [getRunningProcessStats] reports. *)
Definition sizing_count {D} `{Driver D} (deviceIndex : Z) (w : World D) : Z :=
  let w1 := snd (isAccountingEnabled deviceIndex w) in
  let device := at_index (devices (self w)) deviceIndex in
  u32 (fst (snd (fst (nvmlDeviceGetAccountingPids device 0 false (drv w1))))).

Definition succeeded (a : Z * nvmlReturn_t) : bool := snd a =? NVML_SUCCESS.

(** A step of the collection thread: driver calls, sleeps, and handler
    calls with statistics that are not empty. *)
Definition is_collection_event (callback : option Callback) (e : Event) : Prop :=
  match e with
  | EDriver _ _ => True
  | ESleep _ => True
  | ECallback cb stats => callback = Some cb /\ stats <> []
  end.

(** The keys of a map of statistics: strictly ascending, below [n]. *)
Definition keys_below (n : Z) (m : AllStats) : Prop :=
  StronglySorted Z.lt (List.map fst m) /\ Forall (fun kv => 0 <= fst kv < n) m.

(** Turns of the collection thread that slept for [sleeps]. *)
Definition collecting {D} (callback : option Callback) (w w' : World D)
    (sleeps : list Z) : Prop :=
  exists evs, extends w w' evs /\
              Forall (is_collection_event callback) evs /\
              sleeps_of evs = sleeps.

(** A fake driver: accounting is on for the devices of [on]; the sizing
    call reports [reported] pids, the filling call writes [listed]; the
    statistics of the pids of [gone] cannot be read. *)
Record FakeDriver := {
  on : list nvmlDevice_t;
  reported : Z;
  listed : list Z;
  gone : list Z
}.

Definition mem (x : Z) (l : list Z) : bool := existsb (Z.eqb x) l.

#[global] Instance fake_driver : Driver FakeDriver := {|
  NVML_FEATURE_DISABLED := 0;
  NVML_FEATURE_ENABLED := 1;
  nvmlDeviceSetAccountingMode := fun dev mode d =>
    (0, tt, {| on := if mode =? 1 then dev :: on d
                     else filter (fun x => negb (x =? dev)) (on d);
               reported := reported d; listed := listed d; gone := gone d |});
  nvmlDeviceGetAccountingMode := fun dev d =>
    (0, if mem dev (on d) then 1 else 0, d);
  nvmlDeviceGetAccountingPids := fun dev count buffer d =>
    if buffer then (0, (Z.of_nat (List.length (listed d)), listed d), d)
    else (7, (reported d, []), d);
  nvmlDeviceGetAccountingStats := fun dev p d =>
    (if mem p (gone d) then 6 else 0,
     {| stats_maxMemoryUsage := 1024 * p; stats_time := 10 * p;
        stats_startTime := p; stats_isRunning := p mod 2 |}, d);
  nvmlSystemGetProcessName := fun p d =>
    (if p =? 0 then 6 else 0, "proc", d);
  nvmlDeviceGetAccountingBufferSize := fun dev d => (0, 4000, d);
  nvmlDeviceClearAccountingPids := fun dev d => (0, tt, d)
|}.

Definition garbage : ProcessAccountingStats :=
  {| pid := 77; maxMemoryUsage := 78; time := 79; startTime := 80;
     isRunning := true; processName := ""; samples := [] |}.

(** Two devices, accounting on for the first; the sizing call reports
    four pids, the filling call writes three. *)
Definition two_devices : World FakeDriver :=
  {| self := constructor [100; 101];
     drv := {| on := [100]; reported := 4; listed := [11; 12; 13]; gone := [12] |};
     trace := []; indet := garbage |}.

End Accounting.

(* ================================================================== *)
(** ** Lemmas on std::map *)
(* ================================================================== *)

Lemma string_compare_refl (s : string) : String.compare s s = Eq.
Proof.
  induction s as [|c s IH]; simpl; [reflexivity|].
  rewrite IH.
  destruct (Ascii.compare c c) eqn:E; try reflexivity.
  - unfold Ascii.compare in E. rewrite N.compare_refl in E. discriminate.
  - unfold Ascii.compare in E. rewrite N.compare_refl in E. discriminate.
Qed.

Lemma StdMap_find_In {V} (k : string) (v : V) (m : StdMap.t V) :
  StdMap.find k m = Some v -> In (k, v) m.
Proof.
  induction m as [|[k' v'] m IH]; simpl; [discriminate|].
  destruct (String.eqb_spec k k') as [->|Hne].
  - intros [= ->]. now left.
  - intros Hf. right. auto.
Qed.

Lemma StdMap_In_insert {V} (k k' : string) (v v' : V) (m : StdMap.t V) :
  In (k', v') (StdMap.insert k v m) -> (k', v') = (k, v) \/ In (k', v') m.
Proof.
  induction m as [|[k0 v0] m IH]; simpl.
  - intros [E|[]]. left. now symmetry.
  - destruct (String.compare k k0); simpl.
    + intros [E|Hin]; [left; now symmetry | right; now right].
    + intros [E|Hin]; [left; now symmetry | right; exact Hin].
    + intros [E|Hin]; [right; now left|].
      destruct (IH Hin) as [E|Hin']; [now left | right; now right].
Qed.

Lemma StdMap_find_insert_same {V} (k : string) (v : V) (m : StdMap.t V) :
  StdMap.find k (StdMap.insert k v m) = Some v.
Proof.
  induction m as [|[k0 v0] m IH]; simpl.
  - now rewrite String.eqb_refl.
  - destruct (String.compare k k0) eqn:E; simpl.
    + now rewrite String.eqb_refl.
    + now rewrite String.eqb_refl.
    + destruct (String.eqb_spec k k0) as [->|Hne]; [|exact IH].
      rewrite string_compare_refl in E. discriminate.
Qed.

(* ================================================================== *)
(** ** Rules of the program logic *)
(* ================================================================== *)

Section Rules.

Context {D : Type} `{DriverInterface D}.

Lemma wp_ret {A} (a : A) (w : World D) Q :
  Q (Ok a) w -> wp (ret a) w Q.
Proof. exact (fun q => q). Qed.

Lemma wp_throw {A} (e : NVMLException) (w : World D)
    (Q : Result A -> World D -> Prop) :
  Q (Throw e) w -> wp (throw e) w Q.
Proof. exact (fun q => q). Qed.

Lemma wp_bind {A B} (c : M D A) (k : A -> M D B) (w : World D) Q :
  wp c w (fun r w' => match r with
                      | Ok a => wp (k a) w' Q
                      | Throw e => Q (Throw e) w'
                      end) ->
  wp (bind c k) w Q.
Proof.
  unfold wp, bind. destruct (c w) as [[a|e] w']; simpl; auto.
Qed.

Lemma wp_try_catch {A} (c : M D A) (h : NVMLException -> M D A)
    (w : World D) Q :
  wp c w (fun r w' => match r with
                      | Ok a => Q (Ok a) w'
                      | Throw e => wp (h e) w' Q
                      end) ->
  wp (try_catch c h) w Q.
Proof.
  unfold wp, try_catch. destruct (c w) as [[a|e] w']; simpl; auto.
Qed.

Lemma wp_mono {A} (c : M D A) (w : World D) (Q Q' : Result A -> World D -> Prop) :
  wp c w Q -> (forall r w', Q r w' -> Q' r w') -> wp c w Q'.
Proof. unfold wp. auto. Qed.

Lemma wp_this (w : World D) Q : Q (Ok (mgr w)) w -> wp this w Q.
Proof. exact (fun q => q). Qed.

Lemma wp_set_mgr (m : MIGManager) (w : World D) Q :
  Q (Ok tt) (with_mgr m w) -> wp (set_mgr m) w Q.
Proof. exact (fun q => q). Qed.

Lemma wp_assign (f : MIGManager -> MIGManager) (w : World D) Q :
  Q (Ok tt) (with_mgr (f (mgr w)) w) -> wp (assign f) w Q.
Proof. exact (fun q => q). Qed.

Lemma wp_emit (e : Event) (w : World D) Q :
  Q (Ok tt) (logged [e] w) -> wp (emit e) w Q.
Proof. exact (fun q => q). Qed.

Lemma wp_invoke (cb : option Callback) ok msg (w : World D) Q :
  Q (match thrown_by cb ok msg with
     | Some e => Throw e
     | None => Ok tt
     end) (logged (handler_events cb ok msg) w) ->
  wp (invoke cb ok msg) w Q.
Proof.
  destruct cb as [c|]; simpl.
  - unfold wp, bind, emit, throw, ret, logged. simpl.
    destruct (throws c ok msg); exact (fun q => q).
  - unfold wp, ret, logged; simpl. rewrite app_nil_r.
    destruct w; exact (fun q => q).
Qed.

Lemma wp_driver_call {R} (c : DriverCall) (f : D -> nvmlReturn_t * R * D)
    (w : World D) Q :
  (forall r v d', f (drv w) = (r, v, d') ->
     Q (Ok (r, v))
       {| mgr := mgr w; drv := d'; trace := trace w ++ [EDriver c r];
          indet_metrics := indet_metrics w; indet_info := indet_info w |}) ->
  wp (driver_call c f) w Q.
Proof.
  intros HQ. unfold wp, driver_call.
  destruct (f (drv w)) as [[r v] d'] eqn:E. simpl. now apply HQ.
Qed.

Lemma wp_for_each {A S} (I : list A -> S -> World D -> Prop)
    (body : A -> S -> M D S) (l : list A) :
  (forall pre x acc w,
      I pre acc w ->
      wp (body x acc) w
         (fun r w' => exists acc', r = Ok acc' /\ I (pre ++ [x]) acc' w')) ->
  forall pre acc w,
    I pre acc w ->
    wp (for_each l body acc) w
       (fun r w' => exists acc', r = Ok acc' /\ I (pre ++ l) acc' w').
Proof.
  intros Hbody. induction l as [|x l IH]; intros pre acc w HI; simpl.
  - apply wp_ret. exists acc. rewrite app_nil_r. auto.
  - apply wp_bind. eapply wp_mono; [apply (Hbody pre x acc w HI)|].
    intros r w' (acc' & -> & HI').
    replace (pre ++ x :: l) with ((pre ++ [x]) ++ l)
      by (rewrite <- app_assoc; reflexivity).
    now apply IH.
Qed.

(** *** Local work *)

Lemma advances_refl P (w : World D) : advances P w w.
Proof.
  repeat split. exists []. split; [|constructor].
  unfold added. now rewrite app_nil_r.
Qed.

Lemma advances_trans P (w1 w2 w3 : World D) :
  advances P w1 w2 -> advances P w2 w3 -> advances P w1 w3.
Proof.
  intros (Hm & Hi & Hj & evs & Ht & HP) (Hm' & Hi' & Hj' & evs' & Ht' & HP').
  repeat split; try congruence.
  exists (evs ++ evs'). split.
  - unfold added in *. rewrite Ht', Ht. now rewrite app_assoc.
  - apply Forall_app. auto.
Qed.

Lemma advances_weaken (P P' : Event -> Prop) (w w' : World D) :
  (forall e, P e -> P' e) -> advances P w w' -> advances P' w w'.
Proof.
  intros HPP (Hm & Hi & Hj & evs & Ht & HP).
  repeat split; auto. exists evs. split; auto.
  eapply Forall_impl; eauto.
Qed.

Lemma local_ret P {A} (a : A) : local (D:=D) P (ret a).
Proof. intros w. exists a, w. split; [reflexivity | apply advances_refl]. Qed.

Lemma local_bind P {A B} (c : M D A) (k : A -> M D B) :
  local P c -> (forall a, local P (k a)) -> local P (bind c k).
Proof.
  intros Hc Hk w.
  destruct (Hc w) as (a & w1 & E1 & H1).
  destruct (Hk a w1) as (b & w2 & E2 & H2).
  exists b, w2. split.
  - unfold bind. now rewrite E1.
  - eapply advances_trans; eauto.
Qed.

Lemma local_this P {B} (k : MIGManager -> M D B) :
  (forall m, local P (k m)) -> local P (bind this k).
Proof.
  intros Hk. apply local_bind; [|exact Hk].
  intros w. exists (mgr w), w. split; [reflexivity | apply advances_refl].
Qed.

Lemma local_emit (P : Event -> Prop) (e : Event) :
  P e -> local (D:=D) P (emit e).
Proof.
  intros HP w. eexists tt, _. split; [reflexivity|].
  repeat split. exists [e]. split; [reflexivity | now constructor].
Qed.

Lemma local_driver_call (P : Event -> Prop) {R} (c : DriverCall)
    (f : D -> nvmlReturn_t * R * D) :
  (forall r, P (EDriver c r)) -> local P (driver_call c f).
Proof.
  intros HP w. unfold driver_call.
  destruct (f (drv w)) as [[r v] d'].
  eexists (r, v), _. split; [reflexivity|].
  repeat split. exists [EDriver c r]. split; [reflexivity | now constructor].
Qed.

Lemma local_for_each P {A S} (l : list A) (body : A -> S -> M D S) :
  (forall x acc, local P (body x acc)) ->
  forall acc, local P (for_each l body acc).
Proof.
  intros Hbody. induction l as [|x l IH]; intros acc; simpl.
  - apply local_ret.
  - apply local_bind; auto.
Qed.

Lemma local_lock_guard (P : Event -> Prop) {A} (mx : Mutex) (body : M D A) :
  P (ELock mx) -> P (EUnlock mx) -> local P body ->
  local P (lock_guard mx body).
Proof.
  intros HL HU Hb w.
  destruct (Hb (logged [ELock mx] w)) as (a & w2 & E2 & H2).
  exists a, (logged [EUnlock mx] w2). split.
  - unfold lock_guard, bind, try_catch, emit, logged in *. simpl.
    rewrite E2. reflexivity.
  - apply advances_trans with (w2 := logged [ELock mx] w).
    + repeat split. exists [ELock mx]. split; [reflexivity | now constructor].
    + apply advances_trans with (w2 := w2); [exact H2|].
      repeat split. exists [EUnlock mx].
      split; [reflexivity | now constructor].
Qed.

Lemma local_weaken (P P' : Event -> Prop) {A} (c : M D A) :
  (forall e, P e -> P' e) -> local P c -> local P' c.
Proof.
  intros HPP Hc w. destruct (Hc w) as (a & w' & E & Ha).
  exists a, w'. split; auto. eapply advances_weaken; eauto.
Qed.

End Rules.

(* ================================================================== *)
(** ** Refresh passes and telemetry collection are local work *)
(* ================================================================== *)

Create HintDb mig.

Ltac local_auto :=
  repeat first
    [ solve [auto with mig]
    | apply local_ret
    | apply local_this; intros ?
    | apply local_driver_call; intros ?; exact I
    | apply local_lock_guard; [exact I | exact I | ]
    | apply local_for_each; intros ? ?
    | apply local_bind; [| intros ?]
    | match goal with
      | |- local _ (match ?x with _ => _ end) => destruct x
      | |- local _ (if ?b then _ else _) => destruct b
      end ].

Section LocalWork.

Context {D : Type} `{DriverInterface D}.

Lemma local_declare_MIGDeviceInfo P : local (D:=D) P declare_MIGDeviceInfo.
Proof.
  intros w. eexists _, w. split; [reflexivity | apply advances_refl].
Qed.

Lemma local_declare_MIGMetrics P : local (D:=D) P declare_MIGMetrics.
Proof.
  intros w. eexists _, w. split; [reflexivity | apply advances_refl].
Qed.

Lemma local_now P : local P now.
Proof.
  intros w. eexists _, w. split; [reflexivity | apply advances_refl].
Qed.

Hint Resolve local_declare_MIGDeviceInfo local_declare_MIGMetrics local_now
  : mig.

Lemma local_isMIGModeEnabled (deviceIndex : Z) :
  local is_query (isMIGModeEnabled deviceIndex).
Proof. unfold isMIGModeEnabled. local_auto. Qed.

Hint Resolve local_isMIGModeEnabled : mig.

Lemma local_refresh_first_compute_instance dev instanceInfo ci ciInfo migInfo :
  local is_query
    (refresh_first_compute_instance dev instanceInfo ci ciInfo migInfo).
Proof. unfold refresh_first_compute_instance. local_auto. Qed.

Hint Resolve local_refresh_first_compute_instance : mig.

Lemma local_refresh_compute_instance dev instanceInfo jc migInfo :
  local is_query (refresh_compute_instance dev instanceInfo jc migInfo).
Proof. unfold refresh_compute_instance. destruct jc. local_auto. Qed.

Hint Resolve local_refresh_compute_instance : mig.

Lemma local_refresh_gpu_instance deviceIndex dev gi newDevices :
  local is_query (refresh_gpu_instance deviceIndex dev gi newDevices).
Proof. unfold refresh_gpu_instance. local_auto. Qed.

Hint Resolve local_refresh_gpu_instance : mig.

Lemma local_refresh_device deviceIndex newDevices :
  local is_query (refresh_device deviceIndex newDevices).
Proof. unfold refresh_device. local_auto. Qed.

Hint Resolve local_refresh_device : mig.

Lemma local_collect_process p metrics :
  local is_query (collect_process p metrics).
Proof. unfold collect_process. local_auto. Qed.

Hint Resolve local_collect_process : mig.

Lemma local_collectDeviceMetrics device :
  local is_query (collectDeviceMetrics device).
Proof. unfold collectDeviceMetrics. local_auto. Qed.

Hint Resolve local_collectDeviceMetrics : mig.

Lemma local_collect_all registry :
  local is_query (collect_all registry).
Proof.
  unfold collect_all. apply local_for_each. intros [k device] acc.
  local_auto.
Qed.

(** A refresh pass always completes; all it changes in the manager is
    the published mapping, and all it adds to the trace are queries
    and the lock traffic of its closing block. *)
Lemma refreshMIGDevices_returns (w : World D) :
  exists newDevices w',
    refreshMIGDevices w = (Ok tt, w') /\
    mgr w' = set_migDevices newDevices (mgr w) /\
    indet_metrics w' = indet_metrics w /\
    indet_info w' = indet_info w /\
    exists evs, added w w' evs /\ Forall is_query evs.
Proof.
  destruct (local_for_each is_query
              (range (List.length (devices (mgr w)))) refresh_device
              local_refresh_device StdMap.empty w)
    as (nd & w1 & E & Hm & Hi & Hj & evs & Ht & HP).
  exists nd. eexists. split.
  - unfold refreshMIGDevices, bind, this. rewrite E.
    unfold publish, lock_guard, bind, try_catch, assign, bind, this,
      set_mgr, emit, ret. simpl. reflexivity.
  - simpl. rewrite Hm. repeat split; auto.
    exists (evs ++ [ELock MetricsMutex; EUnlock MetricsMutex]).
    unfold added in *. simpl. split.
    + rewrite Ht. rewrite <- !app_assoc. reflexivity.
    + apply Forall_app. split; [exact HP|].
      repeat constructor.
Qed.

End LocalWork.

(* ================================================================== *)
(** ** Traces *)
(* ================================================================== *)

Section Traces.

Context {D : Type}.

Lemma added_refl (w : World D) : added w w [].
Proof. unfold added. now rewrite app_nil_r. Qed.

Lemma added_trans (w1 w2 w3 : World D) evs evs' :
  added w1 w2 evs -> added w2 w3 evs' -> added w1 w3 (evs ++ evs').
Proof. unfold added. intros -> ->. now rewrite app_assoc. Qed.

Lemma added_logged (w : World D) evs : added w (logged evs w) evs.
Proof. reflexivity. Qed.

Lemma added_events_since (w w' : World D) evs :
  added w w' evs -> events_since w w' = evs.
Proof.
  unfold added, events_since. intros ->.
  rewrite skipn_app, skipn_all, Nat.sub_diag. reflexivity.
Qed.

Lemma added_inj (w w' : World D) evs evs' :
  added w w' evs -> added w w' evs' -> evs = evs'.
Proof.
  unfold added. intros -> E. now apply app_inv_head in E.
Qed.

Lemma callbacks_of_app tr tr' :
  callbacks_of (tr ++ tr') = callbacks_of tr ++ callbacks_of tr'.
Proof. apply flat_map_app. Qed.

Lemma waits_of_app tr tr' :
  waits_of (tr ++ tr') = waits_of tr ++ waits_of tr'.
Proof. apply flat_map_app. Qed.

Lemma mode_calls_of_app tr tr' :
  mode_calls_of (tr ++ tr') = mode_calls_of tr ++ mode_calls_of tr'.
Proof. apply filter_app. Qed.

Lemma driver_calls_of_app tr tr' :
  driver_calls_of (tr ++ tr') = driver_calls_of tr ++ driver_calls_of tr'.
Proof. apply filter_app. Qed.

(** Queries are neither completions, nor waits, nor mode changes. *)
Lemma queries_are_quiet evs :
  Forall is_query evs ->
  callbacks_of evs = [] /\ waits_of evs = [] /\ mode_calls_of evs = [].
Proof.
  induction 1 as [|e evs He _ (IH1 & IH2 & IH3)]; [repeat split|].
  unfold callbacks_of, waits_of, mode_calls_of in *. simpl.
  rewrite IH1, IH2, IH3.
  destruct e as [c r| | | | | | | |]; simpl in *; try contradiction;
    try (repeat split; reflexivity).
  destruct c; simpl in *; try contradiction; repeat split; reflexivity.
Qed.

Lemma no_driver_call_logged (w : World D) evs :
  driver_calls_of evs = [] -> no_driver_call w (logged evs w).
Proof.
  intros Hnone. split; [reflexivity|]. exists evs. split; [reflexivity|auto].
Qed.

Lemma no_driver_call_refl (w : World D) : no_driver_call w w.
Proof.
  split; [reflexivity|]. exists []. split; [apply added_refl | reflexivity].
Qed.

End Traces.

(* ================================================================== *)
(** ** More rules *)
(* ================================================================== *)

Section MoreRules.

Context {D : Type} `{DriverInterface D}.


Lemma wp_local (P : Event -> Prop) {A} (c : M D A) (w : World D) Q :
  local P c ->
  (forall a w', c w = (Ok a, w') -> advances P w w' -> Q (Ok a) w') ->
  wp c w Q.
Proof.
  intros Hc HQ. destruct (Hc w) as (a & w' & E & Ha).
  unfold wp. rewrite E. simpl. auto.
Qed.

Lemma wp_refreshMIGDevices (w : World D) Q :
  (forall newDevices w' evs,
      refreshMIGDevices w = (Ok tt, w') ->
      mgr w' = set_migDevices newDevices (mgr w) ->
      indet_metrics w' = indet_metrics w ->
      indet_info w' = indet_info w ->
      added w w' evs -> Forall is_query evs ->
      Q (Ok tt) w') ->
  wp refreshMIGDevices w Q.
Proof.
  intros HQ.
  destruct (refreshMIGDevices_returns w)
    as (nd & w' & E & Hm & Hi & Hj & evs & Ht & HP).
  unfold wp. rewrite E. simpl. eauto.
Qed.

(** Reading a result off a [wp]. *)
Lemma wp_run {A} (c : M D A) (w : World D) Q :
  wp c w Q -> Q (fst (c w)) (snd (c w)).
Proof. exact (fun q => q). Qed.

End MoreRules.

(* ================================================================== *)
(** ** The monitoring loop *)
(* ================================================================== *)

Section Monitoring.

Context {D : Type} `{DriverInterface D}.

(** One pass: the registry is refreshed, the metrics cache is rebuilt
    for the bindings of the refreshed registry, and the thread waits
    for 1000 ms. *)
Lemma monitoringLoop_iteration_spec (w : World D) :
  exists w1 metrics w2 w',
    refreshMIGDevices w = (Ok tt, w1) /\
    collect_all (migDevices (mgr w1)) (logged [ELock MetricsMutex] w1)
    = (Ok metrics, w2) /\
    monitoringLoop_iteration w = (Ok tt, w') /\
    mgr w' = set_latestMetrics metrics (mgr w1) /\
    exists evs, added w w' evs /\ waits_of evs = [1000] /\
                callbacks_of evs = [] /\ mode_calls_of evs = [].
Proof.
  destruct (refreshMIGDevices_returns w)
    as (nd & w1 & E1 & Hm1 & Hi1 & Hj1 & evs1 & Ht1 & HP1).
  destruct (local_collect_all (migDevices (mgr w1))
                              (logged [ELock MetricsMutex] w1))
    as (metrics & w2 & E2 & Hm2 & Hi2 & Hj2 & evs2 & Ht2 & HP2).
  exists w1, metrics, w2. eexists. split; [exact E1|]. split; [exact E2|].
  split.
  - unfold monitoringLoop_iteration, bind. rewrite E1.
    unfold lock_guard at 1, bind, try_catch, emit at 1, this.
    simpl. unfold logged in E2. simpl in E2. rewrite E2.
    unfold lock_guard, bind, try_catch, assign, bind, this, set_mgr, emit,
      ret. simpl. reflexivity.
  - simpl. split.
    + rewrite Hm2. reflexivity.
    + eexists. split.
      * unfold added in *. simpl. rewrite Ht2. simpl. rewrite Ht1.
        rewrite <- !app_assoc. reflexivity.
      * destruct (queries_are_quiet _ HP1) as (A1 & A2 & A3).
        destruct (queries_are_quiet _ HP2) as (B1 & B2 & B3).
        rewrite !waits_of_app, !callbacks_of_app, !mode_calls_of_app.
        rewrite A1, A2, A3, B1, B2, B3. repeat split.
Qed.

Lemma monitoringLoop_waits (passes : nat) (w : World D) :
  monitoringActive (mgr w) = true ->
  exists w',
    monitoringLoop passes w = (Ok tt, w') /\
    monitoringActive (mgr w') = true /\
    exists evs, added w w' evs /\ waits_of evs = repeat 1000 passes.
Proof.
  revert w. induction passes as [|n IH]; intros w Hact.
  - exists w. repeat split; auto. exists []. split; [apply added_refl|reflexivity].
  - destruct (monitoringLoop_iteration_spec w)
      as (w1 & metrics & w2 & w' & E1 & _ & E & Hm & evs & Ht & Hw & _).
    destruct (refreshMIGDevices_returns w)
      as (nd & w1' & E1' & Hm1 & _).
    assert (w1' = w1) by congruence. subst w1'.
    assert (Hact' : monitoringActive (mgr w') = true).
    { rewrite Hm, Hm1. simpl. exact Hact. }
    destruct (IH w' Hact') as (w'' & E' & Hact'' & evs' & Ht' & Hw').
    exists w''. split.
    + simpl. unfold bind at 1, this. rewrite Hact.
      unfold bind. rewrite E. exact E'.
    + split; [exact Hact''|].
      exists (evs ++ evs'). split; [eapply added_trans; eauto|].
      rewrite waits_of_app, Hw, Hw'. reflexivity.
Qed.

Lemma startMonitoring_spec (intervalMs : Z) (w : World D) :
  exists w',
    startMonitoring intervalMs w = (Ok tt, w') /\
    monitoringActive (mgr w') = true /\
    exists evs, added w w' evs /\ waits_of evs = [].
Proof.
  unfold startMonitoring, stopMonitoring, bind, this.
  destruct (monitoringActive (mgr w)) eqn:Hact.
  - eexists. split; [reflexivity|]. split; [reflexivity|].
    exists [ENotify MonitoringCV; EJoin MonitoringThread;
            ESpawn MonitoringThread].
    split; [|reflexivity].
    unfold added. simpl. rewrite <- !app_assoc. reflexivity.
  - eexists. split; [reflexivity|]. split; [reflexivity|].
    exists [ESpawn MonitoringThread]. split; reflexivity.
Qed.

End Monitoring.

(* ================================================================== *)
(** ** What a refresh pass builds *)
(* ================================================================== *)

Ltac wp_auto :=
  repeat first
    [ apply wp_ret
    | apply wp_this
    | apply wp_bind
    | apply wp_driver_call; intros ? ? ? _
    | progress cbv beta iota
    | match goal with
      | |- wp (if ?b then _ else _) _ _ => destruct b
      | |- wp (match ?x with _ => _ end) _ _ => destruct x
      end ].

Section RefreshPass.
Context {D : Type} `{DriverInterface D}.

Lemma first_compute_instance_parent dev ii ci cii mi (w : World D) :
  wp (refresh_first_compute_instance dev ii ci cii mi) w
     (fun r _ => exists mi', r = Ok mi' /\
                             parentDeviceIndex mi' = parentDeviceIndex mi).
Proof.
  unfold refresh_first_compute_instance. wp_auto.
  eexists; split; [reflexivity|].
  repeat match goal with
         | |- context [if ?b then _ else _] => destruct b
         end; reflexivity.
Qed.

Lemma compute_instance_parent dev ii jc mi (w : World D) :
  wp (refresh_compute_instance dev ii jc mi) w
     (fun r _ => exists mi', r = Ok mi' /\
                             parentDeviceIndex mi' = parentDeviceIndex mi).
Proof.
  unfold refresh_compute_instance. destruct jc as [j ci].
  apply wp_bind. apply wp_driver_call. intros r v d' _. cbv beta iota.
  destruct (r =? NVML_SUCCESS); [|apply wp_ret; eauto].
  destruct (j =? 0); [|apply wp_ret; eauto].
  eapply wp_mono; [apply first_compute_instance_parent|].
  intros r0 w' (mi' & -> & Hp). eauto.
Qed.

Lemma gpu_instance_bindings d dev gi nd (w : World D) :
  wp (refresh_gpu_instance d dev gi nd) w
     (fun r _ => exists nd', r = Ok nd' /\
        forall k v, In (k, v) nd' ->
                    In (k, v) nd \/ parentDeviceIndex v = u32 d).
Proof.
  unfold refresh_gpu_instance.
  apply wp_bind. unfold wp at 1. simpl.
  apply wp_bind, wp_driver_call. intros r ii d' _. cbv beta iota.
  destruct (r =? NVML_SUCCESS); [|apply wp_ret; eauto].
  apply wp_bind, wp_driver_call. intros r' cis d'' _. cbv beta iota.
  destruct (r' =? NVML_SUCCESS); [|apply wp_ret; eauto].
  apply wp_bind.
  eapply wp_mono.
  { apply (wp_for_each
             (fun _ (acc : MIGDeviceInfo) (_ : World D) =>
                parentDeviceIndex acc = u32 d)) with (pre := []).
    - intros pre x acc w0 Hacc.
      eapply wp_mono; [apply compute_instance_parent|].
      intros r0 w' (mi' & -> & Hp). exists mi'. split; [reflexivity|congruence].
    - reflexivity. }
  intros r0 w' (mi & -> & Hp).
  destruct (negb (uuid mi =? "")%string); apply wp_ret; eexists; split; try reflexivity.
  - intros k v Hin. apply StdMap_In_insert in Hin. destruct Hin as [E|Hin]; [|now left].
    injection E as -> ->. now right.
  - auto.
Qed.

Lemma gpu_instances_bindings d dev gis nd (w : World D) :
  wp (for_each gis (refresh_gpu_instance d dev) nd) w
     (fun r _ => exists nd', r = Ok nd' /\
        forall k v, In (k, v) nd' ->
                    In (k, v) nd \/ parentDeviceIndex v = u32 d).
Proof.
  eapply wp_mono.
  { apply (wp_for_each
             (fun _ (acc : StdMap.t MIGDeviceInfo) (_ : World D) =>
                forall k v, In (k, v) acc ->
                            In (k, v) nd \/ parentDeviceIndex v = u32 d))
      with (pre := []).
    - intros pre x acc w0 Hacc.
      eapply wp_mono; [apply gpu_instance_bindings|].
      intros r w' (nd' & -> & Hnd'). exists nd'. split; [reflexivity|].
      intros k v Hin. destruct (Hnd' k v Hin) as [Hold|Hp]; auto.
    - auto. }
  intros r w' (nd' & -> & Hnd'). eauto.
Qed.

Lemma refresh_device_spec d nd (w : World D) :
  exists nd' w' evs,
    refresh_device d nd w = (Ok nd', w') /\
    mgr w' = mgr w /\
    indet_metrics w' = indet_metrics w /\
    indet_info w' = indet_info w /\
    added w w' evs /\ Forall is_query evs /\
    (out_of_range (devices (mgr w)) (u32 d) = false ->
     exists st,
       In (EDriver (CallDeviceGetMigMode (at_index (devices (mgr w)) (u32 d))) st)
          evs) /\
    (forall k v, In (k, v) nd' ->
       In (k, v) nd \/
       (parentDeviceIndex v = u32 d /\
        In (EDriver (CallDeviceGetGpuInstances (at_index (devices (mgr w)) d))
                    NVML_SUCCESS) evs)).
Proof.
  unfold refresh_device, isMIGModeEnabled, bind, this.
  destruct (out_of_range (devices (mgr w)) (u32 d)) eqn:Hr.
  - simpl. exists nd, w, []. repeat split; auto using added_refl.
    discriminate.
  - unfold driver_call at 1.
    destruct (nvmlDeviceGetMigMode _ (drv w)) as [[st [cur pend]] d1].
    cbv beta iota. unfold ret at 1.
    destruct ((st =? NVML_SUCCESS) && (cur =? NVML_ENABLE_MIG));
      unfold negb; cbv beta iota.
    + unfold driver_call at 1.
      cbn [mgr drv trace indet_metrics indet_info].
      match goal with
      | |- context [nvmlDeviceGetGpuInstances ?h ?s] =>
          destruct (nvmlDeviceGetGpuInstances h s) as [[r2 gis] d2]
      end.
      cbv beta iota. cbn [mgr drv trace indet_metrics indet_info].
      destruct (r2 =? NVML_SUCCESS) eqn:Hr2.
      * apply Z.eqb_eq in Hr2. subst r2.
        match goal with
        | |- context [for_each gis ?body nd ?W] =>
            destruct (local_for_each is_query gis body
                        (local_refresh_gpu_instance d _) nd W)
              as (nd' & w' & E & Hm & Hi & Hj & evs' & Ht & HP);
            pose proof (gpu_instances_bindings d
                          (at_index (devices (mgr w)) d) gis nd W) as Hv
        end.
        unfold wp in Hv. rewrite E in Hv. simpl in Hv.
        destruct Hv as (nd'' & [= <-] & Hv).
        rewrite E.
        exists nd', w',
          (EDriver (CallDeviceGetMigMode
                      (at_index (devices (mgr w)) (u32 d))) st
           :: EDriver (CallDeviceGetGpuInstances
                         (at_index (devices (mgr w)) d)) NVML_SUCCESS
           :: evs').
        split; [reflexivity|].
        simpl in Hm, Hi, Hj. repeat split; auto.
        -- unfold added in *. simpl in Ht. rewrite Ht.
           rewrite <- !app_assoc. simpl. reflexivity.
        -- repeat constructor. exact HP.
        -- intros _. exists st. now left.
        -- intros k v Hin. destruct (Hv k v Hin) as [Hold|Hp]; [now left|].
           right. split; [exact Hp|]. right. now left.
      * eexists nd, _,
          [EDriver (CallDeviceGetMigMode
                      (at_index (devices (mgr w)) (u32 d))) st;
           EDriver (CallDeviceGetGpuInstances
                      (at_index (devices (mgr w)) d)) r2].
        split; [reflexivity|]. simpl. repeat split.
        -- unfold added. simpl. rewrite <- !app_assoc. simpl. reflexivity.
        -- repeat constructor.
        -- intros _. exists st. now left.
        -- auto.
    + eexists nd, _,
        [EDriver (CallDeviceGetMigMode
                    (at_index (devices (mgr w)) (u32 d))) st].
      split; [reflexivity|]. simpl. repeat split.
      -- repeat constructor.
      -- intros _. exists st. now left.
      -- auto.
Qed.

Lemma in_range (n : nat) (i : Z) :
  In i (range n) <-> 0 <= i < Z.of_nat n.
Proof.
  unfold range. rewrite in_map_iff. split.
  - intros (k & <- & Hk). apply in_seq in Hk. lia.
  - intros Hi. exists (Z.to_nat i). split; [lia|]. apply in_seq. lia.
Qed.

Lemma u32_small (i : Z) : 0 <= i < 2 ^ 32 -> u32 i = i.
Proof. intros Hi. unfold u32. now apply Z.mod_small. Qed.

Lemma device_loop_spec (l : list Z) nd (w : World D) :
  exists nd' w' evs,
    for_each l refresh_device nd w = (Ok nd', w') /\
    mgr w' = mgr w /\
    indet_metrics w' = indet_metrics w /\
    indet_info w' = indet_info w /\
    added w w' evs /\ Forall is_query evs /\
    (forall i, In i l ->
       out_of_range (devices (mgr w)) (u32 i) = false ->
       exists st,
         In (EDriver (CallDeviceGetMigMode
                        (at_index (devices (mgr w)) (u32 i))) st) evs) /\
    (forall k v, In (k, v) nd' ->
       In (k, v) nd \/
       exists i, In i l /\ parentDeviceIndex v = u32 i /\
         In (EDriver (CallDeviceGetGpuInstances
                        (at_index (devices (mgr w)) i)) NVML_SUCCESS) evs).
Proof.
  revert nd w. induction l as [|d l IH]; intros nd w.
  - exists nd, w, []. simpl. repeat split; auto using added_refl.
    all: try (intros i []); try tauto.
  - destruct (refresh_device_spec d nd w)
      as (nd1 & w1 & evs1 & E1 & Hm1 & Hi1 & Hj1 & Ht1 & HP1 & Hq1 & Hb1).
    destruct (IH nd1 w1)
      as (nd' & w' & evs2 & E2 & Hm2 & Hi2 & Hj2 & Ht2 & HP2 & Hq2 & Hb2).
    rewrite Hm1 in Hq2, Hb2.
    exists nd', w', (evs1 ++ evs2). split.
    { simpl. unfold bind. rewrite E1. exact E2. }
    repeat split; try congruence.
    + eapply added_trans; eauto.
    + apply Forall_app. auto.
    + intros i [<-|Hin] Hr.
      * destruct (Hq1 Hr) as (st & Hst). exists st. apply in_or_app. auto.
      * destruct (Hq2 i Hin Hr) as (st & Hst). exists st.
        apply in_or_app. auto.
    + intros k v Hin. destruct (Hb2 k v Hin) as [Hold|(i & Hi & Hp & Hev)].
      * destruct (Hb1 k v Hold) as [Hold'|(Hp & Hev)]; [now left|].
        right. exists d. split; [now left|]. split; [exact Hp|].
        apply in_or_app. auto.
      * right. exists i. split; [now right|]. split; [exact Hp|].
        apply in_or_app. auto.
Qed.

(** A whole pass: it returns, it visits every device, and every
    binding it publishes was built from a successful enumeration of
    the partitions of its parent device. *)
Lemma refresh_pass_spec (w : World D) :
  exists nd w' evs,
    refreshMIGDevices w = (Ok tt, w') /\
    mgr w' = set_migDevices nd (mgr w) /\
    added w w' evs /\ Forall is_query evs /\
    (forall i, 0 <= i < Z.of_nat (List.length (devices (mgr w))) ->
       out_of_range (devices (mgr w)) (u32 i) = false ->
       exists st,
         In (EDriver (CallDeviceGetMigMode
                        (at_index (devices (mgr w)) (u32 i))) st) evs) /\
    (forall k v, In (k, v) nd ->
       exists i, 0 <= i < Z.of_nat (List.length (devices (mgr w))) /\
         parentDeviceIndex v = u32 i /\
         In (EDriver (CallDeviceGetGpuInstances
                        (at_index (devices (mgr w)) i)) NVML_SUCCESS) evs).
Proof.
  destruct (device_loop_spec (range (List.length (devices (mgr w))))
                             StdMap.empty w)
    as (nd & w1 & evs & E & Hm & Hi & Hj & Ht & HP & Hq & Hb).
  exists nd. eexists.
  exists (evs ++ [ELock MetricsMutex; EUnlock MetricsMutex]). split.
  { unfold refreshMIGDevices, bind, this. rewrite E.
    unfold publish, lock_guard, bind, try_catch, assign, bind, this,
      set_mgr, emit, ret. simpl. reflexivity. }
  simpl. rewrite Hm. repeat split.
  - unfold added in *. simpl. rewrite Ht, <- !app_assoc. reflexivity.
  - apply Forall_app. split; [exact HP | repeat constructor].
  - intros i Hi' Hr. destruct (Hq i (proj2 (in_range _ i) Hi') Hr) as (st & Hst).
    exists st. apply in_or_app. auto.
  - intros k v Hin. destruct (Hb k v Hin) as [[]|(i & Hi' & Hp & Hev)].
    exists i. split; [now apply in_range|]. split; [exact Hp|].
    apply in_or_app. auto.
Qed.

End RefreshPass.

(* ================================================================== *)
(** ** The command worker *)
(* ================================================================== *)

Section Worker.

Context {D : Type} `{DriverInterface D}.


Lemma out_of_range_false (v : list nvmlDevice_t) (i : Z) :
  i < Z.of_nat (List.length v) -> out_of_range v i = false.
Proof. intros. unfold out_of_range. now apply Z.leb_gt. Qed.



Lemma worker_turn_exits (w : World D) :
  workerActive (mgr w) = false ->
  workerLoop_iteration w = (Ok WorkerExited, w).
Proof.
  intros Hact. unfold workerLoop_iteration, bind, this. now rewrite Hact.
Qed.


Lemma enqueue_spec (body : TaskBody) (cb : option Callback) (w : World D) :
  exists w',
    enqueue body cb w = (Ok tt, w') /\
    mgr w' = set_taskQueue
               (taskQueue (mgr w) ++ [{| task := Some body; callback := cb |}])
               (mgr w) /\
    added w w' [ELock TaskMutex; EUnlock TaskMutex; ENotify TaskCV].
Proof.
  eexists. split; [reflexivity|]. split; [reflexivity|].
  unfold added. simpl. rewrite <- !app_assoc. reflexivity.
Qed.

Lemma destructor_spec (w : World D) :
  exists w' evs,
    destructor w = (Ok tt, w') /\
    devices (mgr w') = devices (mgr w) /\
    taskQueue (mgr w') = taskQueue (mgr w) /\
    workerActive (mgr w') = false /\
    added w w' evs /\
    mode_calls_of evs = [] /\ callbacks_of evs = [] /\
    In (EJoin WorkerThread) evs.
Proof.
  unfold destructor, stopMonitoring, lock_guard, try_catch, assign, set_mgr,
    emit, driver_call, bind, this, ret.
  destruct (monitoringActive (mgr w));
    cbn [mgr drv trace indet_metrics indet_info fst snd];
    destruct (nvmlShutdown (drv w)) as [[r u] d'];
    eexists; eexists; (split; [reflexivity|]);
    cbn [mgr drv trace indet_metrics indet_info devices taskQueue workerActive
         set_workerActive set_monitoringActive];
    (split; [reflexivity|]); (split; [reflexivity|]); (split; [reflexivity|]);
    (split; [unfold added; cbn [trace]; rewrite <- !app_assoc; reflexivity|]);
    (split; [reflexivity|]); (split; [reflexivity|]); simpl; tauto.
Qed.



End Worker.

(* ================================================================== *)
(** ** Shutdown and the registry under concurrent passes *)
(* ================================================================== *)

Section Shutdown.
Context {D : Type} `{DriverInterface D}.

Lemma turns_after_stop (n : nat) (w : World D) :
  workerActive (mgr w) = false ->
  run_schedule (repeat WorkerTurn n) w = (Ok tt, w).
Proof.
  intros Hact. induction n as [|n IH]; [reflexivity|].
  simpl. unfold bind. rewrite worker_turn_exits by assumption. exact IH.
Qed.

Lemma shutdown_spec (n : nat) (w : World D) :
  exists w' evs,
    run_schedule (Destroy :: repeat WorkerTurn n) w = (Ok tt, w') /\
    workerActive (mgr w') = false /\
    taskQueue (mgr w') = taskQueue (mgr w) /\
    added w w' evs /\
    mode_calls_of evs = [] /\ callbacks_of evs = [] /\
    In (EJoin WorkerThread) evs.
Proof.
  destruct (destructor_spec w)
    as (w' & evs & E & Hd & Hq & Ha & Hadd & Hmc & Hcb & Hjoin).
  exists w', evs. split.
  { simpl. unfold bind at 1. rewrite E. now apply turns_after_stop. }
  repeat split; auto.
Qed.
End Shutdown.

Section Registry.
Context {D : Type} `{DriverInterface D}.

Lemma refresh_device_keeps_manager d nd (w w' : World D) nd' :
  refresh_device d nd w = (Ok nd', w') -> mgr w' = mgr w.
Proof.
  intros E. destruct (refresh_device_spec d nd w)
    as (nd1 & w1 & evs & E1 & Hm & _).
  rewrite E1 in E. now injection E as <- <-.
Qed.

Lemma publish_replaces nd (w w' : World D) :
  publish nd w = (Ok tt, w') ->
  mgr w' = set_migDevices nd (mgr w).
Proof. intros [= <-]. reflexivity. Qed.

Lemma whole_mapping_grows (s0 s s' : RegistrySystem D) m :
  (forall b, In (Published b) (rs_passes s) -> In (Published b) (rs_passes s')) ->
  whole_mapping s0 s m -> whole_mapping s0 s' m.
Proof. intros Hp [E|Hin]; [now left | right; auto]. Qed.

Lemma published_stays before after (p p' : RefreshPass) b :
  (forall x, p <> Published x) ->
  In (Published b) (before ++ p :: after) ->
  In (Published b) (before ++ p' :: after).
Proof.
  intros Hp Hin. apply in_app_or in Hin. apply in_or_app.
  destruct Hin as [Hin|[E|Hin]]; [now left | | right; now right].
  now elim (Hp b).
Qed.

Lemma registry_invariant (s0 s : RegistrySystem D) :
  rs_reads s0 = [] ->
  registry_run s0 s ->
  whole_mapping s0 s (migDevices (mgr (rs_world s))) /\
  Forall (whole_mapping s0 s) (rs_reads s).
Proof.
  intros Hreads Hrun. induction Hrun as [|s' s'' Hrun IH Hstep].
  - split; [now left|]. rewrite Hreads. constructor.
  - destruct IH as (IHm & IHr).
    inversion Hstep as
      [ s1
      | s1 before after d todo nd nd' w' Hp Hdev
      | s1 before after nd w' Hp Hpub
      | s1
      | s1 w' Hsame ]; subst; cbn [rs_world rs_passes rs_reads].
    + assert (Hgrow : forall b, In (Published b) (rs_passes s') ->
                In (Published b) (rs_passes s' ++
                  [Building (range (List.length (devices (mgr (rs_world s')))))
                            StdMap.empty])).
      { intros b Hb. apply in_or_app. now left. }
      split.
      * eapply whole_mapping_grows; [|exact IHm]. exact Hgrow.
      * eapply Forall_impl; [|exact IHr].
        intros m. apply whole_mapping_grows. exact Hgrow.
    + assert (Hgrow : forall b, In (Published b) (rs_passes s') ->
                In (Published b) (before ++ Building todo nd' :: after)).
      { intros b Hb. rewrite Hp in Hb.
        eapply published_stays; [|exact Hb]. discriminate. }
      rewrite (refresh_device_keeps_manager _ _ _ _ _ Hdev). split.
      * eapply whole_mapping_grows; [|exact IHm]. exact Hgrow.
      * eapply Forall_impl; [|exact IHr].
        intros m. apply whole_mapping_grows. exact Hgrow.
    + assert (Hgrow : forall b, In (Published b) (rs_passes s') ->
                In (Published b) (before ++ Published nd :: after)).
      { intros b Hb. rewrite Hp in Hb.
        eapply published_stays; [|exact Hb]. discriminate. }
      rewrite (publish_replaces _ _ _ Hpub). split.
      * right. cbn [rs_passes]. apply in_or_app. right. now left.
      * eapply Forall_impl; [|exact IHr].
        intros m. apply whole_mapping_grows. exact Hgrow.
    + split; [exact IHm|]. apply Forall_app. split; [exact IHr|].
      constructor; [exact IHm | constructor].
    + rewrite Hsame. split; [exact IHm | exact IHr].
Qed.
End Registry.

(* ================================================================== *)
(** ** The device inventory *)
(* ================================================================== *)

Section Inventory.

Context {D : Type} `{DriverInterface D}.

Lemma handle_loop_spec (l : list Z) (w : World D) :
  exists answers w',
    List.length answers = List.length l /\
    for_each l acquire_handle tt w = (Ok tt, w') /\
    mgr w' = set_devices (devices (mgr w) ++ kept_handles answers) (mgr w) /\
    indet_metrics w' = indet_metrics w /\
    indet_info w' = indet_info w /\
    added w w' (answers_events l answers).
Proof.
  revert w. induction l as [|i l IH]; intros w.
  - exists [], w. simpl. repeat split; auto using added_refl.
    unfold kept_handles. simpl. rewrite app_nil_r. now destruct (mgr w).
  - simpl. unfold bind at 1, acquire_handle at 1, bind at 1, driver_call.
    destruct (nvmlDeviceGetHandleByIndex i (drv w)) as [[r h] d1] eqn:Ecall.
    cbv beta iota.
    destruct (r =? NVML_SUCCESS) eqn:Hr.
    + unfold assign, bind at 1, this, set_mgr.
      cbn [mgr drv trace indet_metrics indet_info].
      match goal with
      | |- context [for_each l acquire_handle tt ?W] =>
          destruct (IH W) as (answers & w' & Hlen & E & Hm & Hi & Hj & Hadd)
      end.
      exists ((r, h) :: answers), w'. rewrite E.
      cbn [mgr drv trace indet_metrics indet_info set_devices devices]
        in Hm, Hi, Hj.
      repeat split; auto.
      * simpl. now rewrite Hlen.
      * rewrite Hm. unfold kept_handles. simpl. rewrite Hr. simpl.
        rewrite <- app_assoc. reflexivity.
      * unfold added, answers_events in *. simpl in *.
        unfold handle_events at 1. simpl. rewrite Hr. simpl.
        rewrite Hadd, <- app_assoc. reflexivity.
    + unfold emit at 1.
      cbn [mgr drv trace indet_metrics indet_info].
      match goal with
      | |- context [for_each l acquire_handle tt ?W] =>
          destruct (IH W) as (answers & w' & Hlen & E & Hm & Hi & Hj & Hadd)
      end.
      exists ((r, h) :: answers), w'. rewrite E.
      cbn [mgr drv trace indet_metrics indet_info set_devices devices]
        in Hm, Hi, Hj.
      repeat split; auto.
      * simpl. now rewrite Hlen.
      * rewrite Hm. unfold kept_handles. simpl. rewrite Hr. reflexivity.
      * unfold added, answers_events in *. simpl in *.
        unfold handle_events at 1. simpl. rewrite Hr. simpl.
        rewrite Hadd, <- !app_assoc. reflexivity.
Qed.

(** Initialisation: a failed count query is fatal; once the count is
    known the function returns, whatever the handle queries answer. *)
Lemma initializeDevices_spec (w : World D) :
  exists r n d1,
    nvmlDeviceGetCount (drv w) = (r, n, d1) /\
    if r =? NVML_SUCCESS then
      exists answers w' refresh_events,
        List.length answers = Z.to_nat n /\
        initializeDevices w = (Ok tt, w') /\
        devices (mgr w') = kept_handles answers /\
        added w w'
          (EDriver CallDeviceGetCount r
           :: answers_events (range (Z.to_nat n)) answers
           ++ refresh_events) /\
        Forall is_query refresh_events
    else
      exists w',
        initializeDevices w
        = (Throw (mkNVMLException r "디바이스 개수 조회 실패"), w') /\
        mgr w' = mgr w /\
        added w w' [EDriver CallDeviceGetCount r].
Proof.
  destruct (nvmlDeviceGetCount (drv w)) as [[r n] d1] eqn:Ecount.
  exists r, n, d1. split; [reflexivity|].
  destruct (r =? NVML_SUCCESS) eqn:Hr;
    unfold initializeDevices, bind at 1, driver_call at 1; rewrite Ecount;
    cbv beta iota; rewrite Hr; unfold negb; cbv beta iota.
  - unfold bind at 1, assign, bind at 1, this, set_mgr.
    cbn [mgr drv trace indet_metrics indet_info].
    unfold bind at 1.
    match goal with
    | |- context [for_each _ acquire_handle tt ?W] =>
        destruct (handle_loop_spec (range (Z.to_nat n)) W)
          as (answers & w1 & Hlen & E & Hm & Hi & Hj & Hadd)
    end.
    rewrite E.
    destruct (refresh_pass_spec w1)
      as (nd & w' & evs & E' & Hm' & Hadd' & HP & _).
    exists answers, w', evs. rewrite E'.
    cbn [mgr drv trace indet_metrics indet_info set_devices devices] in Hm.
    repeat split; auto.
    + rewrite Hlen. unfold range. now rewrite length_map, length_seq.
    + rewrite Hm', Hm. reflexivity.
    + unfold added in *. cbn [trace] in Hadd.
      rewrite Hadd', Hadd, <- !app_assoc. reflexivity.
  - eexists. split; [reflexivity|]. split; reflexivity.
Qed.
End Inventory.

(* ================================================================== *)
(** ** Played interleavings are runs *)
(* ================================================================== *)

Section Play.

Context {D : Type} `{DriverInterface D}.

Lemma nth_error_replace {A} (l : list A) (k : nat) (x : A) :
  nth_error l k = Some x -> l = firstn k l ++ x :: skipn (S k) l.
Proof.
  revert k. induction l as [|y l IH]; intros [|k]; simpl; try discriminate.
  - now intros [= ->].
  - intros Hk. f_equal. now apply IH.
Qed.

Lemma registry_move_steps (mv : RegistryMove) (s : RegistrySystem D) :
  registry_move mv s = s \/ registry_step s (registry_move mv s).
Proof.
  destruct mv as [|k|]; simpl.
  - right. apply step_begin.
  - unfold pass_turn.
    destruct (nth_error (rs_passes s) k) as [[[|d todo] nd|b]|] eqn:Hk;
      try (now left).
    + destruct (publish nd (rs_world s)) as [[[]|e] w'] eqn:Hp; [|now left].
      right. eapply step_publish; [|exact Hp].
      now apply nth_error_replace.
    + destruct (refresh_device d nd (rs_world s)) as [[nd'|e] w'] eqn:Hd;
        [|now left].
      right. eapply step_device; [|exact Hd].
      now apply nth_error_replace.
  - right. apply step_read.
Qed.

Lemma registry_play_runs (mvs : list RegistryMove) (s0 s : RegistrySystem D) :
  registry_run s0 s -> registry_run s0 (registry_play mvs s).
Proof.
  revert s. induction mvs as [|mv mvs IH]; intros s Hrun; [exact Hrun|].
  simpl. apply IH.
  destruct (registry_move_steps mv s) as [-> | Hstep]; [exact Hrun|].
  eapply run_step; eauto.
Qed.

End Play.

(* ================================================================== *)
(** ** Reads *)
(* ================================================================== *)

Section Reads.

Context {D : Type} `{DriverInterface D}.

Lemma no_driver_call_locked (w : World D) (mx : Mutex) :
  no_driver_call w (logged [EUnlock mx] (logged [ELock mx] w)).
Proof.
  split; [reflexivity|]. exists [ELock mx; EUnlock mx]. split; [|reflexivity].
  unfold added. simpl. now rewrite <- app_assoc.
Qed.

Lemma driver_call_seen (c : DriverCall) (r : nvmlReturn_t) evs :
  In (EDriver c r) evs -> driver_calls_of evs <> [].
Proof.
  intros Hin Hnone.
  assert (Hf : In (EDriver c r) (driver_calls_of evs))
    by (apply filter_In; split; [exact Hin | reflexivity]).
  rewrite Hnone in Hf. exact Hf.
Qed.

Lemma findMIGDeviceByUUID_spec (uuid : string) (w : World D) :
  findMIGDeviceByUUID uuid w
  = (Ok (StdMap.find uuid (migDevices (mgr w))),
     logged [EUnlock MetricsMutex] (logged [ELock MetricsMutex] w)).
Proof. reflexivity. Qed.

Lemma getMIGDeviceMetrics_cached (uuid : string) cached (w : World D) :
  StdMap.find uuid (latestMetrics (mgr w)) = Some cached ->
  getMIGDeviceMetrics uuid w
  = (Ok (Some cached),
     logged [EUnlock MetricsMutex] (logged [ELock MetricsMutex] w)).
Proof.
  intros Hc.
  unfold getMIGDeviceMetrics, lock_guard, bind, try_catch, this, emit, ret.
  simpl. rewrite Hc. reflexivity.
Qed.

Lemma getMIGDeviceMetrics_unknown (uuid : string) (w : World D) :
  StdMap.find uuid (latestMetrics (mgr w)) = None ->
  StdMap.find uuid (migDevices (mgr w)) = None ->
  getMIGDeviceMetrics uuid w
  = (Ok None, logged [EUnlock MetricsMutex] (logged [ELock MetricsMutex] w)).
Proof.
  intros Hc Hr.
  unfold getMIGDeviceMetrics, lock_guard, bind, try_catch, this, emit, ret.
  simpl. rewrite Hc, Hr. reflexivity.
Qed.

Lemma getMIGDeviceMetrics_collects (uuid : string) device (w : World D) :
  StdMap.find uuid (latestMetrics (mgr w)) = None ->
  StdMap.find uuid (migDevices (mgr w)) = Some device ->
  exists x w1,
    collectDeviceMetrics device (logged [ELock MetricsMutex] w) = (Ok x, w1) /\
    getMIGDeviceMetrics uuid w
    = (Ok (Some x), logged [EUnlock MetricsMutex] w1).
Proof.
  intros Hc Hr.
  destruct (local_collectDeviceMetrics device (logged [ELock MetricsMutex] w))
    as (x & w1 & E & _).
  exists x, w1. split; [exact E|].
  unfold getMIGDeviceMetrics, lock_guard, bind, try_catch, this, emit, ret.
  simpl. rewrite Hc, Hr. unfold logged in E. simpl in E. rewrite E.
  reflexivity.
Qed.

Lemma getAllMIGMetrics_cached (w : World D) :
  StdMap.is_empty (latestMetrics (mgr w)) = false ->
  getAllMIGMetrics w
  = (Ok (latestMetrics (mgr w)),
     logged [EUnlock MetricsMutex] (logged [ELock MetricsMutex] w)).
Proof.
  intros Hc.
  unfold getAllMIGMetrics, lock_guard, bind, try_catch, this, emit, ret.
  simpl. rewrite Hc. reflexivity.
Qed.

Lemma getAllMIGMetrics_collects (w : World D) :
  StdMap.is_empty (latestMetrics (mgr w)) = true ->
  exists metrics w1,
    collect_all (migDevices (mgr w)) (logged [ELock MetricsMutex] w)
    = (Ok metrics, w1) /\
    getAllMIGMetrics w = (Ok metrics, logged [EUnlock MetricsMutex] w1).
Proof.
  intros Hc.
  destruct (local_collect_all (migDevices (mgr w))
                              (logged [ELock MetricsMutex] w))
    as (x & w1 & E & _).
  exists x, w1. split; [exact E|].
  unfold getAllMIGMetrics, lock_guard, bind, try_catch, this, emit, ret.
  simpl. rewrite Hc. unfold logged in E. simpl in E. rewrite E.
  reflexivity.
Qed.

(** The two list operations start with a refresh pass, which queries
    the driver as soon as there is a device. *)
Lemma list_operations_refresh (deviceIndex : Z) (w : World D) :
  0 <= deviceIndex < Z.of_nat (List.length (devices (mgr w))) ->
  exists w1,
    refreshMIGDevices w = (Ok tt, w1) /\
    driver_calls_of (events_since w w1) <> [] /\
    getAllMIGDevices w
    = (Ok (StdMap.values (migDevices (mgr w1))),
       logged [EUnlock MetricsMutex] (logged [ELock MetricsMutex] w1)) /\
    getMIGDevices deviceIndex w
    = (Ok (filter (fun device => parentDeviceIndex device =? deviceIndex)
                  (StdMap.values (migDevices (mgr w1)))),
       logged [EUnlock MetricsMutex] (logged [ELock MetricsMutex] w1)).
Proof.
  intros Hi.
  destruct (refresh_pass_spec w) as (nd & w1 & evs & E & Hm & Hadd & HP & Hq & _).
  exists w1. split; [exact E|]. split; [|split].
  - rewrite (added_events_since _ _ _ Hadd).
    assert (H0 : 0 <= 0 < Z.of_nat (List.length (devices (mgr w)))) by lia.
    destruct (Hq 0 H0) as (st & Hst).
    { apply out_of_range_false. unfold u32. rewrite Z.mod_0_l; lia. }
    eapply driver_call_seen; eauto.
  - unfold getAllMIGDevices, bind. rewrite E. reflexivity.
  - unfold getMIGDevices, bind at 1, this.
    rewrite out_of_range_false by lia.
    unfold bind. rewrite E. reflexivity.
Qed.

Lemma getDeviceName_asks (index : Z) (w : World D) :
  index < Z.of_nat (List.length (devices (mgr w))) ->
  exists r name w',
    getDeviceName index w
    = (Ok (if r =? NVML_SUCCESS then name else "Unknown"), w') /\
    added w w' [EDriver (CallDeviceGetName (at_index (devices (mgr w)) index)) r].
Proof.
  intros Hi. unfold getDeviceName, bind, this.
  rewrite out_of_range_false by lia. unfold driver_call.
  destruct (nvmlDeviceGetName _ (drv w)) as [[r name] d1].
  exists r, name.
  destruct (r =? NVML_SUCCESS); (eexists; split; [reflexivity|reflexivity]).
Qed.

End Reads.

(* ================================================================== *)
(** ** Telemetry *)
(* ================================================================== *)

Section Telemetry.

Context {D : Type} `{DriverInterface D}.

Lemma collect_process_keeps_power p metrics (w : World D) :
  wp (collect_process p metrics) w
     (fun r _ => exists x, r = Ok x /\ powerUsage x = powerUsage metrics).
Proof.
  unfold collect_process. apply wp_bind, wp_driver_call.
  intros r name d' _. cbv beta iota. apply wp_ret. eauto.
Qed.

(** Whatever the driver answers, a collection returns a snapshot; with
    a driver whose power query fails, the [powerUsage] member of the
    snapshot is the content the object was declared with. *)
Lemma collect_power_unset (device : MIGDeviceInfo) (w : World D) :
  (forall h s, fst (fst (nvmlDeviceGetPowerUsage h s)) <> NVML_SUCCESS) ->
  exists x w',
    collectDeviceMetrics device w = (Ok x, w') /\
    powerUsage x = powerUsage (indet_metrics w).
Proof.
  intros Hfail.
  enough (Hwp : wp (collectDeviceMetrics device) w
            (fun r _ => exists x, r = Ok x /\
                                  powerUsage x = powerUsage (indet_metrics w))).
  { unfold wp in Hwp. destruct (collectDeviceMetrics device w) as [r w'].
    simpl in Hwp. destruct Hwp as (x & -> & Hx). eauto. }
  unfold collectDeviceMetrics.
  apply wp_bind. unfold wp at 1, declare_MIGMetrics. cbn [fst snd].
  apply wp_bind. unfold wp at 1, now. cbn [fst snd].
  apply wp_bind, wp_driver_call. intros r1 u d1 _. cbv beta iota.
  apply wp_bind, wp_driver_call. intros r2 mem d2 _. cbv beta iota.
  apply wp_bind, wp_this.
  apply wp_bind, wp_driver_call. intros r3 power d3 E3. cbv beta iota.
  match type of E3 with
  | nvmlDeviceGetPowerUsage ?h ?s = _ => pose proof (Hfail h s) as Hf
  end.
  rewrite E3 in Hf. simpl in Hf.
  apply Z.eqb_neq in Hf. rewrite Hf.
  apply wp_bind, wp_driver_call. intros r4 temp d4 _. cbv beta iota.
  apply wp_bind, wp_driver_call. intros r5 procs d5 _. cbv beta iota.
  match goal with
  | |- wp (if _ then for_each _ _ ?m0 else _) _ _ =>
      assert (Hm0 : powerUsage m0 = powerUsage (indet_metrics w))
        by (destruct (r4 =? NVML_SUCCESS), (r2 =? NVML_SUCCESS),
              (r1 =? NVML_SUCCESS); reflexivity);
      generalize dependent m0
  end.
  intros m0 Hm0.
  destruct ((r5 =? NVML_SUCCESS) && (0 <? Z.of_nat (List.length procs)));
    [|apply wp_ret; eauto].
  eapply wp_mono.
  { apply (wp_for_each
             (fun _ (acc : MIGMetrics) (_ : World D) =>
                powerUsage acc = powerUsage (indet_metrics w)))
      with (pre := []).
    - intros pre p acc w0 Hacc.
      eapply wp_mono; [apply collect_process_keeps_power|].
      intros r w' (x & -> & Hx). exists x. split; [reflexivity|congruence].
    - exact Hm0. }
  intros r w' (x & -> & Hx). eauto.
Qed.

End Telemetry.

(* ================================================================== *)
(** ** What a refresh pass publishes whatever fails elsewhere *)
(* ================================================================== *)

Section Isolation.
Context {D : Type} `{DriverInterface D}.

Lemma insert_keeps_bound {V} (k k' : string) (v : V) (m : StdMap.t V) :
  StdMap.find k m <> None -> StdMap.find k (StdMap.insert k' v m) <> None.
Proof.
  destruct (String.eqb_spec k k') as [->|Hne].
  - intros _. rewrite StdMap_find_insert_same. discriminate.
  - induction m as [|[k0 v0] m IH]; simpl; [tauto|].
    destruct (String.compare k' k0) eqn:E; simpl.
    + apply String.compare_eq_iff in E. subst k0.
      destruct (String.eqb_spec k k'); [contradiction | tauto].
    + destruct (String.eqb_spec k k'); [contradiction | tauto].
    + destruct (String.eqb_spec k k0); [discriminate | exact IH].
Qed.

Variable I : D -> Prop.
Hypothesis Hkept : kept_by_queries I.

Ltac query K :=
  apply wp_bind, wp_driver_call;
  let r := fresh "r" in
  let v := fresh "v" in
  let d' := fresh "d" in
  let E := fresh "E" in
  intros r v d' E; cbv beta iota;
  match type of E with
  | ?f ?d = _ =>
      let Hd := fresh "Hd" in
      assert (Hd : I d') by
        (change d' with (snd (r, v, d')); rewrite <- E; apply K; assumption);
      cbn [drv mgr] in *
  end.

Lemma first_compute_instance_steady dev ii ci cii mi (w : World D) :
  I (drv w) ->
  wp (refresh_first_compute_instance dev ii ci cii mi) w
     (steady I w (fun mi' =>
        forall handle u,
          (forall d, I d ->
             snd (fst (nvmlComputeInstanceDeviceHandle dev (gi_id ii) ci
                         (ci_id cii) d)) = handle /\
             fst (nvmlDeviceGetUUID handle d) = (NVML_SUCCESS, u)) ->
          uuid mi' = u)).
Proof.
  destruct Hkept as (K1 & K2 & K3 & K4 & K5 & K6 & K7 & K8 & K9).
  intros HI. unfold refresh_first_compute_instance.
  query K6. query K7. query K8. query K9.
  apply wp_ret. eexists. split; [reflexivity|]. split; [assumption|].
  split; [reflexivity|].
  intros handle u Hh.
  destruct (Hh _ HI) as (Eh & _). rewrite E in Eh. cbn [fst snd] in Eh. subst v.
  destruct (Hh _ Hd) as (_ & Eu). rewrite E0 in Eu. cbn [fst] in Eu.
  injection Eu as -> ->.
  rewrite Z.eqb_refl.
  repeat match goal with
         | |- context [if ?b then _ else _] => destruct b
         end; reflexivity.
Qed.

Lemma compute_instance_steady dev ii jc mi (w : World D) :
  I (drv w) ->
  wp (refresh_compute_instance dev ii jc mi) w
     (steady I w (fun mi' =>
        (fst jc <> 0 -> uuid mi' = uuid mi) /\
        forall cii handle u,
          fst jc = 0 ->
          (forall d, I d ->
             fst (nvmlComputeInstanceGetInfo (snd jc) d) = (NVML_SUCCESS, cii) /\
             snd (fst (nvmlComputeInstanceDeviceHandle dev (gi_id ii) (snd jc)
                         (ci_id cii) d)) = handle /\
             fst (nvmlDeviceGetUUID handle d) = (NVML_SUCCESS, u)) ->
          uuid mi' = u)).
Proof.
  pose proof Hkept as (K1 & K2 & K3 & K4 & K5 & K6 & K7 & K8 & K9).
  intros HI. unfold refresh_compute_instance. destruct jc as [j ci].
  cbn [fst snd]. query K5.
  destruct (r =? NVML_SUCCESS) eqn:Er.
  - destruct (j =? 0) eqn:Ej.
    + eapply wp_mono; [apply first_compute_instance_steady; assumption|].
      intros r0 w' (mi' & -> & HI' & Hm & Hu). exists mi'.
      split; [reflexivity|]. split; [assumption|]. split; [exact Hm|].
      split; [intros Hj; apply Z.eqb_eq in Ej; contradiction|].
      intros cii handle u _ Hh. apply (Hu handle u). intros d0 Hd0.
      destruct (Hh _ HI) as (Ec & _). rewrite E in Ec. cbn [fst] in Ec.
      injection Ec as _ ->.
      destruct (Hh _ Hd0) as (_ & Hrest). exact Hrest.
    + apply wp_ret. eexists. split; [reflexivity|]. split; [assumption|].
      split; [reflexivity|]. split; [reflexivity|].
      intros cii handle u Hj. apply Z.eqb_neq in Ej. contradiction.
  - apply wp_ret. eexists. split; [reflexivity|]. split; [assumption|].
    split; [reflexivity|]. split; [reflexivity|].
    intros cii handle u _ Hh.
    destruct (Hh _ HI) as (Ec & _). rewrite E in Ec. cbn [fst] in Ec.
    injection Ec as -> _. rewrite Z.eqb_refl in Er. discriminate.
Qed.

Lemma later_compute_instances_steady dev ii l mi (w : World D) :
  I (drv w) ->
  Forall (fun jc : Z * nvmlComputeInstance_t => fst jc <> 0) l ->
  wp (for_each l (refresh_compute_instance dev ii) mi) w
     (steady I w (fun mi' => uuid mi' = uuid mi)).
Proof.
  revert mi w. induction l as [|jc l IH]; intros mi w HI Hl; simpl.
  - apply wp_ret. exists mi. auto.
  - inversion Hl as [|x l' Hjc Hl']; subst.
    apply wp_bind.
    eapply wp_mono; [apply compute_instance_steady; assumption|].
    intros r w1 (mi1 & -> & HI1 & Hm1 & Hu1 & _).
    eapply wp_mono; [apply IH; assumption|].
    intros r w2 (mi2 & -> & HI2 & Hm2 & Hu2).
    exists mi2. split; [reflexivity|]. split; [assumption|].
    split; [congruence|]. rewrite Hu2. now apply Hu1.
Qed.

Lemma indexed_cons {A} (x : A) (l : list A) :
  indexed (x :: l)
  = (0, x) :: combine (List.map Z.of_nat (seq 1 (List.length l))) l.
Proof. reflexivity. Qed.

Lemma later_positions {A} (l : list A) :
  Forall (fun jc : Z * A => fst jc <> 0)
         (combine (List.map Z.of_nat (seq 1 (List.length l))) l).
Proof.
  apply Forall_forall. intros [j c] Hin. apply in_combine_l in Hin.
  apply in_map_iff in Hin. destruct Hin as (n & <- & Hn).
  apply in_seq in Hn. simpl. lia.
Qed.

Lemma compute_instances_steady dev ii cis mi (w : World D) :
  I (drv w) ->
  wp (for_each cis (refresh_compute_instance dev ii) mi) w
     (steady I w (fun _ => True)).
Proof.
  intros HI. eapply wp_mono.
  { apply (wp_for_each
             (fun _ (_ : MIGDeviceInfo) (w' : World D) =>
                I (drv w') /\ mgr w' = mgr w)) with (pre := []).
    - intros pre x acc w0 (HI0 & Hm0).
      eapply wp_mono; [apply compute_instance_steady; assumption|].
      intros r w' (mi' & -> & HI' & Hm' & _). exists mi'.
      split; [reflexivity|]. split; [assumption | congruence].
    - split; [assumption | reflexivity]. }
  intros r w' (mi' & -> & HI' & Hm'). exists mi'. auto.
Qed.

Lemma gpu_instance_steady d dev gi nd (w : World D) :
  I (drv w) ->
  wp (refresh_gpu_instance d dev gi nd) w
     (steady I w (fun nd' =>
        (forall k, StdMap.find k nd <> None -> StdMap.find k nd' <> None) /\
        forall u, healthy I dev gi u -> StdMap.find u nd' <> None)).
Proof.
  pose proof Hkept as (K1 & K2 & K3 & K4 & K5 & K6 & K7 & K8 & K9).
  intros HI. unfold refresh_gpu_instance.
  apply wp_bind. unfold wp at 1. simpl.
  query K3.
  destruct (r =? NVML_SUCCESS) eqn:Er.
  2:{ apply wp_ret. exists nd. split; [reflexivity|]. split; [assumption|].
      split; [reflexivity|]. split; [auto|].
      intros u (_ & info & ci & cis & cii & handle & Hh).
      destruct (Hh _ HI) as (_ & _ & Ei & _). rewrite E in Ei. cbn [fst] in Ei.
      injection Ei as -> _. rewrite Z.eqb_refl in Er. discriminate. }
  query K4.
  destruct (r0 =? NVML_SUCCESS) eqn:Er0.
  2:{ apply wp_ret. exists nd. split; [reflexivity|]. split; [assumption|].
      split; [reflexivity|]. split; [auto|].
      intros u (_ & info & ci & cis & cii & handle & Hh).
      destruct (Hh _ Hd) as (_ & _ & _ & Ec & _). rewrite E0 in Ec.
      cbn [fst] in Ec.
      injection Ec as -> _. rewrite Z.eqb_refl in Er0. discriminate. }
  apply wp_bind.
  match goal with
  | |- wp (for_each _ _ ?m) ?W _ => set (start := m); set (W0 := W)
  end.
  assert (HI0 : I (drv W0)) by exact Hd0.
  assert (Hall : wp (for_each (indexed v0) (refresh_compute_instance dev v) start)
                    W0 (steady I W0 (fun mi' =>
                      forall u, healthy I dev gi u -> uuid mi' = u))).
  { destruct v0 as [|c0 rest].
    - apply wp_ret. exists start. split; [reflexivity|]. split; [assumption|].
      split; [reflexivity|].
      intros u (_ & info & ci & cis & cii & handle & Hh).
      destruct (Hh _ Hd) as (_ & _ & _ & Ec & _). rewrite E0 in Ec.
      cbn [fst] in Ec. discriminate.
    - rewrite indexed_cons. cbn [for_each]. apply wp_bind.
      eapply wp_mono; [apply compute_instance_steady; assumption|].
      intros r1 w1 (mi1 & -> & HI1 & Hm1 & _ & Hu1).
      eapply wp_mono;
        [apply later_compute_instances_steady;
         [assumption | apply later_positions]|].
      intros r2 w2 (mi2 & -> & HI2 & Hm2 & Hu2).
      exists mi2. split; [reflexivity|]. split; [assumption|].
      split; [congruence|].
      intros u (_ & info & ci & cis & cii & handle & Hh).
      rewrite Hu2. apply (Hu1 cii handle u eq_refl).
      cbn [fst snd]. intros d2 Hd2.
      destruct (Hh _ HI) as (_ & _ & Ei & _). rewrite E in Ei. cbn [fst] in Ei.
      injection Ei as _ ->.
      destruct (Hh _ Hd) as (_ & _ & _ & Ec & _). rewrite E0 in Ec.
      cbn [fst] in Ec. injection Ec as -> ->.
      destruct (Hh _ Hd2) as (_ & _ & _ & _ & F1 & F2 & F3). auto. }
  eapply wp_mono; [exact Hall|].
  intros r1 w1 (mi1 & -> & HI1 & Hm1 & Hu1).
  destruct (negb (uuid mi1 =? "")%string) eqn:Eu; apply wp_ret.
  - eexists. split; [reflexivity|]. split; [assumption|].
    split; [exact Hm1|]. split.
    + intros k. apply insert_keeps_bound.
    + intros u Hh. rewrite (Hu1 u Hh). rewrite StdMap_find_insert_same.
      discriminate.
  - exists nd. split; [reflexivity|]. split; [assumption|].
    split; [exact Hm1|]. split; [auto|].
    intros u Hh. pose proof (Hu1 u Hh) as Hu. destruct Hh as (Hne & _).
    rewrite Hu in Eu. destruct (String.eqb_spec u ""); [contradiction|].
    discriminate.
Qed.

Lemma gpu_instances_steady d dev gis nd (w : World D) :
  I (drv w) ->
  wp (for_each gis (refresh_gpu_instance d dev) nd) w
     (steady I w (fun nd' =>
        (forall k, StdMap.find k nd <> None -> StdMap.find k nd' <> None) /\
        forall gi u, In gi gis -> healthy I dev gi u ->
                     StdMap.find u nd' <> None)).
Proof.
  revert nd w. induction gis as [|g gis IH]; intros nd w HI; simpl.
  - apply wp_ret. exists nd. split; [reflexivity|]. split; [assumption|].
    split; [reflexivity|]. split; [auto|]. intros gi u [].
  - apply wp_bind.
    eapply wp_mono; [apply gpu_instance_steady; assumption|].
    intros r w1 (nd1 & -> & HI1 & Hm1 & Hk1 & Hh1).
    eapply wp_mono; [apply IH; assumption|].
    intros r w2 (nd2 & -> & HI2 & Hm2 & Hk2 & Hh2).
    exists nd2. split; [reflexivity|]. split; [assumption|].
    split; [congruence|]. split; [auto|].
    intros gi u [<-|Hin] Hh; [apply Hk2, Hh1, Hh | now apply (Hh2 gi)].
Qed.

Lemma device_steady i nd (w : World D) :
  I (drv w) ->
  wp (refresh_device i nd) w
     (steady I w (fun nd' =>
        (forall k, StdMap.find k nd <> None -> StdMap.find k nd' <> None) /\
        forall gi u,
          0 <= i < Z.of_nat (List.length (devices (mgr w))) ->
          i < 2 ^ 32 ->
          healthy I (at_index (devices (mgr w)) i) gi u ->
          StdMap.find u nd' <> None)).
Proof.
  pose proof Hkept as (K1 & K2 & K3 & K4 & K5 & K6 & K7 & K8 & K9).
  intros HI. unfold refresh_device, isMIGModeEnabled.
  apply wp_bind, wp_bind, wp_this.
  destruct (out_of_range (devices (mgr w)) (u32 i)) eqn:Hr.
  { apply wp_ret. cbn [negb]. apply wp_ret.
    exists nd. split; [reflexivity|]. split; [assumption|].
    split; [reflexivity|]. split; [auto|].
    intros gi u Hi Hi' _. rewrite u32_small in Hr by lia.
    rewrite out_of_range_false in Hr by lia. discriminate. }
  query K1. destruct v as [cur pending].
  apply wp_ret.
  destruct ((r =? NVML_SUCCESS) && (cur =? NVML_ENABLE_MIG)) eqn:Een;
    cbn [negb].
  2:{ apply wp_ret. exists nd. split; [reflexivity|]. split; [assumption|].
      split; [reflexivity|]. split; [auto|].
      intros gi u Hi Hi' (_ & info & ci & cis & cii & handle & Hh).
      destruct (Hh _ HI) as ((p & Em) & _).
      rewrite u32_small in E by lia. rewrite E in Em. cbn [fst] in Em.
      injection Em as -> -> _. rewrite !Z.eqb_refl in Een. discriminate. }
  apply wp_bind, wp_this. cbn [mgr].
  query K2.
  destruct (r0 =? NVML_SUCCESS) eqn:Er0.
  2:{ apply wp_ret. exists nd. split; [reflexivity|]. split; [assumption|].
      split; [reflexivity|]. split; [auto|].
      intros gi u Hi Hi' (_ & info & ci & cis & cii & handle & Hh).
      destruct (Hh _ Hd) as (_ & (gis & Eg & _) & _).
      rewrite E0 in Eg. cbn [fst] in Eg.
      injection Eg as -> _. rewrite Z.eqb_refl in Er0. discriminate. }
  eapply wp_mono; [apply gpu_instances_steady; assumption|].
  intros r1 w1 (nd1 & -> & HI1 & Hm1 & Hk1 & Hh1).
  exists nd1. split; [reflexivity|]. split; [assumption|].
  split; [exact Hm1|]. split; [exact Hk1|].
  intros gi u Hi Hi' Hh. apply (Hh1 gi u); [|exact Hh].
  destruct Hh as (_ & info & ci & cis & cii & handle & Hh).
  destruct (Hh _ Hd) as (_ & (gis & Eg & Hin) & _).
  rewrite E0 in Eg. cbn [fst] in Eg. injection Eg as _ ->. exact Hin.
Qed.

Lemma devices_steady l nd (w : World D) :
  I (drv w) ->
  wp (for_each l refresh_device nd) w
     (steady I w (fun nd' =>
        (forall k, StdMap.find k nd <> None -> StdMap.find k nd' <> None) /\
        forall i gi u,
          In i l ->
          0 <= i < Z.of_nat (List.length (devices (mgr w))) ->
          i < 2 ^ 32 ->
          healthy I (at_index (devices (mgr w)) i) gi u ->
          StdMap.find u nd' <> None)).
Proof.
  revert nd w. induction l as [|j l IH]; intros nd w HI; simpl.
  - apply wp_ret. exists nd. split; [reflexivity|]. split; [assumption|].
    split; [reflexivity|]. split; [auto|]. intros i gi u [].
  - apply wp_bind.
    eapply wp_mono; [apply device_steady; assumption|].
    intros r w1 (nd1 & -> & HI1 & Hm1 & Hk1 & Hh1).
    eapply wp_mono; [apply IH; assumption|].
    intros r w2 (nd2 & -> & HI2 & Hm2 & Hk2 & Hh2).
    rewrite Hm1 in Hh2.
    exists nd2. split; [reflexivity|]. split; [assumption|].
    split; [congruence|]. split; [auto|].
    intros i gi u [<-|Hin] Hi Hi' Hh;
      [apply Hk2, (Hh1 gi u Hi Hi' Hh) | now apply (Hh2 i gi)].
Qed.

(** A partition that the driver enumerates without failure is in the
    mapping that the pass publishes. *)
Lemma healthy_partition_published (w : World D) i gi u :
  I (drv w) ->
  Z.of_nat (List.length (devices (mgr w))) <= 2 ^ 32 ->
  0 <= i < Z.of_nat (List.length (devices (mgr w))) ->
  healthy I (at_index (devices (mgr w)) i) gi u ->
  StdMap.find u (migDevices (mgr (snd (refreshMIGDevices w)))) <> None.
Proof.
  intros HI Hlen Hi Hh.
  pose proof (devices_steady (range (List.length (devices (mgr w))))
                             StdMap.empty w HI) as Hw.
  unfold wp in Hw. destruct Hw as (nd & E & _ & _ & _ & Hpub).
  unfold refreshMIGDevices, bind, this.
  destruct (for_each _ _ _ w) as [res w1]. cbn [fst snd] in *. subst res.
  unfold publish, lock_guard, bind, try_catch, assign, bind, this,
    set_mgr, emit, ret. simpl.
  apply (Hpub i gi u); [now apply in_range | exact Hi | lia | exact Hh].
Qed.

End Isolation.

(* ================================================================== *)
(** ** The properties of the manager *)
(* ================================================================== *)

Section Properties.

Context {D : Type} `{DriverInterface D}.

(** C1. However refresh passes, reads and other code interleave, the
    published registry, and therefore every mapping a read observes,
    is whole: it is the mapping that was published before, or the
    complete [newDevices] that one pass installed in its closing
    block under [metricsMutex]. A mapping under construction is never
    visible. *)
Theorem C1_registry_swapped_whole (s0 s : RegistrySystem D) :
  rs_reads s0 = [] ->
  registry_run s0 s ->
  whole_mapping s0 s (migDevices (mgr (rs_world s))) /\
  forall m, In m (rs_reads s) -> whole_mapping s0 s m.
Proof.
  intros Hreads Hrun.
  destruct (registry_invariant s0 s Hreads Hrun) as (Hm & Hr).
  split; [exact Hm|]. now apply Forall_forall.
Qed.


(** C3, as the code has it. The destructor clears the flag, wakes the
    worker and joins it; the worker leaves its loop without taking
    anything more from the queue. The commands still queued stay
    unexecuted and no handler of theirs is invoked, whatever number of
    turns the worker is given afterwards. *)
Theorem C3_shutdown_discards_queued_commands (turns : nat) (w : World D) :
  let w' := snd (run_schedule (Destroy :: repeat WorkerTurn turns) w) in
  fst (run_schedule (Destroy :: repeat WorkerTurn turns) w) = Ok tt /\
  workerActive (mgr w') = false /\
  workerLoop_iteration w' = (Ok WorkerExited, w') /\
  taskQueue (mgr w') = taskQueue (mgr w) /\
  mode_calls_of (events_since w w') = [] /\
  callbacks_of (events_since w w') = [] /\
  In (EJoin WorkerThread) (events_since w w').
Proof.
  destruct (shutdown_spec turns w)
    as (w1 & evs & E & Ha & Hq & Hadd & Hmc & Hcb & Hjoin).
  rewrite E. cbn [fst snd]. rewrite (added_events_since _ _ _ Hadd).
  repeat split; auto. now apply worker_turn_exits.
Qed.

(** C4, as the code has it. [findMIGDeviceByUUID] and [getDeviceCount]
    make no driver call, and neither do [getMIGDeviceMetrics] and
    [getAllMIGMetrics] when the metrics cache answers or the uuid is
    unknown; on a cache miss they collect from the driver under the
    lock. [getAllMIGDevices] and [getMIGDevices] run a refresh pass,
    which queries the driver, before they read the registry under the
    lock, and [getDeviceName] asks the driver for the name. *)
Theorem C4_reads_and_the_driver
    (w : World D) (deviceIndex : Z) (uuid : string) :
  0 <= deviceIndex < Z.of_nat (List.length (devices (mgr w))) ->
  (fst (findMIGDeviceByUUID uuid w)
   = Ok (StdMap.find uuid (migDevices (mgr w))) /\
   no_driver_call w (snd (findMIGDeviceByUUID uuid w))) /\
  getDeviceCount w = (Ok (Z.of_nat (List.length (devices (mgr w)))), w) /\
  match StdMap.find uuid (latestMetrics (mgr w)) with
  | Some cached =>
      fst (getMIGDeviceMetrics uuid w) = Ok (Some cached) /\
      no_driver_call w (snd (getMIGDeviceMetrics uuid w))
  | None =>
      match StdMap.find uuid (migDevices (mgr w)) with
      | Some device =>
          exists x w1,
            collectDeviceMetrics device (logged [ELock MetricsMutex] w)
            = (Ok x, w1) /\
            getMIGDeviceMetrics uuid w
            = (Ok (Some x), logged [EUnlock MetricsMutex] w1)
      | None =>
          fst (getMIGDeviceMetrics uuid w) = Ok None /\
          no_driver_call w (snd (getMIGDeviceMetrics uuid w))
      end
  end /\
  (if StdMap.is_empty (latestMetrics (mgr w)) then
     exists metrics w1,
       collect_all (migDevices (mgr w)) (logged [ELock MetricsMutex] w)
       = (Ok metrics, w1) /\
       getAllMIGMetrics w = (Ok metrics, logged [EUnlock MetricsMutex] w1)
   else
     fst (getAllMIGMetrics w) = Ok (latestMetrics (mgr w)) /\
     no_driver_call w (snd (getAllMIGMetrics w))) /\
  (exists w1,
      refreshMIGDevices w = (Ok tt, w1) /\
      driver_calls_of (events_since w w1) <> [] /\
      getAllMIGDevices w
      = (Ok (StdMap.values (migDevices (mgr w1))),
         logged [EUnlock MetricsMutex] (logged [ELock MetricsMutex] w1)) /\
      getMIGDevices deviceIndex w
      = (Ok (filter (fun device => parentDeviceIndex device =? deviceIndex)
                    (StdMap.values (migDevices (mgr w1)))),
         logged [EUnlock MetricsMutex] (logged [ELock MetricsMutex] w1))) /\
  (exists r name,
      fst (getDeviceName deviceIndex w)
      = Ok (if r =? NVML_SUCCESS then name else "Unknown") /\
      events_since w (snd (getDeviceName deviceIndex w))
      = [EDriver (CallDeviceGetName (at_index (devices (mgr w)) deviceIndex))
                 r]).
Proof.
  intros Hi.
  split.
  { split; [reflexivity|].
    rewrite findMIGDeviceByUUID_spec. apply no_driver_call_locked. }
  split; [reflexivity|].
  split.
  { destruct (StdMap.find uuid (latestMetrics (mgr w))) as [cached|] eqn:Hc.
    - rewrite (getMIGDeviceMetrics_cached _ _ _ Hc).
      split; [reflexivity | apply no_driver_call_locked].
    - destruct (StdMap.find uuid (migDevices (mgr w))) as [device|] eqn:Hr.
      + now apply getMIGDeviceMetrics_collects.
      + rewrite (getMIGDeviceMetrics_unknown _ _ Hc Hr).
        split; [reflexivity | apply no_driver_call_locked]. }
  split.
  { destruct (StdMap.is_empty (latestMetrics (mgr w))) eqn:Hc.
    - now apply getAllMIGMetrics_collects.
    - rewrite (getAllMIGMetrics_cached _ Hc).
      split; [reflexivity | apply no_driver_call_locked]. }
  split; [now apply list_operations_refresh|].
  destruct (getDeviceName_asks deviceIndex w) as (r & name & w' & E & Hadd);
    [lia|].
  exists r, name. rewrite E. cbn [fst snd].
    split; [reflexivity | now apply added_events_since].
Qed.

(** C6, as the code has it.  In a refresh pass over an inventory of
    at most 2^32 devices: the pass always completes and publishes; it
    queries the partitioning mode of every device of the inventory; a
    device for which no enumeration of GPU instances succeeded during
    the pass (the driver failed the call, or the device did not report
    partitioning as enabled) has no partition in the published
    mapping; and a partition that the driver enumerates without
    failure is published under its uuid, on whichever device it is and
    whatever fails for other GPU instances or for other devices: a
    failure further down the enumeration does not take away the
    partitions that can be read. *)
Theorem C6_failed_device_contributes_nothing (w : World D) :
  Z.of_nat (List.length (devices (mgr w))) <= 2 ^ 32 ->
  let w' := snd (refreshMIGDevices w) in
  fst (refreshMIGDevices w) = Ok tt /\
  (forall i, 0 <= i < Z.of_nat (List.length (devices (mgr w))) ->
     exists st,
       In (EDriver (CallDeviceGetMigMode (at_index (devices (mgr w)) i)) st)
          (events_since w w')) /\
  (forall d,
     ~ In (EDriver (CallDeviceGetGpuInstances (at_index (devices (mgr w)) d))
                   NVML_SUCCESS)
          (events_since w w') ->
     forall k v, StdMap.find k (migDevices (mgr w')) = Some v ->
                 parentDeviceIndex v <> d) /\
  (forall (I : D -> Prop) i gi u,
     I (drv w) -> kept_by_queries I ->
     0 <= i < Z.of_nat (List.length (devices (mgr w))) ->
     healthy I (at_index (devices (mgr w)) i) gi u ->
     exists v, StdMap.find u (migDevices (mgr w')) = Some v).
Proof.
  intros Hbound.
  pose proof (fun I i gi u HI K =>
                healthy_partition_published I K w i gi u HI Hbound) as Hpub.
  destruct (refresh_pass_spec w)
    as (nd & w1 & evs & E & Hm & Hadd & HP & Hq & Hb).
  rewrite E in *. cbn [fst snd] in *. rewrite (added_events_since _ _ _ Hadd).
  split; [reflexivity|]. split; [|split].
  - intros i Hi.
    assert (Hu : u32 i = i) by (apply u32_small; lia).
    destruct (Hq i Hi) as (st & Hst).
    { rewrite Hu. apply out_of_range_false. lia. }
    rewrite Hu in Hst. eauto.
  - intros d Hfail k v Hfind Hparent. rewrite Hm in Hfind. simpl in Hfind.
    apply StdMap_find_In in Hfind.
    destruct (Hb k v Hfind) as (i & Hi & Hp & Hev).
    rewrite u32_small in Hp by lia.
    apply Hfail. congruence.
  - intros I i gi u HI K Hi Hh.
    specialize (Hpub I i gi u HI K Hi Hh).
    destruct (StdMap.find u (migDevices (mgr w1))) as [v|];
      [eauto | contradiction].
Qed.

(** C7. [getMIGDeviceMetrics]: a snapshot in the metrics cache is
    returned as it is, without a driver call; otherwise, for a uuid of
    the registry, the result is a collection on its descriptor, made
    under the lock; and a uuid that is in neither mapping gives the
    empty optional, again without a driver call. *)
Theorem C7_getMIGDeviceMetrics (uuid : string) (w : World D) :
  match StdMap.find uuid (latestMetrics (mgr w)) with
  | Some cached =>
      fst (getMIGDeviceMetrics uuid w) = Ok (Some cached) /\
      no_driver_call w (snd (getMIGDeviceMetrics uuid w))
  | None =>
      match StdMap.find uuid (migDevices (mgr w)) with
      | Some device =>
          exists x w1,
            collectDeviceMetrics device (logged [ELock MetricsMutex] w)
            = (Ok x, w1) /\
            getMIGDeviceMetrics uuid w
            = (Ok (Some x), logged [EUnlock MetricsMutex] w1)
      | None =>
          fst (getMIGDeviceMetrics uuid w) = Ok None /\
          no_driver_call w (snd (getMIGDeviceMetrics uuid w))
      end
  end.
Proof.
  destruct (StdMap.find uuid (latestMetrics (mgr w))) as [cached|] eqn:Hc.
  - rewrite (getMIGDeviceMetrics_cached _ _ _ Hc).
    split; [reflexivity | apply no_driver_call_locked].
  - destruct (StdMap.find uuid (migDevices (mgr w))) as [device|] eqn:Hr.
    + now apply getMIGDeviceMetrics_collects.
    + rewrite (getMIGDeviceMetrics_unknown _ _ Hc Hr).
      split; [reflexivity | apply no_driver_call_locked].
Qed.

(** C8, as the code has it. A failed device-count query is fatal:
    [initializeDevices] throws the [NVMLException] of that status and
    leaves the manager as it was. Once the count is known the function
    always returns: every index is asked for its handle once, in
    order; an index whose query fails is logged as a warning and left
    out; the inventory is the list of the handles obtained, which is
    empty when none was. *)
Theorem C8_initializeDevices (w : World D) :
  let w' := snd (initializeDevices w) in
  exists r n d1,
    nvmlDeviceGetCount (drv w) = (r, n, d1) /\
    if r =? NVML_SUCCESS then
      exists answers refresh_events,
        List.length answers = Z.to_nat n /\
        fst (initializeDevices w) = Ok tt /\
        devices (mgr w') = kept_handles answers /\
        events_since w w'
        = EDriver CallDeviceGetCount r
          :: answers_events (range (Z.to_nat n)) answers ++ refresh_events /\
        Forall is_query refresh_events
    else
      fst (initializeDevices w)
      = Throw (mkNVMLException r "디바이스 개수 조회 실패") /\
      mgr w' = mgr w /\
      events_since w w' = [EDriver CallDeviceGetCount r].
Proof.
  destruct (initializeDevices_spec w) as (r & n & d1 & Ecount & Hspec).
  exists r, n, d1. split; [exact Ecount|].
  destruct (r =? NVML_SUCCESS).
  - destruct Hspec as (answers & w1 & evs & Hlen & E & Hd & Hadd & HP).
    exists answers, evs. rewrite E. cbn [fst snd].
    rewrite (added_events_since _ _ _ Hadd). auto.
  - destruct Hspec as (w1 & E & Hm & Hadd).
    rewrite E. cbn [fst snd]. rewrite (added_events_since _ _ _ Hadd). auto.
Qed.

(** C9, the code at [startMonitoring(intervalMs)]: whatever interval
    is passed, the loop waits 1000 ms after each pass. *)
Theorem C9_wait_ignores_interval
    (intervalMs : Z) (passes : nat) (w : World D) :
  let run := startMonitoring intervalMs ;; monitoringLoop passes in
  fst (run w) = Ok tt /\
  waits_of (events_since w (snd (run w))) = repeat 1000 passes.
Proof.
  destruct (startMonitoring_spec intervalMs w)
    as (w1 & E1 & Hact & evs1 & Hadd1 & Hw1).
  destruct (monitoringLoop_waits passes w1 Hact)
    as (w2 & E2 & _ & evs2 & Hadd2 & Hw2).
  cbv zeta. unfold bind. rewrite E1, E2. cbn [fst snd].
  split; [reflexivity|].
  rewrite (added_events_since _ _ _ (added_trans _ _ _ _ _ Hadd1 Hadd2)).
  rewrite waits_of_app, Hw1, Hw2. reflexivity.
Qed.


End Properties.

(* ================================================================== *)
(** ** The properties on concrete fleets *)
(* ================================================================== *)



(** C1, on the reference fleet: two passes interleaved with three reads. *)
Lemma C1_witness :
  rs_reads Scenario.idle = [] /\
  rs_reads Scenario.interleaved = [ []; []; [("P1", Scenario.P1_info)] ] /\
  forall m, In m (rs_reads Scenario.interleaved) ->
            whole_mapping Scenario.idle Scenario.interleaved m.
Proof.
  split; [reflexivity|]. split; [vm_compute; reflexivity|].
  apply (C1_registry_swapped_whole Scenario.idle Scenario.interleaved).
  - reflexivity.
  - apply registry_play_runs. apply run_done.
Defined.



(** C3 as stated fails: three commands are queued at shutdown and no
    cancellation is delivered, however long the worker runs on. *)
Lemma C3_counterexample :
  ~ exists turns, cancelled_on_shutdown Scenario.three_queued turns.
Proof.
  intros (n & Hc). unfold cancelled_on_shutdown in Hc.
  destruct (shutdown_spec n Scenario.three_queued)
    as (w1 & evs & E & _ & _ & Hadd & _ & Hcb & _).
  rewrite E in Hc. cbn [snd] in Hc.
  rewrite (added_events_since _ _ _ Hadd), Hcb in Hc.
  apply (Hc {| task := Some (TaskEnableMIG 0); callback := Some (returning 1) |} (returning 1)).
  - vm_compute. left. reflexivity.
  - reflexivity.
Qed.

(** C4 as stated fails: [getAllMIGDevices] on the reference fleet calls
    the driver. *)
Lemma C4_counterexample :
  ~ reads_never_call_driver (Fake.started Fake.fleet).
Proof.
  intros ((_ & evs & Hadd & Hnone) & _).
  rewrite <- (added_events_since _ _ _ Hadd) in Hnone.
  vm_compute in Hnone. discriminate.
Qed.

(** C4 as the code has it, on the reference fleet. *)
Lemma C4_witness :
  0 <= 1 < Z.of_nat (List.length (devices (mgr (Fake.started Fake.fleet)))) /\
  no_driver_call (Fake.started Fake.fleet)
                 (snd (findMIGDeviceByUUID "P1" (Fake.started Fake.fleet))) /\
  getDeviceCount (Fake.started Fake.fleet) = (Ok 2, Fake.started Fake.fleet) /\
  exists w1,
    refreshMIGDevices (Fake.started Fake.fleet) = (Ok tt, w1) /\
    driver_calls_of (events_since (Fake.started Fake.fleet) w1) <> [].
Proof.
  assert (Hi : 0 <= 1 < Z.of_nat (List.length
                                   (devices (mgr (Fake.started Fake.fleet)))))
    by (vm_compute; split; [discriminate | reflexivity]).
  split; [exact Hi|].
  destruct (C4_reads_and_the_driver (Fake.started Fake.fleet) 1 "P1" Hi)
    as ((_ & Hfind) & Hcount & _ & _ & (w1 & E & Hcalls & _) & _).
  split; [exact Hfind|]. split; [exact Hcount|].
  exists w1. split; [exact E | exact Hcalls].
Defined.

(** C5, the code at a failed sub-query: the parent of P1 does not report
    its power, and the snapshot of P1 holds in [powerUsage] what the
    storage of the default-initialised object held, here 17, not zero. *)
Theorem C5_failed_query_leaves_member_unset :
  exists x w',
    collectDeviceMetrics Scenario.P1_info (Fake.started Fake.fleet)
    = (Ok x, w') /\
    In (EDriver (CallDeviceGetPowerUsage 101) Fake.NOT_FOUND)
       (events_since (Fake.started Fake.fleet) w') /\
    powerUsage x = powerUsage (indet_metrics (Fake.started Fake.fleet)) /\
    powerUsage x = 17.
Proof.
  eexists. eexists. split; [vm_compute; reflexivity|].
  split; [|split; reflexivity].
  vm_compute. do 2 right. left. reflexivity.
Qed.

Lemma fake_answer_keeps {R} (d : Fake.Driver) (o : option R) (dflt : R) :
  snd (Fake.answer d o dflt) = d.
Proof. now destruct o. Qed.

Lemma flaky_lift_keeps {R} (f : Fake.Driver -> nvmlReturn_t * R * Fake.Driver)
    (d : Flaky.Driver) :
  snd (f (Flaky.base d)) = Flaky.base d -> snd (Flaky.lift f d) = d.
Proof.
  unfold Flaky.lift. destruct (f (Flaky.base d)) as [[r v] b]. simpl.
  intros ->. now destruct d.
Qed.

(** The queries leave this driver as it is. *)
Lemma flaky_queries_keep (d : Flaky.Driver) :
  kept_by_queries (fun x => x = d).
Proof.
  repeat split; intros; subst;
    cbn [nvmlDeviceGetMigMode nvmlDeviceGetGpuInstances nvmlGpuInstanceGetInfo
         nvmlGpuInstanceGetComputeInstances nvmlComputeInstanceGetInfo
         nvmlComputeInstanceDeviceHandle nvmlDeviceGetUUID
         nvmlDeviceGetMemoryInfo nvmlDeviceGetGpuInstanceProfileInfo
         Flaky.driver];
    try match goal with
        | |- context [existsb ?f ?l] => destruct (existsb f l); [reflexivity|]
        end;
    apply flaky_lift_keeps;
    cbn [nvmlDeviceGetMigMode nvmlDeviceGetGpuInstances nvmlGpuInstanceGetInfo
         nvmlGpuInstanceGetComputeInstances nvmlComputeInstanceGetInfo
         nvmlComputeInstanceDeviceHandle nvmlDeviceGetUUID
         nvmlDeviceGetMemoryInfo nvmlDeviceGetGpuInstanceProfileInfo
         Fake.driver];
    try apply fake_answer_keeps;
    repeat match goal with
           | |- context [match ?x with _ => _ end] => destruct x
           end; reflexivity.
Qed.

(** On [half_enumerated] the partitions P0 and P1 are enumerated
    without failure. *)
Lemma half_enumerated_healthy :
  healthy (fun x => x = Scenario.half_enumerated) 100 1000 "P0" /\
  healthy (fun x => x = Scenario.half_enumerated) 101 1100 "P1".
Proof.
  split; (split; [discriminate|]).
  - exists {| gi_id := 3; gi_profileId := 1 |}, 1010, [],
      {| ci_id := 0 |}, 1011.
    intros d ->. split; [exists 1; reflexivity|].
    split; [exists [1000; 1001]; split; [reflexivity | now left]|].
    repeat split.
  - exists {| gi_id := 7; gi_profileId := 0 |}, 1110, [],
      {| ci_id := 0 |}, 1111.
    intros d ->. split; [exists 1; reflexivity|].
    split; [exists [1100]; split; [reflexivity | now left]|].
    repeat split.
Qed.

(** C6 as stated fails: the driver fails to read the second GPU
    instance of the first device, and the partition P0 of that device
    is published all the same. *)
Lemma C6_counterexample :
  ~ failed_device_contributes_nothing
      (Flaky.started Scenario.half_enumerated).
Proof.
  intros Hc.
  assert (Hf : exists c r,
             In (EDriver c r)
                (turn_events 0 (Flaky.started Scenario.half_enumerated)) /\
             is_enumeration_call c /\ r <> NVML_SUCCESS).
  { exists (CallGpuInstanceGetInfo 1001), Fake.NOT_FOUND.
    split; [vm_compute; tauto|]. split; [exact I | discriminate]. }
  pose proof (Hc 0%nat Hf "P0") as Hk. vm_compute in Hk.
  eapply Hk; reflexivity.
Qed.

(** C6, on a fleet where the driver fails in the middle of the
    enumeration of the first device: the partition read before the
    failure and the partition of the second device are published. *)
Lemma C6_witness :
  let w := Flaky.started Scenario.half_enumerated in
  let w' := snd (refreshMIGDevices w) in
  Z.of_nat (List.length (devices (mgr w))) <= 2 ^ 32 /\
  In (EDriver (CallGpuInstanceGetInfo 1001) Fake.NOT_FOUND)
     (events_since w w') /\
  fst (refreshMIGDevices w) = Ok tt /\
  (exists v, StdMap.find "P0" (migDevices (mgr w')) = Some v) /\
  (exists v, StdMap.find "P1" (migDevices (mgr w')) = Some v).
Proof.
  intros w w'.
  assert (Hb : Z.of_nat (List.length (devices (mgr w))) <= 2 ^ 32)
    by (vm_compute; discriminate).
  split; [exact Hb|].
  split; [vm_compute; tauto|].
  destruct (C6_failed_device_contributes_nothing w Hb)
    as (Hok & _ & _ & Hpub).
  split; [exact Hok|].
  split.
  - apply (Hpub (fun x => x = Scenario.half_enumerated) 0 1000 "P0");
      [reflexivity | apply flaky_queries_keep | vm_compute; split; [discriminate | reflexivity]
      | exact (proj1 half_enumerated_healthy)].
  - apply (Hpub (fun x => x = Scenario.half_enumerated) 1 1100 "P1");
      [reflexivity | apply flaky_queries_keep | vm_compute; split; [discriminate | reflexivity]
      | exact (proj2 half_enumerated_healthy)].
Defined.

(** C8 as stated fails: no handle is obtained and initialisation
    returns normally. *)
Lemma C8_counterexample :
  ~ zero_handles_is_fatal (Fake.boot Scenario.unreachable).
Proof.
  intros Hz. destruct Hz as (e & He).
  - vm_compute. reflexivity.
  - vm_compute in He. discriminate.
Qed.


(* ================================================================== *)
(** ** Further properties of the manager *)
(* ================================================================== *)

Lemma ascii_compare_lt_trans (a b c : ascii) :
  Ascii.compare a b = Lt -> Ascii.compare b c = Lt -> Ascii.compare a c = Lt.
Proof.
  unfold Ascii.compare. rewrite !N.compare_lt_iff. lia.
Qed.

Lemma key_lt_trans (a b c : string) : key_lt a b -> key_lt b c -> key_lt a c.
Proof.
  unfold key_lt. revert b c.
  induction a as [|x a IH]; intros [|y b] [|z c]; simpl; try discriminate; auto.
  destruct (Ascii.compare x y) eqn:Exy; try discriminate.
  - apply Ascii.compare_eq_iff in Exy. subst y.
    destruct (Ascii.compare x z) eqn:Exz; try discriminate; auto.
    intros Hab Hbc. eapply IH; eauto.
  - intros _.
    destruct (Ascii.compare y z) eqn:Eyz; try discriminate.
    + apply Ascii.compare_eq_iff in Eyz. subst z. now rewrite Exy.
    + now rewrite (ascii_compare_lt_trans _ _ _ Exy Eyz).
Qed.

Lemma key_lt_irrefl (a : string) : ~ key_lt a a.
Proof. unfold key_lt. rewrite string_compare_refl. discriminate. Qed.

Lemma key_gt_lt (a b : string) : String.compare a b = Gt -> key_lt b a.
Proof.
  unfold key_lt. intros Hgt. rewrite String.compare_antisym, Hgt. reflexivity.
Qed.

Section MapLaws.
Context {V : Type}.

Lemma keys_insert (k : string) (v : V) (m : StdMap.t V) (k' : string) :
  In k' (StdMap.keys (StdMap.insert k v m)) <->
  k' = k \/ In k' (StdMap.keys m).
Proof.
  unfold StdMap.keys. induction m as [|[k0 v0] m IH]; simpl.
  - intuition.
  - destruct (String.compare k k0) eqn:E; simpl.
    + apply String.compare_eq_iff in E. subst k0. intuition.
    + intuition.
    + rewrite IH. intuition.
Qed.

Lemma insert_ascending (k : string) (v : V) (m : StdMap.t V) :
  ascending m -> ascending (StdMap.insert k v m).
Proof.
  unfold ascending, StdMap.keys.
  induction m as [|[k0 v0] m IH]; simpl; intros Hs.
  - repeat constructor.
  - inversion Hs as [|x l Hl Hall]; subst.
    destruct (String.compare k k0) eqn:E; simpl.
    + apply String.compare_eq_iff in E. subst k0. now constructor.
    + constructor; [exact Hs|]. constructor; [exact E|].
      eapply Forall_impl; [|exact Hall]. intros a. now apply key_lt_trans.
    + constructor; [now apply IH|].
      apply Forall_forall. intros x Hx.
      apply (keys_insert k v m x) in Hx. destruct Hx as [->|Hx].
      * now apply key_gt_lt.
      * rewrite Forall_forall in Hall. now apply Hall.
Qed.

Lemma ascending_NoDup (m : StdMap.t V) : ascending m -> NoDup (StdMap.keys m).
Proof.
  unfold ascending. induction 1 as [|k l Hl IH Hall]; constructor; auto.
  intros Hin. rewrite Forall_forall in Hall.
  exact (key_lt_irrefl k (Hall k Hin)).
Qed.

(** A key above all the keys of the map goes to the end. *)
Lemma insert_last (k : string) (v : V) (m : StdMap.t V) :
  Forall (fun k' => key_lt k' k) (StdMap.keys m) ->
  StdMap.insert k v m = m ++ [(k, v)].
Proof.
  unfold StdMap.keys. induction m as [|[k0 v0] m IH]; simpl; intros Hall.
  - reflexivity.
  - inversion Hall as [|x l Hk0 Hrest]; subst. simpl in Hk0.
    unfold key_lt in Hk0.
    rewrite String.compare_antisym, Hk0. simpl. now rewrite IH.
Qed.

Lemma find_insert_other (k k' : string) (v : V) (m : StdMap.t V) :
  k' <> k -> StdMap.find k' (StdMap.insert k v m) = StdMap.find k' m.
Proof.
  intros Hne. induction m as [|[k0 v0] m IH]; simpl.
  - destruct (String.eqb_spec k' k); [contradiction | reflexivity].
  - destruct (String.compare k k0) eqn:E; simpl.
    + apply String.compare_eq_iff in E. subst k0.
      destruct (String.eqb_spec k' k); [contradiction | reflexivity].
    + destruct (String.eqb_spec k' k); [contradiction | reflexivity].
    + now rewrite IH.
Qed.

Lemma find_keys (k : string) (m : StdMap.t V) :
  StdMap.find k m <> None <-> In k (StdMap.keys m).
Proof.
  unfold StdMap.keys. induction m as [|[k0 v0] m IH]; simpl.
  - intuition.
  - destruct (String.eqb_spec k k0) as [->|Hne].
    + split; [now left | discriminate].
    + rewrite IH. intuition congruence.
Qed.

Lemma In_find (k : string) (v : V) (m : StdMap.t V) :
  ascending m -> In (k, v) m -> StdMap.find k m = Some v.
Proof.
  unfold ascending, StdMap.keys.
  induction m as [|[k0 v0] m IH]; simpl; intros Hs Hin; [contradiction|].
  inversion Hs as [|x l Hl Hall]; subst.
  destruct Hin as [[= -> ->]|Hin].
  - now rewrite String.eqb_refl.
  - destruct (String.eqb_spec k k0) as [->|Hne]; [|now apply IH].
    exfalso. rewrite Forall_forall in Hall.
    apply (key_lt_irrefl k0), Hall.
    change k0 with (fst (k0, v)). now apply in_map.
Qed.

End MapLaws.

Section Descriptors.
Context {D : Type} `{DriverInterface D}.

Lemma first_compute_instance_keeps dev ii ci cii mi (w : World D) :
  wp (refresh_first_compute_instance dev ii ci cii mi) w
     (fun r _ => exists mi', r = Ok mi' /\
        parentDeviceIndex mi' = parentDeviceIndex mi /\
        currentComputeInstances mi' = currentComputeInstances mi /\
        computeInstanceIds mi' = computeInstanceIds mi).
Proof.
  unfold refresh_first_compute_instance. wp_auto.
  eexists; split; [reflexivity|].
  repeat match goal with
         | |- context [if ?b then _ else _] => destruct b
         end; repeat split.
Qed.

Lemma compute_instance_grows dev ii jc mi (w : World D) :
  wp (refresh_compute_instance dev ii jc mi) w
     (fun r _ => exists mi', r = Ok mi' /\
        parentDeviceIndex mi' = parentDeviceIndex mi /\
        currentComputeInstances mi' = currentComputeInstances mi /\
        (List.length (computeInstanceIds mi')
         <= S (List.length (computeInstanceIds mi)))%nat).
Proof.
  unfold refresh_compute_instance. destruct jc as [j ci].
  apply wp_bind, wp_driver_call. intros r v d' _. cbv beta iota.
  destruct (r =? NVML_SUCCESS).
  - destruct (j =? 0).
    + eapply wp_mono; [apply first_compute_instance_keeps|].
      intros r0 w' (mi' & -> & Hp & Hc & Hids). exists mi'.
      split; [reflexivity|]. rewrite Hp, Hc, Hids. simpl.
      rewrite length_app. simpl. repeat split. lia.
    + apply wp_ret. eexists. split; [reflexivity|]. simpl.
      rewrite length_app. simpl. repeat split. lia.
  - apply wp_ret. exists mi. repeat split. lia.
Qed.

Lemma compute_instances_grow dev ii (l : list (Z * nvmlComputeInstance_t))
    mi (w : World D) :
  wp (for_each l (refresh_compute_instance dev ii) mi) w
     (fun r _ => exists mi', r = Ok mi' /\
        parentDeviceIndex mi' = parentDeviceIndex mi /\
        currentComputeInstances mi' = currentComputeInstances mi /\
        (List.length (computeInstanceIds mi')
         <= List.length (computeInstanceIds mi) + List.length l)%nat).
Proof.
  eapply wp_mono.
  { apply (wp_for_each
             (fun pre (acc : MIGDeviceInfo) (_ : World D) =>
                parentDeviceIndex acc = parentDeviceIndex mi /\
                currentComputeInstances acc = currentComputeInstances mi /\
                (List.length (computeInstanceIds acc)
                 <= List.length (computeInstanceIds mi) + List.length pre)%nat))
      with (pre := []).
    - intros pre x acc w0 (Hp & Hc & Hl).
      eapply wp_mono; [apply compute_instance_grows|].
      intros r w' (mi' & -> & Hp' & Hc' & Hl'). exists mi'.
      split; [reflexivity|]. rewrite length_app. simpl.
      repeat split; try congruence. lia.
    - simpl. repeat split. lia. }
  intros r w' (mi' & -> & Hp & Hc & Hl). exists mi'. simpl in Hl. auto.
Qed.

Lemma gpu_instance_builds d dev gi nd (w : World D) :
  wp (refresh_gpu_instance d dev gi nd) w
     (fun r _ => exists nd', r = Ok nd' /\
        (ascending nd -> ascending nd') /\
        forall k v, In (k, v) nd' ->
          In (k, v) nd \/ (k = uuid v /\ built_for d v)).
Proof.
  unfold refresh_gpu_instance.
  apply wp_bind. unfold wp at 1. simpl.
  apply wp_bind, wp_driver_call. intros r ii d' _. cbv beta iota.
  destruct (r =? NVML_SUCCESS); [|apply wp_ret; eauto].
  apply wp_bind, wp_driver_call. intros r' cis d'' Ecis. cbv beta iota.
  destruct (r' =? NVML_SUCCESS); [|apply wp_ret; eauto].
  apply wp_bind.
  eapply wp_mono; [apply compute_instances_grow|].
  intros r0 w' (mi & -> & Hp & Hc & Hl). simpl in Hp, Hc, Hl.
  destruct (String.eqb_spec (uuid mi) "") as [He|Hne]; simpl;
    apply wp_ret; eexists; (split; [reflexivity|]); [auto|].
  split; [apply insert_ascending|].
  intros k v Hin. apply StdMap_In_insert in Hin.
  destruct Hin as [[= -> ->]|Hin]; [right | now left].
  split; [reflexivity|]. split; [exact Hne|]. split; [exact Hp|].
  exists (List.length cis). split.
  { eexists _, _. now rewrite Ecis. }
  split; [exact Hc|].
  unfold indexed in Hl. rewrite length_combine in Hl.
  unfold range in Hl. rewrite length_map, length_seq in Hl. lia.
Qed.

Lemma gpu_instances_build d dev gis nd (w : World D) :
  wp (for_each gis (refresh_gpu_instance d dev) nd) w
     (fun r _ => exists nd', r = Ok nd' /\
        (ascending nd -> ascending nd') /\
        forall k v, In (k, v) nd' ->
          In (k, v) nd \/ (k = uuid v /\ built_for d v)).
Proof.
  eapply wp_mono.
  { apply (wp_for_each
             (fun _ (acc : StdMap.t MIGDeviceInfo) (_ : World D) =>
                (ascending nd -> ascending acc) /\
                forall k v, In (k, v) acc ->
                  In (k, v) nd \/ (k = uuid v /\ built_for d v)))
      with (pre := []).
    - intros pre x acc w0 (Hasc & Hacc).
      eapply wp_mono; [apply gpu_instance_builds|].
      intros r w' (nd' & -> & Hasc' & Hnd'). exists nd'.
      split; [reflexivity|]. split; [auto|].
      intros k v Hin. destruct (Hnd' k v Hin) as [Hold|Hnew]; auto.
    - auto. }
  intros r w' (nd' & -> & Hnd'). eauto.
Qed.

Lemma device_builds d nd (w : World D) :
  wp (refresh_device d nd) w
     (fun r _ => exists nd', r = Ok nd' /\
        (ascending nd -> ascending nd') /\
        forall k v, In (k, v) nd' ->
          In (k, v) nd \/ (k = uuid v /\ built_for d v)).
Proof.
  unfold refresh_device.
  apply wp_bind.
  apply (wp_local is_query); [apply local_isMIGModeEnabled|].
  intros enabled w1 _ _.
  destruct enabled; unfold negb; [|apply wp_ret; eauto].
  apply wp_bind, wp_this.
  apply wp_bind, wp_driver_call. intros r gis d' _. cbv beta iota.
  destruct (r =? NVML_SUCCESS); [|apply wp_ret; eauto].
  apply gpu_instances_build.
Qed.

Lemma devices_build (l : list Z) nd (w : World D) :
  wp (for_each l refresh_device nd) w
     (fun r _ => exists nd', r = Ok nd' /\
        (ascending nd -> ascending nd') /\
        forall k v, In (k, v) nd' ->
          In (k, v) nd \/ (k = uuid v /\ exists d, In d l /\ built_for d v)).
Proof.
  eapply wp_mono.
  { apply (wp_for_each
             (fun pre (acc : StdMap.t MIGDeviceInfo) (_ : World D) =>
                (ascending nd -> ascending acc) /\
                forall k v, In (k, v) acc ->
                  In (k, v) nd \/
                  (k = uuid v /\ exists d, In d pre /\ built_for d v)))
      with (pre := []).
    - intros pre x acc w0 (Hasc & Hacc).
      eapply wp_mono; [apply device_builds|].
      intros r w' (nd' & -> & Hasc' & Hnd'). exists nd'.
      split; [reflexivity|]. split; [auto|].
      intros k v Hin. destruct (Hnd' k v Hin) as [Hold|(Hk & Hb)].
      + destruct (Hacc k v Hold) as [Hnd|(Hk & d & Hd & Hb)]; [now left|].
        right. split; [exact Hk|]. exists d. split; [|exact Hb].
        apply in_or_app. now left.
      + right. split; [exact Hk|]. exists x. split; [|exact Hb].
        apply in_or_app. right. now left.
    - auto. }
  intros r w' (nd' & -> & Hnd'). eauto.
Qed.

(** The mapping a pass publishes is the one its device loop built. *)
Lemma refresh_publishes_loop (w : World D) :
  exists nd w1 w',
    for_each (range (List.length (devices (mgr w)))) refresh_device
             StdMap.empty w = (Ok nd, w1) /\
    refreshMIGDevices w = (Ok tt, w') /\
    mgr w' = set_migDevices nd (mgr w) /\
    drv w' = drv w1.
Proof.
  destruct (device_loop_spec (range (List.length (devices (mgr w))))
                             StdMap.empty w)
    as (nd & w1 & evs & E & Hm & _).
  exists nd, w1. eexists. split; [exact E|]. split.
  - unfold refreshMIGDevices, bind, this. rewrite E.
    unfold publish, lock_guard, bind, try_catch, assign, bind, this,
      set_mgr, emit, ret. simpl. reflexivity.
  - simpl. rewrite Hm. split; reflexivity.
Qed.

Lemma ascending_empty {V} : ascending (@StdMap.empty V).
Proof. constructor. Qed.

Lemma refresh_builds (w : World D) :
  exists w',
    refreshMIGDevices w = (Ok tt, w') /\
    devices (mgr w') = devices (mgr w) /\
    ascending (migDevices (mgr w')) /\
    forall k v, In (k, v) (migDevices (mgr w')) ->
      k = uuid v /\
      exists d, 0 <= d < Z.of_nat (List.length (devices (mgr w))) /\
                built_for d v.
Proof.
  destruct (refresh_publishes_loop w) as (nd & w1 & w' & E & E' & Hm & _).
  pose proof (devices_build (range (List.length (devices (mgr w))))
                            StdMap.empty w) as Hv.
  unfold wp in Hv. rewrite E in Hv. simpl in Hv.
  destruct Hv as (nd' & [= <-] & Hasc & Hv).
  exists w'. split; [exact E'|]. rewrite Hm. simpl.
  split; [reflexivity|]. split; [apply Hasc, ascending_empty|].
  intros k v Hin. destruct (Hv k v Hin) as [[]|(Hk & d & Hd & Hb)].
  split; [exact Hk|]. exists d. split; [now apply in_range | exact Hb].
Qed.

End Descriptors.

Section RegistryKeys.
Context {D : Type} `{DriverInterface D}.

Lemma keys_app {V} (m m' : StdMap.t V) :
  StdMap.keys (m ++ m') = StdMap.keys m ++ StdMap.keys m'.
Proof. apply map_app. Qed.

Lemma sorted_app_last (l : list string) (k : string) (l' : list string) :
  StronglySorted key_lt (l ++ k :: l') -> Forall (fun k' => key_lt k' k) l.
Proof.
  induction l as [|x l IH]; simpl; intros Hs; [constructor|].
  inversion Hs as [|y z Hz Hall]; subst. constructor.
  - rewrite Forall_forall in Hall. apply Hall. apply in_or_app. right. now left.
  - now apply IH.
Qed.

(** Collecting over a registry in key order appends one snapshot per
    binding, under the key of the binding. *)
Lemma collect_loop_keys (l : StdMap.t MIGDeviceInfo) (acc : StdMap.t MIGMetrics)
    (w : World D) :
  StronglySorted key_lt (StdMap.keys acc ++ StdMap.keys l) ->
  exists metrics w',
    for_each l
      (fun '(uuid, device) metrics =>
         x <- collectDeviceMetrics device ;;
         ret (StdMap.insert uuid x metrics)) acc w = (Ok metrics, w') /\
    StdMap.keys metrics = StdMap.keys acc ++ StdMap.keys l.
Proof.
  revert acc w. induction l as [|[k device] l IH]; intros acc w Hs.
  - exists acc, w. split; [reflexivity|]. simpl. now rewrite app_nil_r.
  - destruct (local_collectDeviceMetrics device w) as (x & w1 & E & _).
    simpl in Hs.
    assert (Hlast : StdMap.insert k x acc = acc ++ [(k, x)]).
    { apply insert_last. eapply sorted_app_last. exact Hs. }
    destruct (IH (StdMap.insert k x acc) w1) as (metrics & w' & E' & Hk).
    { rewrite Hlast, keys_app. simpl. rewrite <- app_assoc. exact Hs. }
    exists metrics, w'. split.
    + simpl. unfold bind at 1. unfold bind at 1. rewrite E.
      unfold ret at 1. exact E'.
    + rewrite Hk, Hlast, keys_app. simpl. now rewrite <- app_assoc.
Qed.

Lemma collect_all_keys (registry : StdMap.t MIGDeviceInfo) (w : World D) :
  ascending registry ->
  exists metrics w',
    collect_all registry w = (Ok metrics, w') /\
    StdMap.keys metrics = StdMap.keys registry.
Proof.
  intros Hs. apply (collect_loop_keys registry StdMap.empty w). exact Hs.
Qed.

Lemma uuids_are_keys (m : StdMap.t MIGDeviceInfo) :
  (forall k v, In (k, v) m -> uuid v = k) ->
  List.map uuid (StdMap.values m) = StdMap.keys m.
Proof.
  unfold StdMap.values, StdMap.keys. induction m as [|[k v] m IH]; intros Hk.
  - reflexivity.
  - simpl. rewrite (Hk k v) by now left. f_equal. apply IH.
    intros k' v' Hin. apply Hk. now right.
Qed.

(** X1: the registry after a refresh pass.  With at most 2^32 devices
    in the inventory and a driver whose lists of compute instances have
    fewer than 2^32 entries (their count is an [unsigned int]), the
    registry that [refreshMIGDevices] publishes has strictly ascending
    keys, and every binding of a key [k] to a descriptor [v] has
    [v.uuid = k], a uuid that is not empty, a [parentDeviceIndex] that
    is an index of the inventory, and no more entries in
    [computeInstanceIds] than [currentComputeInstances] says. *)
Theorem refresh_registry_keyed_by_uuid (w : World D) :
  Z.of_nat (List.length (devices (mgr w))) <= 2 ^ 32 ->
  (forall gi d,
      Z.of_nat (List.length
                  (snd (fst (nvmlGpuInstanceGetComputeInstances gi d))))
      < 2 ^ 32) ->
  let w' := snd (refreshMIGDevices w) in
  ascending (migDevices (mgr w')) /\
  forall k v, StdMap.find k (migDevices (mgr w')) = Some v ->
    uuid v = k /\ k <> "" /\
    0 <= parentDeviceIndex v < Z.of_nat (List.length (devices (mgr w'))) /\
    Z.of_nat (List.length (computeInstanceIds v))
    <= currentComputeInstances v < 2 ^ 32.
Proof.
  intros Hbound Hfit. destruct (refresh_builds w) as (w' & E & Hd & Hasc & Hb).
  rewrite E. cbn [snd]. split; [exact Hasc|].
  intros k v Hfind. apply StdMap_find_In in Hfind.
  destruct (Hb k v Hfind)
    as (Hk & d & Hdr & Hne & Hp & n & (gi & d0 & Hn) & Hc & Hl).
  specialize (Hfit gi d0). rewrite <- Hn in Hfit.
  rewrite Hd, Hp, Hc, !u32_small by lia. subst k.
  repeat split; auto; lia.
Qed.

(** X2: the metrics cache after a turn of the monitoring loop.  A turn
    returns, leaves the registry that a refresh pass publishes, and
    leaves a cache of metrics whose keys are exactly the keys of that
    registry. *)
Theorem monitoring_pass_rebuilds_cache (w : World D) :
  let w' := snd (monitoringLoop_iteration w) in
  fst (monitoringLoop_iteration w) = Ok tt /\
  migDevices (mgr w') = migDevices (mgr (snd (refreshMIGDevices w))) /\
  StdMap.keys (latestMetrics (mgr w')) = StdMap.keys (migDevices (mgr w')).
Proof.
  destruct (monitoringLoop_iteration_spec w)
    as (w1 & metrics & w2 & w' & E1 & E2 & E & Hm & _).
  destruct (refresh_builds w) as (w1' & E1' & _ & Hasc & _).
  assert (w1' = w1) by congruence. subst w1'.
  destruct (collect_all_keys (migDevices (mgr w1))
              (logged [ELock MetricsMutex] w1) Hasc)
    as (metrics' & w2' & E2' & Hk).
  assert (metrics' = metrics) by congruence. subst metrics'.
  rewrite E, E1. cbn [fst snd]. rewrite Hm. simpl. auto.
Qed.

(** X3: what [getAllMIGDevices] returns.  The call returns a list (it
    does not throw) in strictly ascending order of uuid, so no uuid
    occurs twice, and no uuid is empty; a descriptor is in the list
    exactly when the registry left behind binds its uuid to it. *)
Theorem getAllMIGDevices_distinct_uuids (w : World D) :
  let l := match fst (getAllMIGDevices w) with Ok l => l | Throw _ => [] end in
  fst (getAllMIGDevices w) = Ok l /\
  StronglySorted key_lt (List.map uuid l) /\
  NoDup (List.map uuid l) /\
  Forall (fun v => uuid v <> "") l /\
  forall v, In v l <->
            StdMap.find (uuid v) (migDevices (mgr (snd (getAllMIGDevices w))))
            = Some v.
Proof.
  destruct (refresh_builds w) as (w1 & E & Hd & Hasc & Hb).
  assert (Hall : getAllMIGDevices w
                 = (Ok (StdMap.values (migDevices (mgr w1))),
                    logged [EUnlock MetricsMutex]
                           (logged [ELock MetricsMutex] w1))).
  { unfold getAllMIGDevices, bind. rewrite E. reflexivity. }
  rewrite Hall. cbn [fst snd mgr logged].
  assert (Hkeys : List.map uuid (StdMap.values (migDevices (mgr w1)))
                  = StdMap.keys (migDevices (mgr w1))).
  { apply uuids_are_keys. intros k v Hin. symmetry. apply (Hb k v Hin). }
  split; [reflexivity|]. rewrite Hkeys.
  split; [exact Hasc|]. split; [now apply ascending_NoDup|]. split.
  - apply Forall_forall. intros v Hin. unfold StdMap.values in Hin.
    apply in_map_iff in Hin. destruct Hin as ([k v'] & <- & Hin).
    destruct (Hb k v' Hin) as (_ & d & _ & Hne & _). exact Hne.
  - intros v. split.
    + intros Hin. unfold StdMap.values in Hin.
      apply in_map_iff in Hin. destruct Hin as ([k v'] & <- & Hin).
      simpl. destruct (Hb k v' Hin) as (Hk & _). subst k.
      now apply In_find.
    + intros Hfind. apply StdMap_find_In in Hfind.
      unfold StdMap.values. apply in_map_iff. exists (uuid v, v). auto.
Qed.

(** X4: what [getMIGDevices] returns.  For an index of the inventory
    the call returns a list without repeated uuids that holds exactly
    the descriptors of the registry left behind whose
    [parentDeviceIndex] is that index. *)
Theorem getMIGDevices_of_parent (w : World D) (deviceIndex : Z) :
  0 <= deviceIndex < Z.of_nat (List.length (devices (mgr w))) ->
  let l := match fst (getMIGDevices deviceIndex w) with
           | Ok l => l | Throw _ => [] end in
  fst (getMIGDevices deviceIndex w) = Ok l /\
  NoDup (List.map uuid l) /\
  forall v, In v l <->
            (StdMap.find (uuid v)
               (migDevices (mgr (snd (getMIGDevices deviceIndex w)))) = Some v /\
             parentDeviceIndex v = deviceIndex).
Proof.
  intros Hi.
  destruct (refresh_builds w) as (w1 & E & Hd & Hasc & Hb).
  assert (Hall : getMIGDevices deviceIndex w
                 = (Ok (filter (fun device =>
                                  parentDeviceIndex device =? deviceIndex)
                               (StdMap.values (migDevices (mgr w1)))),
                    logged [EUnlock MetricsMutex]
                           (logged [ELock MetricsMutex] w1))).
  { unfold getMIGDevices, bind at 1, this.
    rewrite out_of_range_false by lia. unfold bind. rewrite E. reflexivity. }
  rewrite Hall. cbn [fst snd mgr logged].
  assert (Hkeys : List.map uuid (StdMap.values (migDevices (mgr w1)))
                  = StdMap.keys (migDevices (mgr w1))).
  { apply uuids_are_keys. intros k v Hin. symmetry. apply (Hb k v Hin). }
  split; [reflexivity|]. split.
  - assert (Hnd : NoDup (List.map uuid (StdMap.values (migDevices (mgr w1)))))
      by (rewrite Hkeys; now apply ascending_NoDup).
    revert Hnd. generalize (StdMap.values (migDevices (mgr w1))).
    induction l as [|v l IH]; simpl; intros Hnd; [constructor|].
    inversion Hnd as [|x y Hx Hy]; subst.
    destruct (parentDeviceIndex v =? deviceIndex); simpl; auto.
    constructor; auto. intros Hin. apply Hx.
    apply in_map_iff in Hin. destruct Hin as (v' & Hu & Hin).
    apply filter_In in Hin. apply in_map_iff. exists v'. tauto.
  - intros v. rewrite filter_In, Z.eqb_eq. split.
    + intros (Hin & Hp). split; [|exact Hp].
      unfold StdMap.values in Hin.
      apply in_map_iff in Hin. destruct Hin as ([k v'] & <- & Hin).
      simpl. destruct (Hb k v' Hin) as (Hk & _). subst k.
      now apply In_find.
    + intros (Hfind & Hp). split; [|exact Hp].
      apply StdMap_find_In in Hfind.
      unfold StdMap.values. apply in_map_iff. exists (uuid v, v). auto.
Qed.

End RegistryKeys.

Section ModeChange.
Context {D : Type} `{DriverInterface D}.

Lemma logged_nil (w : World D) : logged [] w = w.
Proof. destruct w. unfold logged. simpl. now rewrite app_nil_r. Qed.

Lemma logged_logged (a b : list Event) (w : World D) :
  logged b (logged a w) = logged (a ++ b) w.
Proof. unfold logged. simpl. now rewrite app_assoc. Qed.

(** The report to the handler, inside the [try], and what the [catch]
    block makes of an exception of the handler. *)
Lemma wp_report (cb : option Callback) (ok : bool) (msg : string)
    (w : World D) (Q : Result bool -> World D -> Prop) :
  Q (report_result cb ok msg) (logged (report_events cb ok msg) w) ->
  wp (invoke cb ok msg ;; ret ok) w
     (fun res w' =>
        match res with
        | Ok a => Q (Ok a) w'
        | Throw e => wp (invoke cb false (what e) ;; ret false) w' Q
        end).
Proof.
  unfold report_result, report_events. intros HQ.
  apply wp_bind, wp_invoke.
  destruct (thrown_by cb ok msg) as [e|] eqn:T1.
  - apply wp_bind, wp_invoke. rewrite logged_logged.
    destruct (thrown_by cb false (what e)) as [e2|] eqn:T2;
      [|apply wp_ret]; exact HQ.
  - apply wp_ret. now rewrite app_nil_r in HQ.
Qed.

Ltac sync_mode_change Hi :=
  let Q := fresh "Q" in
  match goal with |- wp _ _ ?P => set (Q := P) end;
  apply wp_bind, wp_this; rewrite out_of_range_false by lia;
  cbv beta iota; apply wp_try_catch, wp_bind, wp_driver_call;
  intros r u d1 E0; cbv beta iota;
  destruct (r =? NVML_SUCCESS) eqn:Hr; unfold negb; cbv beta iota;
  [ apply wp_bind, wp_refreshMIGDevices;
    intros nd w1 evs E Hm _ _ Hadd HP;
    apply wp_report; subst Q;
    unfold sync_post, driver_call; rewrite E0; cbn [fst snd];
    rewrite Hr, E; cbn [fst snd];
    split; [reflexivity|]; split; [reflexivity|]; split; [reflexivity|];
    exists nd; exact Hm
  | apply wp_report; subst Q;
    unfold sync_post, driver_call; rewrite E0; cbn [fst snd]; rewrite Hr;
    split; [reflexivity|]; split; [reflexivity|]; reflexivity ].

Lemma sync_enable (i : Z) (cb : option Callback) (w : World D) :
  0 <= i < Z.of_nat (List.length (devices (mgr w))) ->
  wp (enableMIGMode i false cb) w
     (sync_post NVML_ENABLE_MIG "MIG 모드 활성화 성공" i cb w).
Proof. intros Hi. unfold enableMIGMode. sync_mode_change Hi. Qed.

Lemma sync_disable (i : Z) (cb : option Callback) (w : World D) :
  0 <= i < Z.of_nat (List.length (devices (mgr w))) ->
  wp (disableMIGMode i false cb) w
     (sync_post NVML_DISABLE_MIG "MIG 모드 비활성화 성공" i cb w).
Proof. intros Hi. unfold disableMIGMode. sync_mode_change Hi. Qed.

(** X5: a synchronous mode change.  For an index of the inventory,
    [enableMIGMode] and [disableMIGMode] with [async = false] make one
    [nvmlDeviceSetMigMode] call on that device.  When it succeeds they
    run [refreshMIGDevices] in the world the call left, which returns
    and replaces the registry, and then report [true] with the success
    message to the handler; when it fails they refresh nothing, leave
    the manager as it was, and report [false] with the driver's error
    string.  The result is what was reported.  The report is made
    inside the [try]: a handler that throws on it is called a second
    time, with [false] and the text of its exception, and the result
    is then [false]; an exception thrown from that second call reaches
    the caller. *)
Theorem synchronous_mode_change (i : Z) (cb : option Callback) (w : World D) :
  0 <= i < Z.of_nat (List.length (devices (mgr w))) ->
  sync_outcome enableMIGMode NVML_ENABLE_MIG "MIG 모드 활성화 성공" i cb w /\
  sync_outcome disableMIGMode NVML_DISABLE_MIG "MIG 모드 비활성화 성공" i cb w.
Proof.
  intros Hi. split; [exact (sync_enable i cb w Hi) | exact (sync_disable i cb w Hi)].
Qed.

Lemma async_enable (i : Z) (cb : option Callback) (w : World D) :
  0 <= i < Z.of_nat (List.length (devices (mgr w))) ->
  wp (enableMIGMode i true cb) w (async_post (TaskEnableMIG i) cb w).
Proof.
  intros Hi. unfold enableMIGMode. apply wp_bind, wp_this.
  rewrite out_of_range_false by lia. cbv beta iota.
  destruct (enqueue_spec (TaskEnableMIG i) cb w) as (w' & E & Hm & Hadd).
  apply wp_bind. unfold wp at 1. rewrite E. cbn [fst snd]. apply wp_ret.
  split; [reflexivity|]. split; [exact Hm|]. split.
  - now injection E as <-.
  - now apply added_events_since.
Qed.

Lemma async_disable (i : Z) (cb : option Callback) (w : World D) :
  0 <= i < Z.of_nat (List.length (devices (mgr w))) ->
  wp (disableMIGMode i true cb) w (async_post (TaskDisableMIG i) cb w).
Proof.
  intros Hi. unfold disableMIGMode. apply wp_bind, wp_this.
  rewrite out_of_range_false by lia. cbv beta iota.
  destruct (enqueue_spec (TaskDisableMIG i) cb w) as (w' & E & Hm & Hadd).
  apply wp_bind. unfold wp at 1. rewrite E. cbn [fst snd]. apply wp_ret.
  split; [reflexivity|]. split; [exact Hm|]. split.
  - now injection E as <-.
  - now apply added_events_since.
Qed.

(** X6: an asynchronous mode change.  For an index of the inventory,
    [enableMIGMode] and [disableMIGMode] with [async = true] return
    [true], append one task with the handler to the end of the queue,
    leave the driver untouched, and log exactly the lock and unlock of
    the task mutex and one notification of the worker. *)
Theorem asynchronous_mode_change (i : Z) (cb : option Callback) (w : World D) :
  0 <= i < Z.of_nat (List.length (devices (mgr w))) ->
  async_outcome enableMIGMode (TaskEnableMIG i) i cb w /\
  async_outcome disableMIGMode (TaskDisableMIG i) i cb w.
Proof.
  intros Hi.
  split; [exact (async_enable i cb w Hi) | exact (async_disable i cb w Hi)].
Qed.

End ModeChange.

Section MonitoringLifecycle.
Context {D : Type} `{DriverInterface D}.

Lemma monitor_alive_app (alive : bool) (tr tr' : list Event) (b : bool) :
  monitor_alive alive tr = Some b ->
  monitor_alive alive (tr ++ tr') = monitor_alive b tr'.
Proof.
  revert alive. induction tr as [|e tr IH]; intros alive; simpl.
  - now intros [= ->].
  - destruct e as [| | | | | | |[]|[]]; try apply IH;
      destruct alive; try discriminate; apply IH.
Qed.

Lemma monitor_alive_quiet (alive : bool) (tr : list Event) :
  Forall (fun e => match e with
                   | ESpawn MonitoringThread | EJoin MonitoringThread => False
                   | _ => True
                   end) tr ->
  monitor_alive alive tr = Some alive.
Proof.
  induction 1 as [|e tr He _ IH]; [reflexivity|].
  simpl. destruct e as [| | | | | | |[]|[]]; try exact IH; contradiction.
Qed.

Lemma query_is_no_thread_event (e : Event) :
  is_query e ->
  match e with
  | ESpawn MonitoringThread | EJoin MonitoringThread => False
  | _ => True
  end.
Proof. destruct e as [| | | | | | |[]|[]]; simpl; auto. Qed.

Lemma monitoringLoop_keeps_thread (n : nat) (w : World D) :
  exists w' evs,
    monitoringLoop n w = (Ok tt, w') /\
    monitoringActive (mgr w') = monitoringActive (mgr w) /\
    added w w' evs /\
    forall alive, monitor_alive alive evs = Some alive.
Proof.
  revert w. induction n as [|n IH]; intros w.
  - exists w, []. repeat split. apply added_refl.
  - simpl. unfold bind at 1, this.
    destruct (monitoringActive (mgr w)) eqn:Hact.
    + destruct (refreshMIGDevices_returns w)
        as (nd & w1 & E1 & Hm1 & _ & _ & evs1 & Hadd1 & HP1).
      destruct (local_collect_all (migDevices (mgr w1))
                                  (logged [ELock MetricsMutex] w1))
        as (metrics & w2 & E2 & Hm2 & _ & _ & evs2 & Hadd2 & HP2).
      destruct (monitoringLoop_iteration_spec w)
        as (w1' & metrics' & w2' & w' & F1 & F2 & E & Hm & evs & Hadd & _).
      assert (w1' = w1) by congruence. subst w1'.
      assert (metrics' = metrics /\ w2' = w2) as [-> ->]
        by (split; congruence).
      destruct (IH w') as (w'' & evs' & E' & Hact' & Hadd' & Hq').
      exists w'', (evs ++ evs'). split.
      { unfold bind. rewrite E. exact E'. }
      split.
      { rewrite Hact', Hm, Hm1. simpl. exact Hact. }
      split; [eapply added_trans; eauto|].
      intros alive. erewrite monitor_alive_app; [apply Hq'|].
      assert (Hevs : evs = evs1 ++ [ELock MetricsMutex] ++ evs2
                         ++ [EUnlock MetricsMutex; ELock MetricsMutex;
                             EUnlock MetricsMutex; ELock MetricsMutex;
                             EWaitFor MonitoringCV 1000;
                             EUnlock MetricsMutex]).
      { eapply added_inj; [exact Hadd|].
        unfold monitoringLoop_iteration, bind in E. rewrite E1 in E.
        unfold lock_guard at 1, bind, try_catch, emit at 1, this in E.
        simpl in E. unfold logged in E2. simpl in E2. rewrite E2 in E.
        unfold lock_guard, bind, try_catch, assign, bind, this, set_mgr, emit,
          ret in E. simpl in E. injection E as <-.
        unfold added in *. simpl in *. rewrite Hadd2. simpl. rewrite Hadd1.
        rewrite <- !app_assoc. reflexivity. }
      rewrite Hevs. apply monitor_alive_quiet.
      apply Forall_app. split.
      { eapply Forall_impl; [|exact HP1]. apply query_is_no_thread_event. }
      constructor; [exact I|]. apply Forall_app. split.
      { eapply Forall_impl; [|exact HP2]. apply query_is_no_thread_event. }
      repeat constructor.
    + exists w, []. repeat split; auto using added_refl.
Qed.

Lemma lifecycle_call_spec (c : Lifecycle) (w : World D) :
  exists w' evs,
    lifecycle_call c w = (Ok tt, w') /\
    added w w' evs /\
    monitor_alive (monitoringActive (mgr w)) evs
    = Some (monitoringActive (mgr w')).
Proof.
  destruct c as [intervalMs| |n|]; simpl.
  - unfold startMonitoring, stopMonitoring, bind, this.
    destruct (monitoringActive (mgr w)) eqn:Hact.
    + eexists.
      exists [ENotify MonitoringCV; EJoin MonitoringThread;
              ESpawn MonitoringThread].
      split; [reflexivity|]. split; [|reflexivity].
      unfold added. simpl. rewrite <- !app_assoc. reflexivity.
    + eexists. exists [ESpawn MonitoringThread].
      split; [reflexivity|]. split; reflexivity.
  - unfold stopMonitoring, bind, this.
    destruct (monitoringActive (mgr w)) eqn:Hact.
    + eexists. exists [ENotify MonitoringCV; EJoin MonitoringThread].
      split; [reflexivity|]. split; [|reflexivity].
      unfold added. simpl. rewrite <- !app_assoc. reflexivity.
    + exists w, []. split; [reflexivity|]. split; [apply added_refl|].
      simpl. now rewrite Hact.
  - destruct (monitoringLoop_keeps_thread n w)
      as (w' & evs & E & Hact & Hadd & Hq).
    exists w', evs. split; [exact E|]. split; [exact Hadd|].
    rewrite Hact. apply Hq.
  - unfold destructor, stopMonitoring, lock_guard, try_catch, assign, set_mgr,
      emit, driver_call, bind, this, ret.
    destruct (monitoringActive (mgr w)) eqn:Hact;
      cbn [mgr drv trace indet_metrics indet_info fst snd];
      destruct (nvmlShutdown (drv w)) as [[r u] d'].
    + eexists.
      exists [ENotify MonitoringCV; EJoin MonitoringThread; ELock TaskMutex;
              EUnlock TaskMutex; ENotify TaskCV; EJoin WorkerThread;
              EDriver CallShutdown r].
      split; [reflexivity|]. split; [|reflexivity].
      unfold added. simpl. rewrite <- !app_assoc. reflexivity.
    + eexists.
      exists [ELock TaskMutex; EUnlock TaskMutex; ENotify TaskCV;
              EJoin WorkerThread; EDriver CallShutdown r].
      split; [reflexivity|]. split.
      * unfold added. simpl. rewrite <- !app_assoc. reflexivity.
      * simpl. now rewrite Hact.
Qed.

Lemma lifecycle_spec (cs : list Lifecycle) (w : World D) :
  exists w' evs,
    lifecycle cs w = (Ok tt, w') /\
    added w w' evs /\
    monitor_alive (monitoringActive (mgr w)) evs
    = Some (monitoringActive (mgr w')).
Proof.
  revert w. induction cs as [|c cs IH]; intros w.
  - exists w, []. split; [reflexivity|]. split; [apply added_refl|reflexivity].
  - destruct (lifecycle_call_spec c w) as (w1 & evs & E & Hadd & Hq).
    destruct (IH w1) as (w' & evs' & E' & Hadd' & Hq').
    exists w', (evs ++ evs'). split.
    { simpl. unfold bind. rewrite E. exact E'. }
    split; [eapply added_trans; eauto|].
    erewrite monitor_alive_app; eauto.
Qed.

(** X7: at most one monitoring thread.  Started where a monitoring
    thread is live exactly when [monitoringActive] is set, as it is
    after construction, any sequence of [startMonitoring],
    [stopMonitoring], turns of the monitoring loop and the destructor
    returns without an exception, never spawns a monitoring thread
    while one is live, never joins one that is not, and leaves
    [monitoringActive] telling whether one is live. *)
Theorem monitoring_thread_never_doubled (cs : list Lifecycle) (w : World D) :
  let w' := snd (lifecycle cs w) in
  fst (lifecycle cs w) = Ok tt /\
  monitor_alive (monitoringActive (mgr w)) (events_since w w')
  = Some (monitoringActive (mgr w')).
Proof.
  destruct (lifecycle_spec cs w) as (w' & evs & E & Hadd & Hq).
  rewrite E. cbn [fst snd]. split; [reflexivity|].
  now rewrite (added_events_since _ _ _ Hadd).
Qed.

End MonitoringLifecycle.

Section Profiles.
Context {D : Type} `{DriverInterface D}.

Lemma combine_snoc {A B} (l : list A) (l' : list B) (x : A) (y : B) :
  List.length l = List.length l' ->
  combine (l ++ [x]) (l' ++ [y]) = combine l l' ++ [(x, y)].
Proof.
  revert l'. induction l as [|a l IH]; intros [|b l']; simpl;
    try discriminate; auto.
  intros [= Hl]. now rewrite IH.
Qed.

(** X8: the queries of [getAvailableProfiles].  For an index of the
    inventory the call leaves the manager as it was and queries the
    profile ids 0 to 7 in order, each followed by one query of the
    device name exactly when the profile query succeeded; the profiles
    returned carry, in order, the ids whose query succeeded. *)
Theorem getAvailableProfiles_queries_eight (deviceIndex : Z) (w : World D) :
  0 <= deviceIndex < Z.of_nat (List.length (devices (mgr w))) ->
  let w' := snd (getAvailableProfiles deviceIndex w) in
  let dev := at_index (devices (mgr w)) deviceIndex in
  exists (profiles : list MIGProfile)
         (answers : list (nvmlReturn_t * nvmlReturn_t)),
    fst (getAvailableProfiles deviceIndex w) = Ok profiles /\
    mgr w' = mgr w /\
    List.length answers = 8%nat /\
    events_since w w'
    = flat_map (profile_events dev) (combine (range 8) answers) /\
    List.map prof_profileId profiles
    = supported_ids (combine (range 8) answers).
Proof.
  intros Hi. cbv zeta.
  enough (Hwp : wp (getAvailableProfiles deviceIndex) w
            (fun res w' => exists profiles,
               res = Ok profiles /\
               profiles_inv (at_index (devices (mgr w)) deviceIndex) w
                            (range 8) profiles w')).
  { unfold wp in Hwp.
    destruct Hwp as (profiles & E & Hm & answers & Hlen & Hadd & Hids).
    exists profiles, answers. rewrite E.
    repeat split; auto. now apply added_events_since. }
  unfold getAvailableProfiles. apply wp_bind, wp_this.
  rewrite out_of_range_false by lia.
  eapply wp_mono.
  { apply (wp_for_each
             (profiles_inv (at_index (devices (mgr w)) deviceIndex) w))
      with (pre := []).
    - intros pre profileId acc w0 (Hm & answers & Hlen & Hadd & Hids).
      apply wp_bind, wp_driver_call. intros r info d1 _. cbv beta iota.
      destruct (r =? NVML_SUCCESS) eqn:Hr.
      + apply wp_bind, wp_driver_call. intros rn name d2 _. cbv beta iota.
        apply wp_ret. eexists. split; [reflexivity|].
        split; [exact Hm|]. exists (answers ++ [(r, rn)]).
        rewrite !length_app. simpl. split; [lia|].
        rewrite combine_snoc by (symmetry; exact Hlen).
        unfold supported_ids in *.
        rewrite flat_map_app, filter_app, !map_app, Hids. simpl.
        rewrite Hr. simpl. split; [|reflexivity].
        unfold added in *. simpl. rewrite Hadd, <- !app_assoc. reflexivity.
      + apply wp_ret. exists acc. split; [reflexivity|].
        split; [exact Hm|]. exists (answers ++ [(r, 0)]).
        rewrite !length_app. simpl. split; [lia|].
        rewrite combine_snoc by (symmetry; exact Hlen).
        unfold supported_ids in *.
        rewrite flat_map_app, filter_app, !map_app, Hids. simpl.
        rewrite Hr. simpl. split; [|now rewrite app_nil_r].
        unfold added in *. simpl. rewrite Hadd, <- !app_assoc. reflexivity.
    - split; [reflexivity|]. exists []. repeat split. apply added_refl. }
  intros res w' (acc & -> & Hinv). exists acc. split; [reflexivity|exact Hinv].
Qed.

End Profiles.

Section ReadsFrame.
Context {D : Type} `{DriverInterface D}.

Hint Resolve local_collectDeviceMetrics local_collect_all : mig.

Lemma local_getAvailableProfiles i : local is_query (getAvailableProfiles i).
Proof. unfold getAvailableProfiles. local_auto. Qed.

Lemma local_getDeviceName i : local is_query (getDeviceName i).
Proof. unfold getDeviceName. local_auto. Qed.

Lemma local_findMIGDeviceByUUID u :
  local (D:=D) is_query (findMIGDeviceByUUID u).
Proof. unfold findMIGDeviceByUUID. local_auto. Qed.

Lemma local_getMIGDeviceMetrics u : local is_query (getMIGDeviceMetrics u).
Proof. unfold getMIGDeviceMetrics. local_auto. Qed.

Lemma local_getAllMIGMetrics : local is_query getAllMIGMetrics.
Proof. unfold getAllMIGMetrics. local_auto. Qed.

Lemma local_getDeviceHandle i : local (D:=D) is_query (getDeviceHandle i).
Proof. unfold getDeviceHandle. local_auto. Qed.

Lemma local_getDeviceCount : local (D:=D) is_query getDeviceCount.
Proof. unfold getDeviceCount. local_auto. Qed.

Lemma local_keeps_manager {A} (c : M D A) (w : World D) :
  local is_query c -> mgr (snd (c w)) = mgr w.
Proof.
  intros Hc. destruct (Hc w) as (a & w' & E & Hm & _). now rewrite E.
Qed.

(** X9: reads leave the manager as it was.  The eight read operations
    that do not refresh leave every member of the manager unchanged;
    [getAllMIGDevices] and [getMIGDevices] change at most the
    registry. *)
Theorem reads_keep_manager (w : World D) (index : Z) (uuid : string) :
  mgr (snd (isMIGModeEnabled index w)) = mgr w /\
  mgr (snd (getAvailableProfiles index w)) = mgr w /\
  mgr (snd (findMIGDeviceByUUID uuid w)) = mgr w /\
  mgr (snd (getMIGDeviceMetrics uuid w)) = mgr w /\
  mgr (snd (getAllMIGMetrics w)) = mgr w /\
  mgr (snd (getDeviceCount w)) = mgr w /\
  mgr (snd (getDeviceHandle index w)) = mgr w /\
  mgr (snd (getDeviceName index w)) = mgr w /\
  (exists newDevices,
      mgr (snd (getAllMIGDevices w)) = set_migDevices newDevices (mgr w)) /\
  (exists newDevices,
      mgr (snd (getMIGDevices index w)) = set_migDevices newDevices (mgr w)).
Proof.
  repeat match goal with
         | |- mgr _ = _ /\ _ => split
         end;
    try (apply local_keeps_manager;
         auto using local_isMIGModeEnabled, local_getAvailableProfiles,
           local_findMIGDeviceByUUID, local_getMIGDeviceMetrics,
           local_getAllMIGMetrics, local_getDeviceCount, local_getDeviceHandle,
           local_getDeviceName).
  destruct (refreshMIGDevices_returns w) as (nd & w1 & E & Hm & _).
  split.
  - exists nd. unfold getAllMIGDevices, bind. rewrite E. simpl. exact Hm.
  - unfold getMIGDevices, bind at 1, this.
    destruct (out_of_range (devices (mgr w)) index).
    + exists (migDevices (mgr w)). simpl. now destruct (mgr w).
    + exists nd. unfold bind. rewrite E. simpl. exact Hm.
Qed.

End ReadsFrame.

Section Construction.
Context {D : Type} `{DriverInterface D}.

Lemma registry_isMIGModeEnabled (deviceIndex : Z) :
  local is_registry_query (isMIGModeEnabled deviceIndex).
Proof. unfold isMIGModeEnabled. local_auto. Qed.

Lemma registry_first_compute_instance dev instanceInfo ci ciInfo migInfo :
  local is_registry_query
    (refresh_first_compute_instance dev instanceInfo ci ciInfo migInfo).
Proof. unfold refresh_first_compute_instance. local_auto. Qed.

Hint Resolve registry_isMIGModeEnabled registry_first_compute_instance : mig.

Lemma registry_compute_instance dev instanceInfo jc migInfo :
  local is_registry_query (refresh_compute_instance dev instanceInfo jc migInfo).
Proof. unfold refresh_compute_instance. destruct jc. local_auto. Qed.

Hint Resolve registry_compute_instance : mig.

Lemma registry_declare : local (D:=D) is_registry_query declare_MIGDeviceInfo.
Proof.
  intros w. eexists _, w. split; [reflexivity | apply advances_refl].
Qed.

Hint Resolve registry_declare : mig.

Lemma registry_gpu_instance deviceIndex dev gi newDevices :
  local is_registry_query (refresh_gpu_instance deviceIndex dev gi newDevices).
Proof. unfold refresh_gpu_instance. local_auto. Qed.

Hint Resolve registry_gpu_instance : mig.

Lemma registry_device deviceIndex newDevices :
  local is_registry_query (refresh_device deviceIndex newDevices).
Proof. unfold refresh_device. local_auto. Qed.

(** A refresh pass makes registry queries only. *)
Lemma refresh_registry_queries (w : World D) :
  exists newDevices w' evs,
    refreshMIGDevices w = (Ok tt, w') /\
    mgr w' = set_migDevices newDevices (mgr w) /\
    added w w' evs /\ Forall is_registry_query evs.
Proof.
  destruct (local_for_each is_registry_query
              (range (List.length (devices (mgr w)))) refresh_device
              registry_device StdMap.empty w)
    as (nd & w1 & E & Hm & Hi & Hj & evs & Ht & HP).
  exists nd. eexists.
  exists (evs ++ [ELock MetricsMutex; EUnlock MetricsMutex]). split.
  - unfold refreshMIGDevices, bind, this. rewrite E.
    unfold publish, lock_guard, bind, try_catch, assign, bind, this,
      set_mgr, emit, ret. simpl. reflexivity.
  - simpl. rewrite Hm. repeat split.
    + unfold added in *. simpl. rewrite Ht, <- !app_assoc. reflexivity.
    + apply Forall_app. split; [exact HP | repeat constructor].
Qed.

(** The handle loop keeps the handles the driver gave, in index
    order. *)
Lemma handle_loop_answers (l : list Z) (w : World D) :
  exists w',
    for_each l acquire_handle tt w = (Ok tt, w') /\
    mgr w'
    = set_devices (devices (mgr w) ++ kept_handles (handle_answers l (drv w)))
                  (mgr w) /\
    List.length (handle_answers l (drv w)) = List.length l /\
    added w w' (answers_events l (handle_answers l (drv w))).
Proof.
  revert w. induction l as [|i l IH]; intros w.
  - exists w. simpl. split; [reflexivity|]. split.
    { unfold kept_handles. simpl. rewrite app_nil_r. now destruct (mgr w). }
    split; [reflexivity | apply added_refl].
  - simpl. unfold bind at 1, acquire_handle at 1, bind at 1, driver_call.
    destruct (nvmlDeviceGetHandleByIndex i (drv w)) as [[r h] d1] eqn:Ecall.
    cbv beta iota.
    destruct (r =? NVML_SUCCESS) eqn:Hr.
    + unfold assign, bind at 1, this, set_mgr.
      cbn [mgr drv trace indet_metrics indet_info].
      match goal with
      | |- context [for_each l acquire_handle tt ?W] =>
          destruct (IH W) as (w' & E & Hm & Hlen & Hadd)
      end.
      exists w'. rewrite E.
      cbn [mgr drv trace indet_metrics indet_info set_devices devices]
        in Hm, Hlen, Hadd.
      split; [reflexivity|]. split.
      { rewrite Hm. unfold kept_handles. simpl. rewrite Hr. simpl.
        rewrite <- app_assoc. reflexivity. }
      split; [simpl; now rewrite Hlen|].
      unfold added, answers_events in *. simpl in *.
      unfold handle_events at 1. simpl. rewrite Hr. simpl.
      rewrite Hadd, <- app_assoc. reflexivity.
    + unfold emit at 1.
      cbn [mgr drv trace indet_metrics indet_info].
      match goal with
      | |- context [for_each l acquire_handle tt ?W] =>
          destruct (IH W) as (w' & E & Hm & Hlen & Hadd)
      end.
      exists w'. rewrite E.
      cbn [mgr drv trace indet_metrics indet_info set_devices devices]
        in Hm, Hlen, Hadd.
      split; [reflexivity|]. split.
      { rewrite Hm. unfold kept_handles. simpl. rewrite Hr. reflexivity. }
      split; [simpl; now rewrite Hlen|].
      unfold added, answers_events in *. simpl in *.
      unfold handle_events at 1. simpl. rewrite Hr. simpl.
      rewrite Hadd, <- !app_assoc. reflexivity.
Qed.

Lemma constructor_wp (w : World D) : wp constructor w (constructor_post w).
Proof.
  unfold constructor. apply wp_bind, wp_assign.
  apply wp_bind, wp_driver_call. intros r0 [] d0 E0. cbv beta iota.
  cbn [drv with_mgr] in E0.
  destruct (r0 =? NVML_SUCCESS) eqn:Hr0; unfold negb; cbv beta iota.
  - apply wp_try_catch, wp_bind.
    unfold initializeDevices. apply wp_bind, wp_driver_call.
    intros r n d1 Ecount. cbn [drv] in Ecount. cbv beta iota.
    destruct (r =? NVML_SUCCESS) eqn:Hr; unfold negb; cbv beta iota.
    + apply wp_bind, wp_assign.
      apply wp_bind.
      match goal with
      | |- wp (for_each _ acquire_handle tt) ?W _ =>
          destruct (handle_loop_answers (range (Z.to_nat n)) W)
            as (w1 & E & Hm & Hlen & Hadd)
      end.
      cbn [mgr drv trace with_mgr] in Hm, Hlen, Hadd.
      unfold wp at 1. rewrite E. cbn [fst snd].
      destruct (refresh_registry_queries w1)
        as (nd & w2 & evs & E' & Hm' & Hadd' & HP).
      unfold wp at 1. rewrite E'. cbn [fst snd].
      apply wp_bind, wp_assign, wp_emit.
      exists r0, d0. split; [exact E0|]. rewrite Hr0.
      exists r, n, d1. split; [exact Ecount|]. rewrite Hr.
      cbv zeta. exists evs.
      cbn [mgr logged with_mgr]. rewrite Hm', Hm. cbn.
      split. { rewrite Hlen. unfold range. now rewrite length_map, length_seq. }
      repeat split; auto.
      apply added_events_since. unfold added in *.
      cbn [trace logged with_mgr] in *. rewrite Hadd', Hadd. cbn.
      rewrite <- !app_assoc. reflexivity.
    + apply wp_throw. apply wp_bind, wp_emit.
      apply wp_bind, wp_driver_call. intros rs [] ds _. apply wp_throw.
      exists r0, d0. split; [exact E0|]. rewrite Hr0.
      exists r, n, d1. split; [exact Ecount|]. rewrite Hr.
      exists rs. split; [reflexivity|]. split; [reflexivity|].
      apply added_events_since. unfold added. cbn.
      rewrite <- !app_assoc. reflexivity.
  - apply wp_bind, wp_emit, wp_throw.
    exists r0, d0. split; [exact E0|]. rewrite Hr0.
    split; [reflexivity|]. split; [reflexivity|].
    apply added_events_since. unfold added. cbn.
    rewrite <- !app_assoc. reflexivity.
Qed.

(** X10: the outcomes of construction.  If [nvmlInit] fails the
    constructor throws with "Failed to initialize NVML", having logged
    only that call and the message on the error stream.  If the device
    count cannot be read it throws with that status, having shut the
    driver down, and no worker is started.  Otherwise it returns with
    an inventory that holds, in index order, exactly the handles that
    the driver gave with a successful answer, asked once per index
    from the state the count query left; with an empty queue, an empty
    cache of metrics and no monitoring thread; and with the worker
    thread spawned last, after a refresh pass that adds registry
    queries and traffic on the metrics lock only. *)
Theorem constructor_outcomes (w : World D) :
  constructor_post w (fst (constructor w)) (snd (constructor w)).
Proof. exact (constructor_wp w). Qed.

End Construction.

Section TelemetryPlan.
Context {D : Type} `{DriverInterface D}.

Lemma insert_length {V} (k : string) (v : V) (m : StdMap.t V) :
  (List.length (StdMap.insert k v m) <= S (List.length m))%nat.
Proof.
  induction m as [|[k0 v0] m IH]; simpl; [lia|].
  destruct (String.compare k k0); simpl; lia.
Qed.

Lemma process_loop (procs : list nvmlProcessInfo_t) (m0 : MIGMetrics)
    (w0 : World D) :
  wp (for_each procs collect_process m0) w0
     (fun res w => exists acc, res = Ok acc /\
                               process_loop_inv m0 w0 procs acc w).
Proof.
  eapply wp_mono.
  { apply (wp_for_each (process_loop_inv m0 w0)) with (pre := []).
    - intros pre p acc w (Hm & Hts & Hok & Hlen & statuses & Hsl & Hadd).
      unfold collect_process.
      apply wp_bind, wp_driver_call. intros r name d1 _. cbv beta iota.
      apply wp_ret. eexists. split; [reflexivity|].
      unfold process_loop_inv, set_processUtilization.
      cbn [timestamp processUtilization mgr].
      refine (conj Hm (conj Hts (conj _ (conj _ _)))).
      + intros H0. specialize (Hok H0). apply Forall_forall.
        intros [k v] Hin. apply StdMap_In_insert in Hin.
        destruct Hin as [[= -> ->]|Hin].
        * split; simpl.
          -- destruct (String.eqb_spec name ""); [discriminate | assumption].
          -- unfold u32. apply Z.mod_pos_bound. lia.
        * rewrite Forall_forall in Hok. now apply Hok.
      + rewrite length_app. simpl.
        match goal with
        | |- (List.length (StdMap.insert ?k ?v ?m) <= _)%nat =>
            pose proof (insert_length k v m)
        end. lia.
      + exists (statuses ++ [r]). rewrite !length_app. simpl.
        split; [lia|].
        rewrite combine_snoc by (symmetry; exact Hsl).
        unfold name_queries in *. rewrite map_app. simpl.
        unfold added in *. simpl. rewrite Hadd, <- !app_assoc. reflexivity.
    - refine (conj eq_refl (conj eq_refl (conj (fun h => h) (conj _ _))));
        [simpl; lia | exists []; split; [reflexivity | apply added_refl]]. }
  intros res w (acc & -> & Hinv). eauto.
Qed.

Lemma collect_wp (device : MIGDeviceInfo) (w : World D) :
  wp (collectDeviceMetrics device) w (collect_post device w).
Proof.
  unfold collectDeviceMetrics.
  apply wp_bind. unfold wp at 1, declare_MIGMetrics. cbn [fst snd].
  apply wp_bind. unfold wp at 1, now. cbn [fst snd].
  apply wp_bind, wp_driver_call. intros r1 u d1 _. cbv beta iota.
  apply wp_bind, wp_driver_call. intros r2 mem d2 _. cbv beta iota.
  apply wp_bind, wp_this.
  apply wp_bind, wp_driver_call. intros r3 power d3 _. cbv beta iota.
  apply wp_bind, wp_driver_call. intros r4 temp d4 _. cbv beta iota.
  apply wp_bind, wp_driver_call. intros r5 procs d5 _. cbv beta iota.
  match goal with
  | |- wp (if _ then for_each _ _ ?m0 else _) ?W _ =>
      set (snapshot := m0); set (W5 := W)
  end.
  assert (Hts : timestamp snapshot = system_clock_now (drv w))
    by (subst snapshot;
        destruct (r4 =? NVML_SUCCESS), (r3 =? NVML_SUCCESS),
          (r2 =? NVML_SUCCESS), (r1 =? NVML_SUCCESS); reflexivity).
  assert (Hempty : processUtilization snapshot = StdMap.empty)
    by (subst snapshot;
        destruct (r4 =? NVML_SUCCESS), (r3 =? NVML_SUCCESS),
          (r2 =? NVML_SUCCESS), (r1 =? NVML_SUCCESS); reflexivity).
  clearbody snapshot.
  assert (HW5 : added w W5
                  (telemetry_queries (deviceHandle device)
                     (at_index (devices (mgr w)) (parentDeviceIndex device))
                     r1 r2 r3 r4 r5)).
  { unfold added, W5. cbn. rewrite <- !app_assoc. reflexivity. }
  destruct (r5 =? NVML_SUCCESS) eqn:Hr5; cbn [andb].
  - destruct (0 <? Z.of_nat (List.length procs)) eqn:Hn.
    + eapply wp_mono; [apply process_loop|].
      intros res w' (x & -> & Hm & Hx & Hok & Hlen & statuses & Hsl & Hadd).
      exists x, r1, r2, r3, r4, r5, (combine procs statuses).
      rewrite Hr5. split; [reflexivity|]. split; [rewrite Hm; reflexivity|].
      split; [congruence|]. split.
      { apply added_events_since. eapply added_trans; eauto. }
      split; [exact I|]. rewrite Hempty in *. split.
      * rewrite length_combine. simpl in Hlen. lia.
      * apply Hok. constructor.
    + apply wp_ret. exists snapshot, r1, r2, r3, r4, r5, [].
      rewrite Hr5. split; [reflexivity|]. split; [reflexivity|].
      split; [exact Hts|]. split.
      { apply added_events_since. unfold name_queries. cbn [List.map].
        rewrite app_nil_r. exact HW5. }
      rewrite Hempty. repeat split; auto.
  - apply wp_ret. exists snapshot, r1, r2, r3, r4, r5, [].
    rewrite Hr5. split; [reflexivity|]. split; [reflexivity|].
    split; [exact Hts|]. split.
    { apply added_events_since. unfold name_queries. cbn [List.map].
      rewrite app_nil_r. exact HW5. }
    rewrite Hempty. repeat split; auto.
Qed.

(** X11: the queries of a telemetry collection.  [collectDeviceMetrics]
    always returns, leaves the manager as it was, stamps the metrics
    with the clock read at the start, and makes five queries in a
    fixed order: utilization and memory of the partition, power and
    temperature of the parent device, and the running processes;
    process names are queried only when the last one succeeded.  The
    per-process table has at most one entry per name query, every name
    in it is non-empty, and every value fits an [unsigned int]. *)
Theorem collectDeviceMetrics_query_plan (device : MIGDeviceInfo) (w : World D) :
  collect_post device w (fst (collectDeviceMetrics device w))
               (snd (collectDeviceMetrics device w)).
Proof. exact (collect_wp device w). Qed.

End TelemetryPlan.

(* ================================================================== *)
(** ** Properties of the accounting class *)
(* ================================================================== *)

Section AccountingLaws.

Import Accounting.

Context {D : Type} `{Driver D}.

Lemma extends_refl (w : World D) : extends w w [].
Proof. unfold extends. now rewrite app_nil_r. Qed.

Lemma extends_trans (w1 w2 w3 : World D) (e1 e2 : list Event) :
  extends w1 w2 e1 -> extends w2 w3 e2 -> extends w1 w3 (e1 ++ e2).
Proof.
  intros (S1 & I1 & T1) (S2 & I2 & T2). unfold extends.
  rewrite S2, I2, T2, T1, app_assoc. auto.
Qed.

Lemma extends_events_since (w w' : World D) (evs : list Event) :
  extends w w' evs -> events_since w w' = evs.
Proof.
  intros (_ & _ & T). unfold events_since. rewrite T.
  rewrite skipn_app, skipn_all, Nat.sub_diag. reflexivity.
Qed.

Lemma quiet_refl (w : World D) : quiet w w.
Proof. exists []. split; [apply extends_refl | constructor]. Qed.

Lemma quiet_trans (w1 w2 w3 : World D) : quiet w1 w2 -> quiet w2 w3 -> quiet w1 w3.
Proof.
  intros (e1 & X1 & F1) (e2 & X2 & F2). exists (e1 ++ e2).
  split; [eapply extends_trans; eauto | now apply Forall_app].
Qed.

Lemma quiet_self (w w' : World D) : quiet w w' -> self w' = self w.
Proof. now intros (evs & (S & _) & _). Qed.

Lemma driver_call_extends {R} (c : Call) (f : D -> nvmlReturn_t * R * D)
    (w : World D) r v w' :
  driver_call c f w = (r, v, w') ->
  extends w w' [EDriver c r] /\ f (drv w) = (r, v, drv w').
Proof.
  unfold driver_call. destruct (f (drv w)) as [[r0 v0] d'].
  intros [= <- <- <-]. repeat split.
Qed.

Lemma extends_quiet (w w' : World D) c r :
  extends w w' [EDriver c r] -> quiet w w'.
Proof. intros X. exists [EDriver c r]. split; [exact X|]. now repeat constructor. Qed.

Ltac call r v w1 E :=
  match goal with
  | |- context [driver_call ?c ?f ?w] =>
      destruct (driver_call c f w) as [[r v] w1] eqn:E;
      apply driver_call_extends in E; destruct E as [E ?]
  end.

Lemma isAccountingEnabled_extends (i : Z) (w : World D) :
  out_of_range (devices (self w)) i = false ->
  exists r,
    extends w (snd (isAccountingEnabled i w))
            [EDriver (CallDeviceGetAccountingMode (at_index (devices (self w)) i)) r].
Proof.
  intros Hi. unfold isAccountingEnabled. rewrite Hi.
  call r mode w1 E. exists r. exact E.
Qed.

Lemma isAccountingEnabled_quiet (i : Z) (w : World D) :
  quiet w (snd (isAccountingEnabled i w)).
Proof.
  destruct (out_of_range (devices (self w)) i) eqn:Hi.
  - unfold isAccountingEnabled. rewrite Hi. apply quiet_refl.
  - destruct (isAccountingEnabled_extends i w Hi) as (r & X).
    eapply extends_quiet; eauto.
Qed.

Lemma disableAccounting_quiet (i : Z) (w : World D) :
  quiet w (snd (disableAccounting i w)).
Proof.
  unfold disableAccounting.
  destruct (out_of_range (devices (self w)) i); [apply quiet_refl|].
  call r u w1 E. eapply extends_quiet; eauto.
Qed.

Lemma getAccountingBufferSize_quiet (i : Z) (w : World D) :
  quiet w (snd (getAccountingBufferSize i w)).
Proof.
  unfold getAccountingBufferSize.
  destruct (out_of_range (devices (self w)) i); [apply quiet_refl|].
  call r u w1 E. eapply extends_quiet; eauto.
Qed.

Lemma clearAccountingPids_quiet (i : Z) (w : World D) :
  quiet w (snd (clearAccountingPids i w)).
Proof.
  unfold clearAccountingPids.
  destruct (out_of_range (devices (self w)) i); [apply quiet_refl|].
  call r u w1 E. eapply extends_quiet; eauto.
Qed.

Lemma stats_queries_app (a b : list Event) :
  stats_queries_of (a ++ b) = stats_queries_of a ++ stats_queries_of b.
Proof. unfold stats_queries_of. apply flat_map_app. Qed.

(** One turn of the loop over the pids. *)
Lemma running_process_spec (device : nvmlDevice_t) (p : Z)
    (acc : list ProcessAccountingStats) (w : World D) :
  exists r evs,
    extends w (snd (running_process device p acc w)) evs /\
    Forall is_driver_event evs /\
    stats_queries_of evs = [(p, r)] /\
    (if r =? NVML_SUCCESS
     then exists x, fst (running_process device p acc w) = acc ++ [x] /\
                    pid x = p /\ samples x = []
     else fst (running_process device p acc w) = acc).
Proof.
  unfold running_process. call r stats w1 E. exists r.
  destruct (r =? NVML_SUCCESS) eqn:Hr.
  - call r' name w2 E'. eexists. split; [eapply extends_trans; eauto|].
    split; [now repeat constructor|]. split; [reflexivity|].
    eexists. split; [reflexivity|]. destruct (r' =? NVML_SUCCESS); auto.
  - eexists. split; [exact E|]. split; [now repeat constructor|].
    split; reflexivity.
Qed.

Lemma running_loop (device : nvmlDevice_t) (pids : list Z) :
  forall (acc : list ProcessAccountingStats) (w : World D),
  exists evs,
    extends w (snd (for_each pids (running_process device) acc w)) evs /\
    Forall is_driver_event evs /\
    List.map fst (stats_queries_of evs) = pids /\
    List.map pid (fst (for_each pids (running_process device) acc w))
    = List.map pid acc ++ List.map fst (filter succeeded (stats_queries_of evs)) /\
    (Forall (fun x => samples x = []) acc ->
     Forall (fun x => samples x = [])
            (fst (for_each pids (running_process device) acc w))).
Proof.
  induction pids as [|p pids IH]; intros acc w; simpl.
  - exists []. split; [apply extends_refl|]. split; [constructor|].
    split; [reflexivity|]. split; [now rewrite app_nil_r | auto].
  - destruct (running_process_spec device p acc w) as (r & e1 & X1 & F1 & Q1 & Hres).
    destruct (running_process device p acc w) as [acc1 w1]. cbn [fst snd] in *.
    destruct (IH acc1 w1) as (e2 & X2 & F2 & Q2 & Hpids & Hs).
    exists (e1 ++ e2). split; [eapply extends_trans; eauto|].
    split; [now apply Forall_app|].
    rewrite stats_queries_app, Q1. cbn [app List.map fst filter].
    split; [now rewrite Q2|]. unfold succeeded at 1. cbn [snd].
    destruct (r =? NVML_SUCCESS).
    + destruct Hres as (x & -> & Hp & Hx). split.
      * rewrite Hpids, map_app. cbn [List.map]. rewrite Hp, <- app_assoc.
        reflexivity.
      * intros Hacc. apply Hs. apply Forall_app. auto.
    + subst acc1. auto.
Qed.

Lemma write_buffer_length (written buffer : list Z) :
  List.length (write_buffer written buffer) = List.length buffer.
Proof.
  unfold write_buffer. rewrite firstn_length_le; [reflexivity|].
  rewrite length_app, length_map, length_skipn. lia.
Qed.

(** What a listing of the running processes leaves behind. *)
Lemma getRunningProcessStats_spec (i : Z) (w : World D) :
  out_of_range (devices (self w)) i = false ->
  exists evs,
    extends w (snd (getRunningProcessStats i w)) evs /\
    Forall is_driver_event evs /\
    List.map pid (fst (getRunningProcessStats i w))
    = List.map fst (filter succeeded (stats_queries_of evs)) /\
    Forall (fun x => samples x = []) (fst (getRunningProcessStats i w)) /\
    (stats_queries_of evs = [] \/
     List.length (stats_queries_of evs) = Z.to_nat (sizing_count i w)).
Proof.
  intros Hi. unfold sizing_count, getRunningProcessStats. rewrite Hi.
  destruct (isAccountingEnabled_extends i w Hi) as (r & X1).
  destruct (isAccountingEnabled i w) as [enabled w1]. cbn [fst snd] in *.
  assert (Hs : self w1 = self w) by apply X1. rewrite Hs.
  destruct enabled; cbn [negb].
  2:{ eexists. split; [exact X1|]. split; [now repeat constructor|]. 
      cbn. auto. }
  call r0 sized w2 E0. destruct sized as [count ignored].
  match goal with H0 : _ = (r0, _, _) |- _ => rewrite H0 end. cbn [fst snd].
  destruct (u32 count =? 0) eqn:Hc.
  { eexists. split; [eapply extends_trans; eauto|].
    split; [now repeat constructor|]. cbn. auto. }
  call r1 filled w3 E1. destruct filled as [count' written].
  destruct (r1 =? NVML_SUCCESS) eqn:Hr1; cbn [negb].
  2:{ eexists. split; [eapply extends_trans; [eapply extends_trans|]; eauto|].
      split; [now repeat constructor|]. cbn. auto. }
  match goal with
  | |- context [for_each ?pids (running_process ?dev) [] w3] =>
      destruct (running_loop dev pids [] w3) as (evs & X & F & Q & Hp & Hsm);
      assert (Hlen : List.length pids = Z.to_nat (u32 count))
        by (rewrite write_buffer_length; apply repeat_length)
  end.
  eexists. split.
  { eapply extends_trans; [eapply extends_trans; [eapply extends_trans|]|]; eauto. }
  split; [repeat (apply Forall_cons; [exact I|]); exact F|].
  rewrite !stats_queries_app. cbn [stats_queries_of flat_map app].
  split; [exact Hp|]. split; [apply Hsm; constructor|]. right.
  rewrite <- Hlen, <- Q. now rewrite length_map.
Qed.

Lemma getRunningProcessStats_quiet (i : Z) (w : World D) :
  quiet w (snd (getRunningProcessStats i w)).
Proof.
  destruct (out_of_range (devices (self w)) i) eqn:Hi.
  - unfold getRunningProcessStats. rewrite Hi. apply quiet_refl.
  - destruct (getRunningProcessStats_spec i w Hi) as (evs & X & F & _).
    exists evs. auto.
Qed.

Lemma getProcessAccountingStats_spec (i p : Z) (w : World D) :
  exists evs,
    extends w (snd (getProcessAccountingStats i p w)) evs /\
    Forall is_driver_event evs /\
    pid (fst (getProcessAccountingStats i p w)) = p /\
    samples (fst (getProcessAccountingStats i p w)) = [] /\
    (stats_queries_of evs = [] \/ exists r, stats_queries_of evs = [(p, r)]) /\
    (filter succeeded (stats_queries_of evs) = [] ->
     fst (getProcessAccountingStats i p w)
     = set_pid p (declare_ProcessAccountingStats w)).
Proof.
  unfold getProcessAccountingStats.
  destruct (out_of_range (devices (self w)) i) eqn:Hi.
  { exists []. split; [apply extends_refl|]. split; [constructor|]. cbn. auto. }
  destruct (isAccountingEnabled_extends i w Hi) as (r & X1).
  destruct (isAccountingEnabled i w) as [enabled w1]. cbn [fst snd] in *.
  destruct enabled; cbn [negb].
  2:{ eexists. split; [exact X1|]. split; [now repeat constructor|]. cbn. auto. }
  call r0 stats w2 E0.
  destruct (r0 =? NVML_SUCCESS) eqn:Hr0.
  - call r1 name w3 E1.
    destruct (r1 =? NVML_SUCCESS); cbn [fst snd];
      (eexists; split; [eapply extends_trans; [eapply extends_trans|]; eauto|];
       split; [now repeat constructor|]; cbn [app stats_queries_of flat_map];
       unfold succeeded; cbn [filter snd]; rewrite Hr0;
       split; [reflexivity|]; split; [reflexivity|];
       split; [right; eexists; reflexivity | discriminate]).
  - eexists. split; [eapply extends_trans; eauto|].
    split; [now repeat constructor|]. cbn. eauto 6.
Qed.

Lemma getProcessAccountingStats_quiet (i p : Z) (w : World D) :
  quiet w (snd (getProcessAccountingStats i p w)).
Proof.
  destruct (getProcessAccountingStats_spec i p w) as (evs & X & F & _).
  exists evs. auto.
Qed.

(** Keys of the map of all statistics. *)
Lemma assign_at_last (k : Z) (v : list ProcessAccountingStats) (m : AllStats) :
  Forall (fun kv => fst kv < k) m -> assign_at k v m = m ++ [(k, v)].
Proof.
  induction m as [|[k0 v0] m IH]; simpl; intros Hall; [reflexivity|].
  inversion Hall as [|x l Hk Hrest]; subst. simpl in Hk.
  rewrite (proj2 (Z.compare_gt_iff k k0)) by lia. now rewrite IH.
Qed.

Lemma device_stats_spec (i : Z) (acc : AllStats) (w : World D) :
  quiet w (snd (device_stats i acc w)) /\
  (fst (device_stats i acc w) = acc \/
   exists v, fst (device_stats i acc w) = assign_at (u32 i) v acc).
Proof.
  unfold device_stats.
  pose proof (isAccountingEnabled_quiet (u32 i) w) as Q1.
  destruct (isAccountingEnabled (u32 i) w) as [enabled w1]. cbn [snd] in Q1.
  destruct enabled; [|auto].
  pose proof (getRunningProcessStats_quiet (u32 i) w1) as Q2.
  destruct (getRunningProcessStats (u32 i) w1) as [stats w2]. cbn [fst snd] in *.
  split; [eapply quiet_trans; eauto | eauto].
Qed.

Lemma device_loop_keys (len : nat) :
  forall (a : nat) (acc : AllStats) (w : World D),
  Z.of_nat (a + len) <= 2 ^ 32 ->
  keys_below (Z.of_nat a) acc ->
  quiet w (snd (for_each (List.map Z.of_nat (seq a len)) device_stats acc w)) /\
  keys_below (Z.of_nat (a + len))
             (fst (for_each (List.map Z.of_nat (seq a len)) device_stats acc w)).
Proof.
  induction len as [|len IH]; intros a acc w Hb Hk; simpl.
  - split; [apply quiet_refl|]. now rewrite Nat.add_0_r.
  - destruct (device_stats_spec (Z.of_nat a) acc w) as (Q & Hacc).
    destruct (device_stats (Z.of_nat a) acc w) as [acc1 w1]. cbn [fst snd] in *.
    destruct (IH (S a) acc1 w1) as (Q' & Hk'); [lia| |].
    + destruct Hk as (Hs & Hall). destruct Hacc as [->|(v & ->)].
      * split; [exact Hs|]. eapply Forall_impl; [|exact Hall].
        cbv beta. lia.
      * assert (Hu : u32 (Z.of_nat a) = Z.of_nat a)
          by (unfold u32; apply Z.mod_small; lia).
        rewrite Hu, assign_at_last
          by (eapply Forall_impl; [|exact Hall]; cbv beta; lia).
        split.
        -- rewrite map_app. simpl.
           clear - Hs Hall. induction acc as [|[k0 v0] acc IHa]; simpl.
           ++ repeat constructor.
           ++ inversion Hs; inversion Hall; subst. constructor; [auto|].
              apply Forall_app. split; [assumption|].
              constructor; [simpl in *; lia | constructor].
        -- apply Forall_app. split.
           ++ eapply Forall_impl; [|exact Hall]. cbv beta. lia.
           ++ constructor; [simpl; lia | constructor].
    + split; [eapply quiet_trans; eauto|].
      now replace (a + S len)%nat with (S a + len)%nat by lia.
Qed.

Lemma getAllDeviceAccountingStats_quiet_any (l : list Z) :
  forall (acc : AllStats) (w : World D),
  quiet w (snd (for_each l device_stats acc w)).
Proof.
  induction l as [|i l IH]; intros acc w; simpl; [apply quiet_refl|].
  destruct (device_stats_spec i acc w) as (Q & _).
  destruct (device_stats i acc w) as [acc1 w1]. cbn [snd] in Q.
  eapply quiet_trans; eauto.
Qed.

Lemma getAllDeviceAccountingStats_quiet (w : World D) :
  quiet w (snd (getAllDeviceAccountingStats w)).
Proof. apply getAllDeviceAccountingStats_quiet_any. Qed.

Lemma sleeps_app (a b : list Event) :
  sleeps_of (a ++ b) = sleeps_of a ++ sleeps_of b.
Proof. unfold sleeps_of. apply flat_map_app. Qed.

Lemma driver_events_collect (callback : option Callback) (evs : list Event) :
  Forall is_driver_event evs ->
  Forall (is_collection_event callback) evs /\ sleeps_of evs = [].
Proof.
  induction 1 as [|e evs He _ [IH1 IH2]]; [split; constructor|].
  destruct e; try contradiction. split; [now constructor | exact IH2].
Qed.

Lemma emit_extends (e : Event) (w : World D) : extends w (emit e w) [e].
Proof. repeat split. Qed.

Lemma collection_pass_spec (s : Z) (callback : option Callback) (w : World D) :
  collecting callback w (collection_pass s callback w) [s].
Proof.
  unfold collection_pass.
  destruct (getAllDeviceAccountingStats_quiet w) as (e1 & X1 & F1).
  destruct (getAllDeviceAccountingStats w) as [stats w1]. cbn [snd] in X1.
  destruct (driver_events_collect callback e1 F1) as (C1 & S1).
  destruct callback as [cb|]; [destruct stats as [|kv stats]|].
  - exists (e1 ++ [ESleep s]).
    split; [eapply extends_trans; [exact X1 | apply emit_extends]|].
    split; [apply Forall_app; split; [exact C1 | now repeat constructor]|].
    now rewrite sleeps_app, S1.
  - exists ((e1 ++ [ECallback cb (kv :: stats)]) ++ [ESleep s]).
    split; [eapply extends_trans; [eapply extends_trans;
              [exact X1 | apply emit_extends] | apply emit_extends]|].
    split.
    + repeat (apply Forall_app; split); auto; repeat constructor. discriminate.
    + now rewrite !sleeps_app, S1.
  - exists (e1 ++ [ESleep s]).
    split; [eapply extends_trans; [exact X1 | apply emit_extends]|].
    split; [apply Forall_app; split; [exact C1 | now repeat constructor]|].
    now rewrite sleeps_app, S1.
Qed.

Lemma collecting_trans (callback : option Callback) (w1 w2 w3 : World D) s1 s2 :
  collecting callback w1 w2 s1 -> collecting callback w2 w3 s2 ->
  collecting callback w1 w3 (s1 ++ s2).
Proof.
  intros (e1 & X1 & F1 & S1) (e2 & X2 & F2 & S2). exists (e1 ++ e2).
  split; [eapply extends_trans; eauto|]. split; [now apply Forall_app|].
  now rewrite sleeps_app, S1, S2.
Qed.

Lemma collection_runs (passes : nat) (s : Z) (callback : option Callback) :
  forall w : World D,
  accountingEnabled (self w) = true ->
  fst (startPeriodicCollection passes s callback w) = false /\
  collecting callback w (snd (startPeriodicCollection passes s callback w))
             (repeat s passes).
Proof.
  induction passes as [|n IH]; intros w Hen; simpl.
  - split; [reflexivity|]. exists []. split; [apply extends_refl|].
    split; [constructor | reflexivity].
  - rewrite Hen. pose proof (collection_pass_spec s callback w) as C.
    assert (Hen' : accountingEnabled (self (collection_pass s callback w)) = true).
    { destruct C as (evs & (Hs & _) & _). now rewrite Hs. }
    destruct (IH _ Hen') as (Hf & C'). split; [exact Hf|].
    exact (collecting_trans _ _ _ _ _ _ C C').
Qed.

Lemma collection_self (passes : nat) (s : Z) (callback : option Callback)
    (w : World D) :
  self (snd (startPeriodicCollection passes s callback w)) = self w.
Proof.
  destruct (accountingEnabled (self w)) eqn:Hen.
  - destruct (collection_runs passes s callback w Hen) as (_ & evs & (Hs & _) & _).
    exact Hs.
  - destruct passes; simpl; [reflexivity|]. now rewrite Hen.
Qed.

(** The flag. *)
Lemma enableAccounting_flag (i : Z) (w : World D) :
  devices (self (snd (enableAccounting i w))) = devices (self w) /\
  accountingEnabled (self (snd (enableAccounting i w)))
  = accountingEnabled (self w) || fst (enableAccounting i w).
Proof.
  unfold enableAccounting.
  destruct (out_of_range (devices (self w)) i).
  { cbn. now rewrite orb_false_r. }
  call r u w1 E. destruct E as (Hs & _).
  destruct (r =? NVML_SUCCESS); cbn; rewrite Hs.
  - now rewrite orb_true_r.
  - now rewrite orb_false_r.
Qed.

Lemma serve_flag (q : Request) (w : World D) :
  devices (self (snd (serve q w))) = devices (self w) /\
  accountingEnabled (self (snd (serve q w)))
  = accountingEnabled (self w) || fst (serve q w).
Proof.
  assert (Q : forall w' : World D, self w' = self w ->
              devices (self w') = devices (self w) /\
              accountingEnabled (self w') = accountingEnabled (self w) || false).
  { intros w' ->. now rewrite orb_false_r. }
  destruct q; cbn [serve fst snd];
    [ apply enableAccounting_flag | apply Q, quiet_self .. | apply Q ].
  - apply disableAccounting_quiet.
  - apply isAccountingEnabled_quiet.
  - apply getRunningProcessStats_quiet.
  - apply getProcessAccountingStats_quiet.
  - apply getAccountingBufferSize_quiet.
  - apply clearAccountingPids_quiet.
  - apply getAllDeviceAccountingStats_quiet.
  - apply collection_self.
Qed.

(** X12: the flag that keeps the collection thread alive is only ever
    set.  Over any sequence of calls on the object the device list
    stays as constructed, and [accountingEnabled] holds afterwards
    exactly when it held before or some [enableAccounting] returned
    [true]: no call clears it, [disableAccounting] included. *)
Theorem accountingEnabled_only_set (qs : list Request) (w : World D) :
  devices (self (snd (serve_all qs w))) = devices (self w) /\
  accountingEnabled (self (snd (serve_all qs w)))
  = accountingEnabled (self w) || fst (serve_all qs w).
Proof.
  revert w. induction qs as [|q qs IH]; intros w; simpl.
  - now rewrite orb_false_r.
  - destruct (serve_flag q w) as (Hd & Hf).
    destruct (serve q w) as [b w1]. cbn [fst snd] in *.
    destruct (IH w1) as (Hd' & Hf').
    destruct (serve_all qs w1) as [b' w2]. cbn [fst snd] in *.
    rewrite Hd', Hd, Hf', Hf, orb_assoc. auto.
Qed.

(** X13: an index past the device list.  Every member function of
    [NVMLAccounting] that takes an index answers with its default
    ([false], [0], an empty vector, a structure that only has its
    [pid] set) and leaves the object, the driver and the log as they
    are. *)
Theorem accounting_index_out_of_range (i p : Z) (w : World D) :
  Z.of_nat (List.length (devices (self w))) <= i ->
  enableAccounting i w = (false, w) /\
  disableAccounting i w = (false, w) /\
  isAccountingEnabled i w = (false, w) /\
  getRunningProcessStats i w = ([], w) /\
  getProcessAccountingStats i p w
  = (set_pid p (declare_ProcessAccountingStats w), w) /\
  getAccountingBufferSize i w = (0, w) /\
  clearAccountingPids i w = (false, w).
Proof.
  intros Hi.
  assert (Ho : out_of_range (devices (self w)) i = true)
    by (unfold out_of_range; now apply Z.leb_le).
  unfold enableAccounting, disableAccounting, isAccountingEnabled,
    getRunningProcessStats, getProcessAccountingStats,
    getAccountingBufferSize, clearAccountingPids.
  rewrite Ho. repeat split.
Qed.

(** X14: the listing of the running processes.  For an index of the
    device list the object is left as it is; the entries returned are,
    in order, the processes whose statistics query succeeded, each
    without samples; and when statistics are queried at all, their
    number is the size that the sizing call reported, whatever the
    filling call reports. *)
Theorem getRunningProcessStats_follows_sizing_call (i : Z) (w : World D) :
  0 <= i < Z.of_nat (List.length (devices (self w))) ->
  let res := fst (getRunningProcessStats i w) in
  let w' := snd (getRunningProcessStats i w) in
  let asked := stats_queries_of (events_since w w') in
  self w' = self w /\
  List.map pid res = List.map fst (filter succeeded asked) /\
  Forall (fun x => samples x = []) res /\
  (asked = [] \/ List.length asked = Z.to_nat (sizing_count i w)).
Proof.
  intros Hi.
  assert (Ho : out_of_range (devices (self w)) i = false)
    by (unfold out_of_range; apply Z.leb_gt; lia).
  destruct (getRunningProcessStats_spec i w Ho) as (evs & X & F & Hp & Hs & Hn).
  cbv zeta. rewrite (extends_events_since _ _ _ X).
  split; [apply X|]. auto.
Qed.

(** X15: the statistics of one process.  The structure returned always
    carries the [pid] asked for and no samples; at most one statistics
    query is made, for that [pid]; and unless that query succeeded,
    the other scalar members are what the declaration left in them and
    the name is empty. *)
Theorem getProcessAccountingStats_unset_on_failure (i p : Z) (w : World D) :
  let res := fst (getProcessAccountingStats i p w) in
  let w' := snd (getProcessAccountingStats i p w) in
  let asked := stats_queries_of (events_since w w') in
  self w' = self w /\
  pid res = p /\ samples res = [] /\
  (asked = [] \/ exists r, asked = [(p, r)]) /\
  (filter succeeded asked = [] ->
   res = set_pid p (declare_ProcessAccountingStats w)).
Proof.
  destruct (getProcessAccountingStats_spec i p w)
    as (evs & X & F & Hp & Hs & Hq & Hu).
  cbv zeta. rewrite (extends_events_since _ _ _ X).
  split; [apply X|]. auto.
Qed.

(** X16: the map of all statistics.  With at most 2^32 devices, the
    keys of the map that [getAllDeviceAccountingStats] returns are
    strictly ascending indices of the device list, and collecting it
    leaves the object as it is and only talks to the driver. *)
Theorem getAllDeviceAccountingStats_keys (w : World D) :
  Z.of_nat (List.length (devices (self w))) <= 2 ^ 32 ->
  let all := fst (getAllDeviceAccountingStats w) in
  let w' := snd (getAllDeviceAccountingStats w) in
  self w' = self w /\
  Forall is_driver_event (events_since w w') /\
  StronglySorted Z.lt (List.map fst all) /\
  Forall (fun kv => 0 <= fst kv < Z.of_nat (List.length (devices (self w)))) all.
Proof.
  intros Hb. unfold getAllDeviceAccountingStats, range.
  destruct (device_loop_keys (List.length (devices (self w))) 0 [] w)
    as ((evs & X & F) & Hs & Hall).
  - simpl. exact Hb.
  - split; constructor.
  - cbv zeta. rewrite (extends_events_since _ _ _ X).
    split; [apply X|]. auto.
Qed.


End AccountingLaws.

(* ================================================================== *)
(** ** The further properties on concrete fleets *)
(* ================================================================== *)

(** The in-memory driver lists at most one compute instance. *)
Lemma fake_lists_fit (gi : nvmlGpuInstance_t) (d : Fake.Driver) :
  Z.of_nat (List.length
              (snd (fst (nvmlGpuInstanceGetComputeInstances gi d))))
  < 2 ^ 32.
Proof.
  simpl. unfold Fake.answer.
  destruct (Fake.by_gpuInstance d gi); simpl; lia.
Qed.

(** X1, on the reference fleet. *)
Lemma refresh_registry_keyed_by_uuid_witness :
  Z.of_nat (List.length (devices (mgr (Fake.started Fake.fleet)))) <= 2 ^ 32 /\
  (forall gi d,
      Z.of_nat (List.length
                  (snd (fst (nvmlGpuInstanceGetComputeInstances
                               (D:=Fake.Driver) gi d))))
      < 2 ^ 32) /\
  ascending (migDevices (mgr (snd (refreshMIGDevices (Fake.started Fake.fleet))))).
Proof.
  assert (Hb : Z.of_nat (List.length (devices (mgr (Fake.started Fake.fleet))))
               <= 2 ^ 32) by (vm_compute; discriminate).
  split; [exact Hb|]. split; [exact fake_lists_fit|].
  exact (proj1 (refresh_registry_keyed_by_uuid (Fake.started Fake.fleet) Hb
                  fake_lists_fit)).
Defined.

(** X4, on the second device of the reference fleet. *)
Lemma getMIGDevices_of_parent_witness :
  0 <= 1 < Z.of_nat (List.length (devices (mgr (Fake.started Fake.fleet)))) /\
  NoDup (List.map uuid
           match fst (getMIGDevices 1 (Fake.started Fake.fleet)) with
           | Ok l => l
           | Throw _ => []
           end).
Proof.
  assert (Hi : 0 <= 1 < Z.of_nat (List.length
                                    (devices (mgr (Fake.started Fake.fleet)))))
    by (vm_compute; split; [discriminate | reflexivity]).
  split; [exact Hi|].
  exact (proj1 (proj2 (getMIGDevices_of_parent (Fake.started Fake.fleet) 1 Hi))).
Defined.

(** X5, on the second device of the reference fleet. *)
Lemma synchronous_mode_change_witness :
  0 <= 1 < Z.of_nat (List.length (devices (mgr (Fake.started Fake.fleet)))) /\
  sync_outcome enableMIGMode NVML_ENABLE_MIG "MIG 모드 활성화 성공" 1 (Some (returning 7))
               (Fake.started Fake.fleet) /\
  sync_outcome disableMIGMode NVML_DISABLE_MIG "MIG 모드 비활성화 성공" 1
               (Some (returning 7)) (Fake.started Fake.fleet).
Proof.
  assert (Hi : 0 <= 1 < Z.of_nat (List.length
                                    (devices (mgr (Fake.started Fake.fleet)))))
    by (vm_compute; split; [discriminate | reflexivity]).
  split; [exact Hi|].
  exact (synchronous_mode_change 1 (Some (returning 7)) (Fake.started Fake.fleet) Hi).
Defined.

(** X6, on the second device of the reference fleet. *)
Lemma asynchronous_mode_change_witness :
  0 <= 1 < Z.of_nat (List.length (devices (mgr (Fake.started Fake.fleet)))) /\
  async_outcome enableMIGMode (TaskEnableMIG 1) 1 (Some (returning 7))
                (Fake.started Fake.fleet) /\
  async_outcome disableMIGMode (TaskDisableMIG 1) 1 (Some (returning 7))
                (Fake.started Fake.fleet).
Proof.
  assert (Hi : 0 <= 1 < Z.of_nat (List.length
                                    (devices (mgr (Fake.started Fake.fleet)))))
    by (vm_compute; split; [discriminate | reflexivity]).
  split; [exact Hi|].
  exact (asynchronous_mode_change 1 (Some (returning 7)) (Fake.started Fake.fleet) Hi).
Defined.

(** X8, on the first device of the reference fleet. *)
Lemma getAvailableProfiles_queries_eight_witness :
  0 <= 0 < Z.of_nat (List.length (devices (mgr (Fake.started Fake.fleet)))) /\
  exists (profiles : list MIGProfile)
         (answers : list (nvmlReturn_t * nvmlReturn_t)),
    fst (getAvailableProfiles 0 (Fake.started Fake.fleet)) = Ok profiles /\
    mgr (snd (getAvailableProfiles 0 (Fake.started Fake.fleet)))
    = mgr (Fake.started Fake.fleet) /\
    List.length answers = 8%nat /\
    events_since (Fake.started Fake.fleet)
                 (snd (getAvailableProfiles 0 (Fake.started Fake.fleet)))
    = flat_map (profile_events
                  (at_index (devices (mgr (Fake.started Fake.fleet))) 0))
               (combine (range 8) answers) /\
    List.map prof_profileId profiles
    = supported_ids (combine (range 8) answers).
Proof.
  assert (Hi : 0 <= 0 < Z.of_nat (List.length
                                    (devices (mgr (Fake.started Fake.fleet)))))
    by (vm_compute; split; [discriminate | reflexivity]).
  split; [exact Hi|].
  exact (getAvailableProfiles_queries_eight 0 (Fake.started Fake.fleet) Hi).
Defined.

(** X13, on two devices, for the index 2. *)
Lemma accounting_index_out_of_range_witness :
  Z.of_nat (List.length (Accounting.devices
                           (Accounting.self Accounting.two_devices))) <= 2 /\
  Accounting.getRunningProcessStats 2 Accounting.two_devices
  = ([], Accounting.two_devices) /\
  Accounting.getProcessAccountingStats 2 5 Accounting.two_devices
  = (Accounting.set_pid 5 (Accounting.declare_ProcessAccountingStats
                             Accounting.two_devices),
     Accounting.two_devices).
Proof.
  assert (Hi : Z.of_nat (List.length (Accounting.devices
                           (Accounting.self Accounting.two_devices))) <= 2)
    by (vm_compute; discriminate).
  split; [exact Hi|].
  destruct (accounting_index_out_of_range 2 5 Accounting.two_devices Hi)
    as (_ & _ & _ & A & B & _).
  split; [exact A | exact B].
Defined.

(** X14, on two devices: the sizing call reports four pids, the
    filling call three, and four statistics queries are made. *)
Lemma getRunningProcessStats_follows_sizing_call_witness :
  0 <= 0 < Z.of_nat (List.length (Accounting.devices
                                    (Accounting.self Accounting.two_devices))) /\
  Accounting.sizing_count 0 Accounting.two_devices = 4 /\
  List.map Accounting.pid
           (fst (Accounting.getRunningProcessStats 0 Accounting.two_devices))
  = List.map fst
      (filter Accounting.succeeded
         (Accounting.stats_queries_of
            (Accounting.events_since Accounting.two_devices
               (snd (Accounting.getRunningProcessStats 0
                       Accounting.two_devices))))).
Proof.
  assert (Hi : 0 <= 0 < Z.of_nat (List.length (Accounting.devices
                                    (Accounting.self Accounting.two_devices))))
    by (vm_compute; split; [discriminate | reflexivity]).
  split; [exact Hi|]. split; [vm_compute; reflexivity|].
  exact (proj1 (proj2 (getRunningProcessStats_follows_sizing_call
                         0 Accounting.two_devices Hi))).
Defined.

(** X16, on two devices. *)
Lemma getAllDeviceAccountingStats_keys_witness :
  Z.of_nat (List.length (Accounting.devices
                           (Accounting.self Accounting.two_devices))) <= 2 ^ 32 /\
  StronglySorted Z.lt
    (List.map fst
       (fst (Accounting.getAllDeviceAccountingStats Accounting.two_devices))).
Proof.
  assert (Hb : Z.of_nat (List.length (Accounting.devices
                           (Accounting.self Accounting.two_devices))) <= 2 ^ 32)
    by (vm_compute; discriminate).
  split; [exact Hb|].
  exact (proj1 (proj2 (proj2 (getAllDeviceAccountingStats_keys
                                Accounting.two_devices Hb)))).
Defined.
